(** * Verified-boot decision core of kernelflinger

    A shallow embedding of the boot-target selector ([kernelflinger.c]) and
    of the AVB adapter (rollback controller, verifier-outcome mapping,
    command-line builder), with the properties the specification states
    about them.

    Conventions.  C enumerations are inductive types.  [UINT8] trust states
    are integers ([Z]) compared the way the C code compares them; 64-bit
    rollback indexes are naturals ([N]), the code only compares and copies
    them.  Calls into firmware, storage and the external verifier are
    modelled as explicit state passing over a device or world record, or as
    operations of an interface record where the C code goes through a table
    of function pointers.  Memory allocation is assumed to succeed. *)

From Stdlib Require Import ZArith NArith List Bool Lia Sorted.
From Stdlib.Strings Require Import String Ascii Byte.
From stdpp Require Import strings.
From stdpp Require Import base option list gmap.
Import ListNotations.

Local Open Scope Z_scope.

(* ===================================================================== *)
(** * Shared types                                                        *)
(* ===================================================================== *)

(** Modelled from the spec: [enum boot_target] is declared in targets.h,
    which is not under src; the specification lists exactly these
    variants. *)
Inductive boot_target :=
  | NORMAL_BOOT | RECOVERY | FASTBOOT | ESP_BOOTIMAGE | ESP_EFI_BINARY
  | MEMORY | CHARGER | POWER_OFF | EXIT_SHELL | UNKNOWN_TARGET | DNX
  | CRASHMODE.

#[global] Instance boot_target_eq_dec : EqDecision boot_target.
Proof. solve_decision. Defined.

(** The [EFI_STATUS] codes the embedded functions produce or test. *)
Inductive EFI_STATUS :=
  | EFI_SUCCESS | EFI_LOAD_ERROR | EFI_INVALID_PARAMETER | EFI_NOT_FOUND
  | EFI_OUT_OF_RESOURCES | EFI_NOT_READY | EFI_DEVICE_ERROR
  | EFI_ACCESS_DENIED.

#[global] Instance EFI_STATUS_eq_dec : EqDecision EFI_STATUS.
Proof. solve_decision. Defined.

(** The [EFI_ERROR] macro: every code above except [EFI_SUCCESS] has the
    error bit set. *)
Definition EFI_ERROR (ret : EFI_STATUS) : bool :=
  match ret with EFI_SUCCESS => false | _ => true end.

(** Modelled from the spec: the trust colours are [UINT8] constants of
    security.h, which is not under src; an "ordered four-color enum
    GREEN < YELLOW < ORANGE < RED", GREEN being written as 0x00. *)
Definition BOOT_STATE_GREEN  : Z := 0.
Definition BOOT_STATE_YELLOW : Z := 1.
Definition BOOT_STATE_ORANGE : Z := 2.
Definition BOOT_STATE_RED    : Z := 3.

(** A [UINT8] that holds one of the four colours. *)
Definition is_boot_state (s : Z) : Prop :=
  BOOT_STATE_GREEN <= s <= BOOT_STATE_RED.

(* ===================================================================== *)
(** * The AVB source file: rollback controller, verifier adapter,        *)
(**   loaders, command-line builder                                       *)
(* ===================================================================== *)

Module Avb.

(** ** Types of libavb *)

(** [AvbIOResult] of libavb; the code only tests against
    [AVB_IO_RESULT_OK]. *)
Inductive AvbIOResult :=
  | AVB_IO_RESULT_OK
  | AVB_IO_RESULT_ERROR_OOM
  | AVB_IO_RESULT_ERROR_IO
  | AVB_IO_RESULT_ERROR_NO_SUCH_PARTITION
  | AVB_IO_RESULT_ERROR_RANGE_OUTSIDE_PARTITION
  | AVB_IO_RESULT_ERROR_NO_SUCH_VALUE.

#[global] Instance AvbIOResult_eq_dec : EqDecision AvbIOResult.
Proof. solve_decision. Defined.

Definition io_ok (r : AvbIOResult) : bool :=
  match r with AVB_IO_RESULT_OK => true | _ => false end.

(** The two [AvbOps] callbacks the controller uses, as operations on a
    device state [D].  [read_rollback_index] yields the result code, the
    value stored through the out pointer, and the device afterwards. *)
Record AvbOps (D : Type) := {
  read_rollback_index  : nat -> D -> AvbIOResult * N * D;
  write_rollback_index : nat -> N -> D -> AvbIOResult * D
}.
Arguments read_rollback_index {D} _ _ _.
Arguments write_rollback_index {D} _ _ _ _.

(** [AvbSlotVerifyResult] of libavb.  [get_avb_result] names four of its
    values; the others reach the [default] branch of its [switch]. *)
Inductive AvbSlotVerifyResult :=
  | AVB_SLOT_VERIFY_RESULT_OK
  | AVB_SLOT_VERIFY_RESULT_ERROR_OOM
  | AVB_SLOT_VERIFY_RESULT_ERROR_IO
  | AVB_SLOT_VERIFY_RESULT_ERROR_VERIFICATION
  | AVB_SLOT_VERIFY_RESULT_ERROR_ROLLBACK_INDEX
  | AVB_SLOT_VERIFY_RESULT_ERROR_PUBLIC_KEY_REJECTED
  | AVB_SLOT_VERIFY_RESULT_ERROR_INVALID_METADATA
  | AVB_SLOT_VERIFY_RESULT_ERROR_UNSUPPORTED_VERSION
  | AVB_SLOT_VERIFY_RESULT_ERROR_INVALID_ARGUMENT.

(** [AvbABFlowResult] of libavb_ab. *)
Inductive AvbABFlowResult :=
  | AVB_AB_FLOW_RESULT_OK
  | AVB_AB_FLOW_RESULT_OK_WITH_VERIFICATION_ERROR
  | AVB_AB_FLOW_RESULT_ERROR_OOM
  | AVB_AB_FLOW_RESULT_ERROR_IO
  | AVB_AB_FLOW_RESULT_ERROR_NO_BOOTABLE_SLOTS
  | AVB_AB_FLOW_RESULT_ERROR_INVALID_ARGUMENT.

(** [AvbSlotVerifyFlags], a bit mask. *)
Definition AVB_SLOT_VERIFY_FLAGS_NONE : Z := 0.
Definition AVB_SLOT_VERIFY_FLAGS_ALLOW_VERIFICATION_ERROR : Z := 1.

(** [AvbPartitionData]: the name and the loaded bytes of a partition. *)
Record AvbPartitionData := {
  partition_name : string;
  data : list Byte.byte
}.

(** The array [rollback_indexes] of [AvbSlotVerifyData], indexed by
    location; 64-bit values. *)
Definition rollback_indexes_t := nat -> N.

(** [AvbSlotVerifyData] (also named [VBDATA]).  [num_loaded_partitions] is
    the length of [loaded_partitions]; [cmdline] is a [char *] that may be
    [NULL]. *)
Record AvbSlotVerifyData := {
  ab_suffix : string;
  loaded_partitions : list AvbPartitionData;
  cmdline : option string;
  rollback_indexes : rollback_indexes_t
}.

Definition num_loaded_partitions (sd : AvbSlotVerifyData) : nat :=
  length (loaded_partitions sd).

(** ** Rollback controller *)

Section Update.
Context {D : Type} (ops : AvbOps D) (slot_data : AvbSlotVerifyData).

(** The [for] loop of [avb_update_stored_rollback_indexes_for_slot]:
    [n] is the loop variable, [todo] the number of iterations left. *)
Fixpoint update_loop (n todo : nat) (dev : D) : bool * D :=
  match todo with
  | O => (true, dev)
  | S todo' =>
      let rollback_index := rollback_indexes slot_data n in
      if (0 <? rollback_index)%N then
        let '(io_ret, current_stored_rollback_index, dev1) :=
          read_rollback_index ops n dev in
        if negb (io_ok io_ret) then (false, dev1)
        else if (current_stored_rollback_index <? rollback_index)%N then
          let '(io_ret', dev2) :=
            write_rollback_index ops n rollback_index dev1 in
          if negb (io_ok io_ret') then (false, dev2)
          else update_loop (S n) todo' dev2
        else update_loop (S n) todo' dev1
      else update_loop (S n) todo' dev
  end.

(** [avb_update_stored_rollback_indexes_for_slot].  The macro
    [AVB_MAX_NUMBER_OF_ROLLBACK_INDEX_LOCATIONS] of libavb is the parameter
    [max_locations]. *)
Definition avb_update_stored_rollback_indexes_for_slot
    (max_locations : nat) (dev : D) : bool * D :=
  update_loop 0 max_locations dev.
End Update.

(** ** Contract of the storage behind the callbacks

    [stored dev n] is the rollback index the device holds at location [n].
    A read that succeeds returns that value, no read changes what is
    stored, a write that succeeds changes exactly its location, and a write
    that fails changes nothing. *)
Record AvbOpsSpec {D : Type} (ops : AvbOps D) (stored : D -> nat -> N) := {
  read_value : forall n dev r v dev',
    read_rollback_index ops n dev = (r, v, dev') ->
    r = AVB_IO_RESULT_OK -> v = stored dev n;
  read_frame : forall n dev r v dev',
    read_rollback_index ops n dev = (r, v, dev') ->
    forall m, stored dev' m = stored dev m;
  write_value : forall n x dev dev',
    write_rollback_index ops n x dev = (AVB_IO_RESULT_OK, dev') ->
    stored dev' n = x /\ forall m, m <> n -> stored dev' m = stored dev m;
  write_failed : forall n x dev r dev',
    write_rollback_index ops n x dev = (r, dev') ->
    r <> AVB_IO_RESULT_OK ->
    forall m, stored dev' m = stored dev m
}.

(** ** A decorator that records the I/O issued through an [AvbOps]

    Each callback is passed through unchanged and leaves an event: the
    location, the value written, and the result code. *)
Inductive io_event :=
  | EvRead  (n : nat) (r : AvbIOResult)
  | EvWrite (n : nat) (x : N) (r : AvbIOResult).

Definition log_io {D : Type} (ops : AvbOps D) : AvbOps (D * list io_event) :=
  {| read_rollback_index n '(dev, log) :=
       let '(r, v, dev') := read_rollback_index ops n dev in
       (r, v, (dev', log ++ [EvRead n r]));
     write_rollback_index n x '(dev, log) :=
       let '(r, dev') := write_rollback_index ops n x dev in
       (r, (dev', log ++ [EvWrite n x r])) |}.

Definition event_ok (e : io_event) : bool :=
  match e with EvRead _ r | EvWrite _ _ r => io_ok r end.

(** What a recorded event must satisfy with respect to the device [dev]
    the update started from.  A read is issued only at a location in
    [lo, hi) where the slot asserts a non-zero index; a write only at such
    a location, with the asserted index as value, and only when that index
    is strictly greater than the stored one. *)
Definition justified_event {D : Type} (stored : D -> nat -> N)
    (idx : rollback_indexes_t) (lo hi : nat) (dev : D) (e : io_event) : Prop :=
  match e with
  | EvRead n _ => (lo <= n < hi)%nat /\ (0 < idx n)%N
  | EvWrite n x _ =>
      (lo <= n < hi)%nat /\ x = idx n /\ (0 < x)%N /\ (stored dev n < x)%N
  end.

(** How the event log of a run looks: on success every event succeeded;
    on failure exactly the last event failed. *)
Definition log_shape (r : bool) (new : list io_event) : Prop :=
  if r then Forall (fun e => event_ok e = true) new
  else exists pre e, new = pre ++ [e] /\ event_ok e = false /\
         Forall (fun e => event_ok e = true) pre.

(** ** A concrete device: non-volatile indexes with scripted I/O results

    [nv_index] is the sparse map of stored indexes (an absent location
    reads as 0); [nv_script] gives the result code of each coming I/O
    operation, in order, [AVB_IO_RESULT_OK] once it is exhausted. *)
Record nv_device := {
  nv_index  : gmap nat N;
  nv_script : list AvbIOResult
}.

Definition nv_stored (dev : nv_device) (n : nat) : N :=
  default 0%N (nv_index dev !! n).

Definition nv_next (dev : nv_device) : AvbIOResult * list AvbIOResult :=
  match nv_script dev with
  | [] => (AVB_IO_RESULT_OK, [])
  | r :: rest => (r, rest)
  end.

Definition nv_ops : AvbOps nv_device :=
  {| read_rollback_index n dev :=
       let '(r, rest) := nv_next dev in
       (r, (if io_ok r then nv_stored dev n else 0%N),
        {| nv_index := nv_index dev; nv_script := rest |});
     write_rollback_index n x dev :=
       let '(r, rest) := nv_next dev in
       (r, {| nv_index := (if io_ok r then <[n := x]> (nv_index dev)
                           else nv_index dev);
              nv_script := rest |}) |}.

(** Sample inputs: a slot asserting indexes at locations 0 and 2, and a
    device that already stores a larger index at location 2. *)
Definition sample_indexes : rollback_indexes_t :=
  fun n => match n with 0%nat => 5%N | 2%nat => 3%N | _ => 0%N end.

Definition slot_asserting (idx : rollback_indexes_t) : AvbSlotVerifyData :=
  {| ab_suffix := ""%string; loaded_partitions := []; cmdline := None;
     rollback_indexes := idx |}.

Definition sample_device (script : list AvbIOResult) : nv_device :=
  {| nv_index := <[0%nat := 2%N]> (<[2%nat := 7%N]> ∅); nv_script := script |}.

(** A slot asserting indexes at locations 0 and 1, both above the stored
    ones. *)
Definition advancing_indexes : rollback_indexes_t :=
  fun n => match n with 0%nat => 5%N | 1%nat => 7%N | _ => 0%N end.

(** ** Verifier adapter *)

Local Open Scope string_scope.

(** Modelled from the spec: the boot image header is declared outside src;
    the payload "must begin with a fixed 8-byte magic", which for an
    Android boot image is the text ANDROID!.  [magic] is the first field of
    [struct boot_img_hdr]. *)
Definition BOOT_MAGIC : list Byte.byte := list_byte_of_string "ANDROID!".
Definition BOOT_MAGIC_SIZE : nat := 8.

Definition header_magic (payload : list Byte.byte) : list Byte.byte := payload.

(** [avb_memcmp]: compares the first [n] bytes, 0 when they agree.  A byte
    past the end of a buffer reads as 0 in the model. *)
Fixpoint avb_memcmp (src1 src2 : list Byte.byte) (n : nat) : Z :=
  match n with
  | O => 0
  | S n' =>
      let b1 := hd Byte.x00 src1 in
      let b2 := hd Byte.x00 src2 in
      if Byte.eqb b1 b2 then avb_memcmp (tl src1) (tl src2) n'
      else Z.of_nat (Byte.to_nat b1) - Z.of_nat (Byte.to_nat b2)
  end.

(** [get_avb_result]: the status and the trust state left in
    [*boot_state].  The slot data must exist, hold a partition, and that
    partition must start with the boot magic; only then is the verifier
    outcome mapped.  (The [boot_state] pointer is the address of a caller's
    variable and is never [NULL].) *)
Definition get_avb_result (slot_data : option AvbSlotVerifyData)
    (allow_verification_error : bool) (verify_result : AvbSlotVerifyResult)
    (boot_state : Z) : EFI_STATUS * Z :=
  match slot_data with
  | None => (EFI_INVALID_PARAMETER, boot_state)
  | Some sd =>
      if (num_loaded_partitions sd <? 1)%nat then (EFI_LOAD_ERROR, boot_state)
      else
        let boot_data :=
          match loaded_partitions sd with boot :: _ => data boot | [] => [] end in
        if negb (avb_memcmp BOOT_MAGIC (header_magic boot_data)
                   BOOT_MAGIC_SIZE =? 0)%Z
        then (EFI_NOT_FOUND, boot_state)
        else
          match verify_result with
          | AVB_SLOT_VERIFY_RESULT_OK =>
              if allow_verification_error && (boot_state <? BOOT_STATE_ORANGE)%Z
              then (EFI_SUCCESS, BOOT_STATE_ORANGE)
              else (EFI_SUCCESS, boot_state)
          | AVB_SLOT_VERIFY_RESULT_ERROR_VERIFICATION
          | AVB_SLOT_VERIFY_RESULT_ERROR_ROLLBACK_INDEX
          | AVB_SLOT_VERIFY_RESULT_ERROR_PUBLIC_KEY_REJECTED =>
              if allow_verification_error && (boot_state <=? BOOT_STATE_ORANGE)%Z
              then (EFI_SUCCESS, BOOT_STATE_ORANGE)
              else (EFI_SUCCESS, BOOT_STATE_RED)
          | _ =>
              if allow_verification_error && (boot_state <=? BOOT_STATE_ORANGE)%Z
              then (EFI_SUCCESS, BOOT_STATE_ORANGE)
              else (EFI_SUCCESS, BOOT_STATE_RED)
          end
  end.

(** [get_avb_flow_result]: the same checks, then the mapping of the A/B
    flow outcome. *)
Definition get_avb_flow_result (slot_data : option AvbSlotVerifyData)
    (allow_verification_error : bool) (flow_result : AvbABFlowResult)
    (boot_state : Z) : EFI_STATUS * Z :=
  match slot_data with
  | None => (EFI_INVALID_PARAMETER, boot_state)
  | Some sd =>
      if (num_loaded_partitions sd <? 1)%nat then (EFI_LOAD_ERROR, boot_state)
      else
        let boot_data :=
          match loaded_partitions sd with boot :: _ => data boot | [] => [] end in
        if negb (avb_memcmp BOOT_MAGIC (header_magic boot_data)
                   BOOT_MAGIC_SIZE =? 0)%Z
        then (EFI_NOT_FOUND, boot_state)
        else
          match flow_result with
          | AVB_AB_FLOW_RESULT_OK =>
              if allow_verification_error && (boot_state <? BOOT_STATE_ORANGE)%Z
              then (EFI_SUCCESS, BOOT_STATE_ORANGE)
              else (EFI_SUCCESS, boot_state)
          | AVB_AB_FLOW_RESULT_OK_WITH_VERIFICATION_ERROR
          | AVB_AB_FLOW_RESULT_ERROR_OOM
          | AVB_AB_FLOW_RESULT_ERROR_IO
          | AVB_AB_FLOW_RESULT_ERROR_NO_BOOTABLE_SLOTS
          | AVB_AB_FLOW_RESULT_ERROR_INVALID_ARGUMENT =>
              if allow_verification_error && (boot_state <=? BOOT_STATE_ORANGE)%Z
              then (EFI_SUCCESS, BOOT_STATE_ORANGE)
              else (EFI_SUCCESS, BOOT_STATE_RED)
          end
  end.

(** ** The adapter table, as the specification words it

    "OK: keep state, raise to ORANGE if below when errors are allowed; any
    error outcome: RED, or ORANGE if at most ORANGE when errors are
    allowed". *)
Definition adapter_table (outcome_ok allow_error : bool) (state : Z) : Z :=
  if outcome_ok then
    if allow_error && (state <? BOOT_STATE_ORANGE)%Z then BOOT_STATE_ORANGE
    else state
  else
    if allow_error && (state <=? BOOT_STATE_ORANGE)%Z then BOOT_STATE_ORANGE
    else BOOT_STATE_RED.

Definition verify_result_ok (r : AvbSlotVerifyResult) : bool :=
  match r with AVB_SLOT_VERIFY_RESULT_OK => true | _ => false end.

Definition flow_result_ok (r : AvbABFlowResult) : bool :=
  match r with AVB_AB_FLOW_RESULT_OK => true | _ => false end.

(** A payload that starts with the boot magic. *)
Definition magic_ok (payload : list Byte.byte) : Prop :=
  take BOOT_MAGIC_SIZE payload = BOOT_MAGIC.

(** ** The loaders

    What the loaders call outside this file: [avb_init] (whether it yields
    an [AvbOps]), the slot controller, and the external verifier, which
    returns its outcome and the slot data it leaves in [*slot_data]. *)
Record avb_env := {
  avb_init_ok : bool;
  USE_SLOT : bool;
  use_slot : bool;
  slot_get_active : option string;
  avb_slot_verify :
    string -> string -> Z -> AvbSlotVerifyResult * option AvbSlotVerifyData;
  avb_ab_flow : string -> Z -> AvbABFlowResult * option AvbSlotVerifyData;
  slot_label : string -> string;
  gpt_get_partition_uuid : string -> EFI_STATUS * string
}.

(** What a loader leaves behind: its status, [*bootimage_p] ([None] is
    [NULL]), [*boot_state], [*slot_data], and the suffix handed to
    [slot_set_active_cached], if it was called. *)
Record load_result := {
  load_ret : EFI_STATUS;
  bootimage_p : option (list Byte.byte);
  boot_state_out : Z;
  slot_data_out : option AvbSlotVerifyData;
  active_cached : option string
}.

(** The [fail:] label of both loaders. *)
Definition load_fail (ret : EFI_STATUS)
    (slot_data : option AvbSlotVerifyData) : load_result :=
  {| load_ret := ret; bootimage_p := None;
     boot_state_out := BOOT_STATE_RED;
     slot_data_out := slot_data; active_cached := None |}.

(** The [data] of the first loaded partition of [*slot_data], read after
    the adapter has accepted the slot data. *)
Definition boot_partition_data (slot_data : option AvbSlotVerifyData)
    : option (list Byte.byte) :=
  match slot_data with
  | Some sd =>
      match loaded_partitions sd with boot :: _ => Some (data boot) | [] => None end
  | None => None
  end.

Definition android_image_load_partition_avb (env : avb_env) (label : string)
    (boot_state : Z) (slot_data : option AvbSlotVerifyData) : load_result :=
  let allow_verification_error := negb (boot_state =? BOOT_STATE_GREEN)%Z in
  if negb (avb_init_ok env) then load_fail EFI_OUT_OF_RESOURCES slot_data
  else
    let slot_suffix :=
      if use_slot env then
        match slot_get_active env with Some s => s | None => "" end
      else "" in
    let flags :=
      if allow_verification_error
      then Z.lor AVB_SLOT_VERIFY_FLAGS_NONE
                 AVB_SLOT_VERIFY_FLAGS_ALLOW_VERIFICATION_ERROR
      else AVB_SLOT_VERIFY_FLAGS_NONE in
    let '(verify_result, slot_data') :=
      avb_slot_verify env label slot_suffix flags in
    let '(ret, boot_state') :=
      get_avb_result slot_data' allow_verification_error verify_result
        boot_state in
    if EFI_ERROR ret then load_fail ret slot_data'
    else {| load_ret := ret;
            bootimage_p := boot_partition_data slot_data';
            boot_state_out := boot_state';
            slot_data_out := slot_data';
            active_cached := None |}.

Definition android_image_load_partition_avb_ab (env : avb_env) (label : string)
    (boot_state : Z) (slot_data : option AvbSlotVerifyData) : load_result :=
  if negb (USE_SLOT env)
  then android_image_load_partition_avb env label boot_state slot_data
  else
    let allow_verification_error := negb (boot_state =? BOOT_STATE_GREEN)%Z in
    let flags :=
      if allow_verification_error
      then Z.lor AVB_SLOT_VERIFY_FLAGS_NONE
                 AVB_SLOT_VERIFY_FLAGS_ALLOW_VERIFICATION_ERROR
      else AVB_SLOT_VERIFY_FLAGS_NONE in
    let '(flow_result, slot_data') := avb_ab_flow env label flags in
    let '(ret, boot_state') :=
      get_avb_flow_result slot_data' allow_verification_error flow_result
        boot_state in
    if EFI_ERROR ret then load_fail ret slot_data'
    else {| load_ret := ret;
            bootimage_p := boot_partition_data slot_data';
            boot_state_out := boot_state';
            slot_data_out := slot_data';
            active_cached := ab_suffix <$> slot_data' |}.

(** ** How the loaders call the verifier

    The flag word, the slot suffix and the error policy both loaders derive
    from their inputs. *)
Definition caller_allows_error (incoming_state : Z) : bool :=
  negb (incoming_state =? BOOT_STATE_GREEN)%Z.

Definition caller_flags (allow_verification_error : bool) : Z :=
  if allow_verification_error
  then AVB_SLOT_VERIFY_FLAGS_ALLOW_VERIFICATION_ERROR
  else AVB_SLOT_VERIFY_FLAGS_NONE.

Definition caller_suffix (env : avb_env) : string :=
  if use_slot env then default "" (slot_get_active env) else "".

(** ** Command-line builder *)

Definition AVB_ROOTFS_PREFIX : string := "skip_initramfs rootwait ro init=/init".
Definition DISABLE_AVB_ROOTFS_PREFIX : string := " root=".

(** Modelled from the spec: [prepend_command_line] is not under src.  The
    command line is assembled "by prepending fragments": when the call
    succeeds, the formatted fragment is put in front of the line built so
    far, separated by a space; on a [NULL] line the fragment becomes the
    line.  This is the function when it succeeds. *)
Definition prepend_command_line (cmdline16 : option string) (fragment : string)
    : EFI_STATUS * option string :=
  match cmdline16 with
  | None => (EFI_SUCCESS, Some fragment)
  | Some old => (EFI_SUCCESS, Some (fragment +:+ " " +:+ old))
  end.

(** The functions of this file test the status of every
    [prepend_command_line] they call, so they get the function they call
    as the parameter [pcl], which may fail.  What the properties below
    assume of it: when it succeeds the line is as [prepend_command_line]
    says; when it fails the line is left as it was. *)
Definition prepend_fn : Type :=
  option string -> string -> EFI_STATUS * option string.

Record prepend_contract (pcl : prepend_fn) : Prop := {
  prepend_done : forall line f,
    EFI_ERROR (pcl line f).1 = false -> pcl line f = prepend_command_line line f;
  prepend_failed : forall line f,
    EFI_ERROR (pcl line f).1 = true -> (pcl line f).2 = line
}.

(** A [prepend_command_line] that cannot allocate. *)
Definition prepend_out_of_resources : prepend_fn :=
  fun line _ => (EFI_OUT_OF_RESOURCES, line).

(** [avb_strstr] of libavb: the offset of the first occurrence of [needle]
    in [haystack], [None] for [NULL]. *)
Fixpoint avb_strstr (haystack needle : string) : option nat :=
  match haystack with
  | EmptyString => None
  | String _ rest =>
      if String.prefix needle haystack then Some O
      else S <$> avb_strstr rest needle
  end.

Definition avb_prepend_command_line_rootfs (pcl : prepend_fn) (env : avb_env)
    (cmdline16 : option string) (boot_target : boot_target)
    : EFI_STATUS * option string :=
  if decide (boot_target = RECOVERY \/ boot_target = MEMORY)
  then (EFI_SUCCESS, cmdline16)
  else if use_slot env then
    let '(ret, cmdline16') := pcl cmdline16 AVB_ROOTFS_PREFIX in
    (ret, cmdline16')
  else (EFI_SUCCESS, cmdline16).

(** [prepend_slot_command_line]; the status of
    [avb_prepend_command_line_rootfs] is not looked at. *)
Definition prepend_slot_command_line (pcl : prepend_fn) (env : avb_env)
    (cmdline16 : option string) (boot_target : boot_target)
    (vb_data : option AvbSlotVerifyData) : EFI_STATUS * option string :=
  let '(_, cmdline16) :=
    avb_prepend_command_line_rootfs pcl env cmdline16 boot_target in
  if use_slot env then
    let '(ret, cmdline16) :=
      match slot_get_active env with
      | Some suffix =>
          pcl cmdline16 ("androidboot.slot_suffix=" +:+ suffix)
      | None => (EFI_SUCCESS, cmdline16)
      end in
    if EFI_ERROR ret then (ret, cmdline16)
    else
      match vb_data ≫= cmdline with
      | Some verified =>
          match avb_strstr verified "root=" with
          | Some _ => (ret, cmdline16)
          | None =>
              let '(ret, system_uuid) :=
                gpt_get_partition_uuid env (slot_label env "system") in
              if EFI_ERROR ret then (ret, cmdline16)
              else
                pcl cmdline16
                  (DISABLE_AVB_ROOTFS_PREFIX +:+ "PARTUUID=" +:+ system_uuid)
          end
      | None => (ret, cmdline16)
      end
  else (EFI_SUCCESS, cmdline16).

(** ** Words for the command-line properties

    [contains haystack needle]: [needle] occurs in [haystack].
    [prepend_fragments fs line]: the line after the fragments [fs] have
    been prepended one after the other, the first of [fs] last, so that the
    fragments appear in the order of [fs] in front of [line]. *)
Definition contains (haystack needle : string) : Prop :=
  exists pre post, haystack = pre +:+ needle +:+ post.

Definition prepend_fragments (fs : list string) (line : option string)
    : option string :=
  foldr (fun f acc => (prepend_command_line acc f).2) line fs.

Definition slot_suffix_fragment (suffix : string) : string :=
  "androidboot.slot_suffix=" +:+ suffix.

Definition root_fragment (uuid : string) : string :=
  " root=PARTUUID=" +:+ uuid.

(** The fragments of the command-line rule: "skip_initramfs ..." unless the
    boot target is RECOVERY or MEMORY, and the slot suffix when a slot is
    active. *)
Definition rootfs_fragments (boot_target : boot_target) : list string :=
  if decide (boot_target = RECOVERY \/ boot_target = MEMORY) then []
  else [AVB_ROOTFS_PREFIX].

Definition suffix_fragments (env : avb_env) : list string :=
  match slot_get_active env with
  | Some suffix => [slot_suffix_fragment suffix]
  | None => []
  end.

Definition sample_uuid : string := "01234567-89ab-cdef-0123-456789abcdef".

(** Sample inputs. *)
Definition android_payload : list Byte.byte :=
  list_byte_of_string "ANDROID!kernel".

Definition sample_slot_data (payload : list Byte.byte)
    (verified : option string) : AvbSlotVerifyData :=
  {| ab_suffix := "_a";
     loaded_partitions := [{| partition_name := "boot"; data := payload |}];
     cmdline := verified;
     rollback_indexes := fun _ => 0%N |}.

Definition sample_env (r : AvbSlotVerifyResult) (f : AvbABFlowResult)
    (payload : list Byte.byte) : avb_env :=
  {| avb_init_ok := true; USE_SLOT := true; use_slot := true;
     slot_get_active := Some "_a";
     avb_slot_verify := fun _ _ _ => (r, Some (sample_slot_data payload None));
     avb_ab_flow := fun _ _ => (f, Some (sample_slot_data payload None));
     slot_label := fun l => l +:+ "_a";
     gpt_get_partition_uuid :=
       fun _ => (EFI_SUCCESS, sample_uuid) |}.

(** ** Words for the order of the recorded I/O *)

(** The location an event works on. *)
Definition event_loc (e : io_event) : nat :=
  match e with EvRead n _ | EvWrite n _ _ => n end.

Definition is_write (e : io_event) : bool :=
  match e with EvWrite _ _ _ => true | EvRead _ _ => false end.

Definition is_read (e : io_event) : bool := negb (is_write e).

(** The shape of the I/O one update issues, from location [lo] on: at
    each location at most one read, followed at once by at most one write
    if the read succeeded, and the locations go up. *)
Inductive io_ordered : nat -> list io_event -> Prop :=
  | io_ordered_nil lo : io_ordered lo []
  | io_ordered_read lo n r rest :
      (lo <= n)%nat -> io_ordered (S n) rest ->
      io_ordered lo (EvRead n r :: rest)
  | io_ordered_read_write lo n x r rest :
      (lo <= n)%nat -> io_ordered (S n) rest ->
      io_ordered lo (EvRead n AVB_IO_RESULT_OK :: EvWrite n x r :: rest).

End Avb.

(* ===================================================================== *)
(** * kernelflinger.c: boot-target selection and image validation        *)
(* ===================================================================== *)

Module Kf.

Local Open Scope string_scope.

(** ** Constants of kernelflinger.c *)
Definition EFI_RESET_WAIT_MS : nat := 200.
Definition DETECT_KEY_STALL_TIME_MS : N := 1.
Definition FASTBOOT_HOLD_DELAY : nat := 2 * 1000.
Definition FASTBOOT_SENTINEL : string := "\force_fastboot".
Definition WATCHDOG_DELAY : Z := 10 * 60.

(** ** Types of the headers kernelflinger.c includes *)

(** [enum ui_events] (ui.h); [MAGIC_KEY] is [EV_DOWN]. *)
Inductive ui_events := EV_NONE | EV_UP | EV_DOWN | EV_POWER.

#[global] Instance ui_events_eq_dec : EqDecision ui_events.
Proof. solve_decision. Defined.

Definition MAGIC_KEY : ui_events := EV_DOWN.

(** [EFI_INPUT_KEY]. *)
Record EFI_INPUT_KEY := { ScanCode : Z; UnicodeChar : Z }.

(** [enum wake_sources] and [enum reset_sources] (power.h). *)
Inductive wake_sources :=
  | WAKE_NOT_APPLICABLE | WAKE_BATTERY_INSERTED | WAKE_USB_CHARGER_INSERTED
  | WAKE_ACDC_CHARGER_INSERTED | WAKE_POWER_BUTTON_PRESSED | WAKE_RTC_TIMER
  | WAKE_BATTERY_REACHED_IA_THRESHOLD | WAKE_ERROR.

#[global] Instance wake_sources_eq_dec : EqDecision wake_sources.
Proof. solve_decision. Defined.

Inductive reset_sources :=
  | RESET_NOT_APPLICABLE | RESET_OS_INITIATED | RESET_FORCED
  | RESET_FW_UPDATE | RESET_KERNEL_WATCHDOG | RESET_SECURITY_WATCHDOG
  | RESET_SECURITY_INITIATED | RESET_EC_WATCHDOG | RESET_PMIC_WATCHDOG
  | RESET_SHORT_POWER_LOSS | RESET_PLATFORM_SPECIFIC | RESET_UNKNOWN
  | RESET_ERROR.

#[global] Instance reset_sources_eq_dec : EqDecision reset_sources.
Proof. solve_decision. Defined.

(** Modelled from the spec: [struct bootloader_message] is declared outside
    src; "command[32], status[32], recovery[768], stage[32] - ASCII,
    NUL-padded".  A field is the list of its bytes. *)
Record bootloader_message := {
  command  : list ascii;
  status   : list ascii;
  recovery : list ascii;
  stage    : list ascii
}.

(** What the user interface was asked to show. *)
Inductive ux_event :=
  | UxLowBattery (seconds : nat)
  | UxCrashEventMenu.

(** ** C strings

    [NUL] ends a string held in an array; a byte past the end of an array
    reads as [NUL] in the model. *)
Definition NUL : ascii := Ascii.zero.

Definition char_at (a : list ascii) (i : nat) : ascii := default NUL (a !! i).

(** The string an array holds from its start to the first [NUL]. *)
Fixpoint cstr (a : list ascii) : string :=
  match a with
  | [] => ""
  | c :: rest => if Ascii.eqb c NUL then "" else String c (cstr rest)
  end.

(** The array of [size] bytes that holds [s], NUL padded. *)
Definition char_array (size : nat) (s : string) : list ascii :=
  take size (list_ascii_of_string s ++ replicate size NUL).

Definition char_code (c : ascii) : Z := Z.of_nat (nat_of_ascii c).

(** [strncmpa] of gnu-efi: compares at most [len] characters and stops at
    the end of [s1]. *)
Fixpoint strncmpa (s1 s2 : list ascii) (len : nat) : Z :=
  match len with
  | O => 0
  | S len' =>
      let c1 := char_at s1 0 in
      let c2 := char_at s2 0 in
      if Ascii.eqb c1 NUL then char_code c1 - char_code c2
      else if negb (Ascii.eqb c1 c2) then char_code c1 - char_code c2
      else strncmpa (tl s1) (tl s2) len'
  end.

(** [StrCmp] of gnu-efi on NUL-terminated wide strings: 0 when equal. *)
Fixpoint StrCmp (s1 s2 : string) : Z :=
  match s1, s2 with
  | EmptyString, EmptyString => 0
  | EmptyString, String c2 _ => - char_code c2
  | String c1 _, EmptyString => char_code c1
  | String c1 r1, String c2 r2 =>
      if Ascii.eqb c1 c2 then StrCmp r1 r2 else char_code c1 - char_code c2
  end.

(** [s + n] on a string pointer. *)
Fixpoint str_drop (n : nat) (s : string) : string :=
  match n, s with
  | O, _ => s
  | S n', String _ rest => str_drop n' rest
  | S _, EmptyString => EmptyString
  end.

(** ** The platform

    What the selector reads and cannot change: build flavour, arguments,
    files, firmware answers, and the results of the calls it makes into
    other modules.  Of the user-interface calls [ui_enforce_key_held],
    [ux_display_low_battery] and [ux_prompt_user_for_boot_target] only the
    answer is kept, and for the last two that the screen was shown: the
    time they take and the keys they read are outside this model, so
    [stalled_us] and [key_queue] account for the polling loop of
    [check_magic_key] and for nothing else. *)
Record platform := {
  USER : bool;
  argv : option (list string);
  esp_files : list string;
  magic_key_timeout_var : option nat;
  ui_keycode_to_event : Z -> ui_events;
  ui_enforce_key_held : nat -> ui_events -> bool;
  crash_event_menu : bool;
  watchdog_status_ok : bool;
  watchdog_reset_ok : bool;
  watchdog_set_time_ok : bool;
  watchdog_set_counter_ok : bool;
  reset_source : reset_sources;
  now : option Z;
  watchdog_counter_max : Z;
  crash_menu_choice : boot_target;
  off_mode_charge : bool;
  wake_source : wake_sources;
  write_bcb_ok : bool;
  name_to_boot_target : string -> boot_target;
  set_verity_ok : bool;
  battery_below_boot_OS_threshold : bool;
  charger_plugged_in : bool
}.

(** ** The state the selector can change *)
Record state := {
  key_queue : list (EFI_STATUS * EFI_INPUT_KEY);
  stalled_us : N;
  misc : option bootloader_message;
  bcb_writes : list bootloader_message;
  loader_entry_one_shot : option string;
  watchdog_counter : Z;
  watchdog_time_ref : Z;
  reboot_reason : option string;
  verity_corrupted : bool;
  ux_shown : list ux_event;
  unittests_run : list (option string)
}.

Definition set_keys (q : list (EFI_STATUS * EFI_INPUT_KEY)) (st : state) :=
  {| key_queue := q; stalled_us := stalled_us st; misc := misc st;
     bcb_writes := bcb_writes st;
     loader_entry_one_shot := loader_entry_one_shot st;
     watchdog_counter := watchdog_counter st;
     watchdog_time_ref := watchdog_time_ref st;
     reboot_reason := reboot_reason st;
     verity_corrupted := verity_corrupted st; ux_shown := ux_shown st;
     unittests_run := unittests_run st |}.

Definition set_stalled (us : N) (st : state) :=
  {| key_queue := key_queue st; stalled_us := us; misc := misc st;
     bcb_writes := bcb_writes st;
     loader_entry_one_shot := loader_entry_one_shot st;
     watchdog_counter := watchdog_counter st;
     watchdog_time_ref := watchdog_time_ref st;
     reboot_reason := reboot_reason st;
     verity_corrupted := verity_corrupted st; ux_shown := ux_shown st;
     unittests_run := unittests_run st |}.

Definition set_bcb (m : option bootloader_message)
    (writes : list bootloader_message) (st : state) :=
  {| key_queue := key_queue st; stalled_us := stalled_us st; misc := m;
     bcb_writes := writes;
     loader_entry_one_shot := loader_entry_one_shot st;
     watchdog_counter := watchdog_counter st;
     watchdog_time_ref := watchdog_time_ref st;
     reboot_reason := reboot_reason st;
     verity_corrupted := verity_corrupted st; ux_shown := ux_shown st;
     unittests_run := unittests_run st |}.

Definition set_one_shot (v : option string) (st : state) :=
  {| key_queue := key_queue st; stalled_us := stalled_us st; misc := misc st;
     bcb_writes := bcb_writes st;
     loader_entry_one_shot := v;
     watchdog_counter := watchdog_counter st;
     watchdog_time_ref := watchdog_time_ref st;
     reboot_reason := reboot_reason st;
     verity_corrupted := verity_corrupted st; ux_shown := ux_shown st;
     unittests_run := unittests_run st |}.

Definition set_watchdog (counter time_ref : Z) (st : state) :=
  {| key_queue := key_queue st; stalled_us := stalled_us st; misc := misc st;
     bcb_writes := bcb_writes st;
     loader_entry_one_shot := loader_entry_one_shot st;
     watchdog_counter := counter;
     watchdog_time_ref := time_ref;
     reboot_reason := reboot_reason st;
     verity_corrupted := verity_corrupted st; ux_shown := ux_shown st;
     unittests_run := unittests_run st |}.

Definition set_reboot_reason (r : option string) (st : state) :=
  {| key_queue := key_queue st; stalled_us := stalled_us st; misc := misc st;
     bcb_writes := bcb_writes st;
     loader_entry_one_shot := loader_entry_one_shot st;
     watchdog_counter := watchdog_counter st;
     watchdog_time_ref := watchdog_time_ref st;
     reboot_reason := r;
     verity_corrupted := verity_corrupted st; ux_shown := ux_shown st;
     unittests_run := unittests_run st |}.

Definition set_verity (b : bool) (st : state) :=
  {| key_queue := key_queue st; stalled_us := stalled_us st; misc := misc st;
     bcb_writes := bcb_writes st;
     loader_entry_one_shot := loader_entry_one_shot st;
     watchdog_counter := watchdog_counter st;
     watchdog_time_ref := watchdog_time_ref st;
     reboot_reason := reboot_reason st;
     verity_corrupted := b; ux_shown := ux_shown st;
     unittests_run := unittests_run st |}.

Definition set_ux (l : list ux_event) (st : state) :=
  {| key_queue := key_queue st; stalled_us := stalled_us st; misc := misc st;
     bcb_writes := bcb_writes st;
     loader_entry_one_shot := loader_entry_one_shot st;
     watchdog_counter := watchdog_counter st;
     watchdog_time_ref := watchdog_time_ref st;
     reboot_reason := reboot_reason st;
     verity_corrupted := verity_corrupted st; ux_shown := l;
     unittests_run := unittests_run st |}.

Definition set_unittests (l : list (option string)) (st : state) :=
  {| key_queue := key_queue st; stalled_us := stalled_us st; misc := misc st;
     bcb_writes := bcb_writes st;
     loader_entry_one_shot := loader_entry_one_shot st;
     watchdog_counter := watchdog_counter st;
     watchdog_time_ref := watchdog_time_ref st;
     reboot_reason := reboot_reason st;
     verity_corrupted := verity_corrupted st; ux_shown := ux_shown st;
     unittests_run := l |}.

(** ** A state monad for the checks *)
Definition M (A : Type) : Type := state -> A * state.

Definition ret {A : Type} (a : A) : M A := fun st => (a, st).

Definition bind {A B : Type} (m : M A) (k : A -> M B) : M B :=
  fun st => let '(a, st') := m st in k a st'.

Definition get : M state := fun st => (st, st).
Definition modify (f : state -> state) : M unit := fun st => (tt, f st).

Declare Scope kf_scope.
Delimit Scope kf_scope with kf.
Notation "x <- m ;; k" := (bind m (fun x => k))
  (at level 100, m at next level, right associativity) : kf_scope.
Notation "m ;; k" := (bind m (fun _ => k))
  (at level 100, right associativity) : kf_scope.
Local Open Scope kf_scope.

(** ** Firmware and library calls with an effect *)

(** Modelled from the spec: [file_exists] is not under src; it tells
    whether a file is present on the boot device's ESP. *)
Definition file_exists (pf : platform) (path : string) : bool :=
  bool_decide (path ∈ esp_files pf).

(** [ST->ConIn->ReadKeyStroke]: the next pending result, [EFI_NOT_READY]
    when nothing is pending. *)
Definition ReadKeyStroke : M (EFI_STATUS * EFI_INPUT_KEY) :=
  st <- get ;;
  match key_queue st with
  | [] => ret (EFI_NOT_READY, {| ScanCode := 0; UnicodeChar := 0 |})
  | r :: rest => modify (set_keys rest) ;; ret r
  end.

(** [BS->Stall], counted in microseconds. *)
Definition Stall (us : N) : M unit :=
  modify (fun st => set_stalled (stalled_us st + us)%N st).

(** Modelled from the spec: [read_bcb] and [write_bcb] are not under src;
    the BCB is "a fixed-layout record on the misc partition".  Every call
    of [write_bcb] is recorded; the partition changes when the write
    succeeds. *)
Definition read_bcb : M (EFI_STATUS * option bootloader_message) :=
  st <- get ;;
  match misc st with
  | Some bcb => ret (EFI_SUCCESS, Some bcb)
  | None => ret (EFI_DEVICE_ERROR, None)
  end.

Definition write_bcb (pf : platform) (bcb : bootloader_message) : M EFI_STATUS :=
  st <- get ;;
  if write_bcb_ok pf then
    modify (set_bcb (Some bcb) (bcb_writes st ++ [bcb])) ;; ret EFI_SUCCESS
  else
    modify (set_bcb (misc st) (bcb_writes st ++ [bcb])) ;; ret EFI_DEVICE_ERROR.

(** Modelled from the spec: the watchdog helpers are not under src; the
    "persistent state (counter: u8, time_ref: wall_time)" is read, set and
    reset through them, each call failing or not as the platform says. *)
Definition get_watchdog_status (pf : platform) : M (EFI_STATUS * Z * Z) :=
  st <- get ;;
  if watchdog_status_ok pf
  then ret (EFI_SUCCESS, watchdog_counter st, watchdog_time_ref st)
  else ret (EFI_DEVICE_ERROR, 0, 0).

Definition reset_watchdog_status (pf : platform) : M EFI_STATUS :=
  if watchdog_reset_ok pf then modify (set_watchdog 0 0) ;; ret EFI_SUCCESS
  else ret EFI_DEVICE_ERROR.

Definition set_watchdog_time_reference (pf : platform) (t : Z) : M EFI_STATUS :=
  if watchdog_set_time_ok pf then
    st <- get ;; modify (set_watchdog (watchdog_counter st) t) ;; ret EFI_SUCCESS
  else ret EFI_DEVICE_ERROR.

Definition set_watchdog_counter (pf : platform) (c : Z) : M EFI_STATUS :=
  if watchdog_set_counter_ok pf then
    st <- get ;; modify (set_watchdog c (watchdog_time_ref st)) ;; ret EFI_SUCCESS
  else ret EFI_DEVICE_ERROR.

Definition is_reboot_reason (reason : string) : M bool :=
  st <- get ;; ret (bool_decide (reboot_reason st = Some reason)).

Definition del_reboot_reason : M unit := modify (set_reboot_reason None).

Definition slot_set_verity_corrupted (pf : platform) (b : bool) : M EFI_STATUS :=
  if set_verity_ok pf then modify (set_verity b) ;; ret EFI_SUCCESS
  else ret EFI_DEVICE_ERROR.

Definition ux_show (e : ux_event) : M unit :=
  modify (fun st => set_ux (ux_shown st ++ [e]) st).

Definition unittest_main (name : option string) : M unit :=
  modify (fun st => set_unittests (unittests_run st ++ [name]) st).

(** ** The checks of the selector *)

Definition check_fastboot_sentinel (pf : platform) : boot_target :=
  if file_exists pf FASTBOOT_SENTINEL then FASTBOOT else NORMAL_BOOT.

(** The wait time [check_magic_key] settles on: the firmware variable when
    it can be read and is at most 1000, the default otherwise. *)
Definition magic_key_wait_ms (pf : platform) : nat :=
  match magic_key_timeout_var pf with
  | None => EFI_RESET_WAIT_MS
  | Some wait_ms =>
      if (1000 <? wait_ms)%nat then EFI_RESET_WAIT_MS else wait_ms
  end.

(** The polling loop of [check_magic_key]; [remaining] is [wait_ms - i].
    It ends on the first key stroke read, or after the read at
    [i = wait_ms]. *)
Fixpoint poll_key (remaining : nat) : M (EFI_STATUS * EFI_INPUT_KEY) :=
  r <- ReadKeyStroke ;;
  if decide (r.1 = EFI_SUCCESS) then ret r
  else match remaining with
       | O => ret r
       | S remaining' =>
           Stall (DETECT_KEY_STALL_TIME_MS * 1000)%N ;; poll_key remaining'
       end.

Definition check_magic_key (pf : platform) : M boot_target :=
  r <- poll_key (magic_key_wait_ms pf) ;;
  let '(status, key) := r in
  if EFI_ERROR status then ret NORMAL_BOOT
  else if negb (bool_decide (ui_keycode_to_event pf (ScanCode key) = MAGIC_KEY))
  then ret NORMAL_BOOT
  else if ui_enforce_key_held pf FASTBOOT_HOLD_DELAY MAGIC_KEY
  then ret FASTBOOT
  else ret NORMAL_BOOT.

Definition set_command (c : list ascii) (bcb : bootloader_message) :=
  {| command := c; status := status bcb; recovery := recovery bcb;
     stage := stage bcb |}.

Definition set_status (s : list ascii) (bcb : bootloader_message) :=
  {| command := command bcb; status := s; recovery := recovery bcb;
     stage := stage bcb |}.

(** The target a BCB command names, once its prefix is stripped: an ESP
    path, or a name looked up with [name_to_boot_target]. *)
Definition bcb_target (pf : platform) (target : string)
    : boot_target * option string :=
  if String.prefix "\" target then
    if negb (file_exists pf target) then (NORMAL_BOOT, None)
    else
      let len := String.length target in
      if (4 <? len)%nat then
        if (StrCmp (str_drop (len - 4) target) ".efi" =? 0)%Z
           || (StrCmp (str_drop (len - 4) target) ".EFI" =? 0)%Z
        then (ESP_EFI_BINARY, Some target)
        else (ESP_BOOTIMAGE, Some target)
      else (NORMAL_BOOT, None)
  else
    let t := name_to_boot_target pf target in
    if decide (t <> UNKNOWN_TARGET) then (t, None)
    else (NORMAL_BOOT, None).

(** [check_bcb]: the target, [*target_path] and [*oneshot]. *)
Definition check_bcb (pf : platform) : M (boot_target * option string * bool) :=
  r <- read_bcb ;;
  match r.2 with
  | None => ret (NORMAL_BOOT, None, false)
  | Some bcb =>
      let dirty := negb (Ascii.eqb (char_at (status bcb) 0) NUL) in
      let bcb := set_status (<[0%nat := NUL]> (status bcb)) bcb in
      let bcb_cmd := command bcb in
      let '(target, bcb, dirty, oneshot) :=
        if (strncmpa bcb_cmd (list_ascii_of_string "boot-") 5 =? 0)%Z then
          (Some (cstr (drop 5 bcb_cmd)), bcb, dirty, false)
        else if (strncmpa bcb_cmd (list_ascii_of_string "bootonce-") 9 =? 0)%Z
        then
          (Some (cstr (drop 9 bcb_cmd)),
           set_command (<[0%nat := NUL]> bcb_cmd) bcb, true, true)
        else (None, bcb, dirty, false) in
      (if dirty then write_bcb pf bcb ;; ret tt else ret tt) ;;
      match target with
      | None => ret (NORMAL_BOOT, None, oneshot)
      | Some target =>
          let '(t, target_path) := bcb_target pf target in
          ret (t, target_path, oneshot)
      end
  end.

Definition check_loader_entry_one_shot (pf : platform) : M boot_target :=
  st <- get ;;
  let target := loader_entry_one_shot st in
  modify (set_one_shot None) ;;
  match target with
  | None => ret NORMAL_BOOT
  | Some target =>
      let bt := name_to_boot_target pf target in
      if decide (bt = UNKNOWN_TARGET) then
        (if (StrCmp target "dm-verity device corrupted" =? 0)%Z
         then slot_set_verity_corrupted pf true ;; ret tt
         else ret tt) ;;
        ret NORMAL_BOOT
      else if bool_decide (bt = CHARGER) && negb (off_mode_charge pf)
      then ret POWER_OFF
      else ret bt
  end.

Definition WATCHDOG_RESET_SOURCES : list reset_sources :=
  [RESET_KERNEL_WATCHDOG; RESET_SECURITY_WATCHDOG; RESET_PMIC_WATCHDOG;
   RESET_EC_WATCHDOG].

Definition reset_is_due_to_watchdog_or_panic (pf : platform) : M bool :=
  if bool_decide (reset_source pf ∈ WATCHDOG_RESET_SOURCES) then ret true
  else
    panic <- is_reboot_reason "kernel_panic" ;;
    if panic then ret true else is_reboot_reason "watchdog".

(** [check_watchdog]; the counter is a [UINT8]. *)
Definition check_watchdog (pf : platform) : M boot_target :=
  if negb (crash_event_menu pf) then ret NORMAL_BOOT
  else
    ws <- get_watchdog_status pf ;;
    let '(status, counter, time_ref) := ws in
    if EFI_ERROR status then ret NORMAL_BOOT
    else
      due <- reset_is_due_to_watchdog_or_panic pf ;;
      if negb due then
        if negb (counter =? 0)%Z then
          reset_watchdog_status pf ;; ret NORMAL_BOOT
        else ret NORMAL_BOOT
      else
        shutdown <- (if USER pf then is_reboot_reason "shutdown" else ret false) ;;
        if shutdown then del_reboot_reason ;; ret POWER_OFF
        else
          match now pf with
          | None => ret NORMAL_BOOT
          | Some now =>
              let counter :=
                if (0 <? counter)%Z
                   && ((now <? time_ref)%Z || (WATCHDOG_DELAY <? now - time_ref)%Z)
                then 0%Z else counter in
              status <- (if (counter =? 0)%Z
                         then set_watchdog_time_reference pf now
                         else ret EFI_SUCCESS) ;;
              if EFI_ERROR status then ret NORMAL_BOOT
              else
                let counter := ((counter + 1) mod 256)%Z in
                if (counter <=? watchdog_counter_max pf)%Z then
                  set_watchdog_counter pf counter ;; ret NORMAL_BOOT
                else
                  reset_watchdog_status pf ;;
                  ux_show UxCrashEventMenu ;;
                  ret (crash_menu_choice pf)
          end.

(** The [for] loop of [check_command_line] over the arguments left. *)
Fixpoint command_line_loop (user : bool) (pos : nat) (args : list string)
    (bt : boot_target) : M boot_target :=
  match args with
  | [] => ret bt
  | arg :: rest =>
      if (StrCmp arg "-f" =? 0)%Z then
        command_line_loop user (S pos) rest FASTBOOT
      else if negb user && (StrCmp arg "-U" =? 0)%Z then
        unittest_main (head rest) ;; ret EXIT_SHELL
      else if (StrCmp arg "-a" =? 0)%Z then
        match rest with
        | [] => ret bt
        | _ :: rest' => command_line_loop user (S (S pos)) rest' FASTBOOT
        end
      else if (pos =? 0)%nat then command_line_loop user (S pos) rest bt
      else ret bt
  end.

Definition check_command_line (pf : platform) : M boot_target :=
  match argv pf with
  | None => ret NORMAL_BOOT
  | Some args => command_line_loop (USER pf) 0 args NORMAL_BOOT
  end.

Definition check_battery_inserted (pf : platform) : boot_target :=
  if negb (off_mode_charge pf) then NORMAL_BOOT
  else if decide (wake_source pf = WAKE_BATTERY_INSERTED) then POWER_OFF
  else NORMAL_BOOT.

Definition check_charge_mode (pf : platform) : boot_target :=
  if negb (off_mode_charge pf) then NORMAL_BOOT
  else if bool_decide (wake_source pf = WAKE_USB_CHARGER_INSERTED)
          || bool_decide (wake_source pf = WAKE_ACDC_CHARGER_INSERTED)
  then CHARGER
  else NORMAL_BOOT.

Definition check_battery (pf : platform) : boot_target :=
  if negb (off_mode_charge pf) then NORMAL_BOOT
  else if battery_below_boot_OS_threshold pf then
    if charger_plugged_in pf then CHARGER else POWER_OFF
  else NORMAL_BOOT.

(** [choose_boot_target]: the target, [*target_path] and [*oneshot]. *)
Definition choose_boot_target (pf : platform)
    : M (boot_target * option string * bool) :=
  r <- check_command_line pf ;;
  if decide (r <> NORMAL_BOOT) then ret (r, None, true) else
  let r := check_fastboot_sentinel pf in
  if decide (r <> NORMAL_BOOT) then ret (r, None, true) else
  r <- check_magic_key pf ;;
  if decide (r <> NORMAL_BOOT) then ret (r, None, true) else
  r <- check_watchdog pf ;;
  if decide (r <> NORMAL_BOOT) then ret (r, None, true) else
  let r := check_battery_inserted pf in
  if decide (r <> NORMAL_BOOT) then ret (r, None, true) else
  b <- check_bcb pf ;;
  let '(r, target_path, oneshot) := b in
  if decide (r <> NORMAL_BOOT) then ret (r, target_path, oneshot) else
  r <- check_loader_entry_one_shot pf ;;
  if decide (r <> DNX /\ r <> NORMAL_BOOT) then ret (r, target_path, oneshot) else
  let r := check_battery pf in
  (if decide (r = POWER_OFF) then ux_show (UxLowBattery 3) else ret tt) ;;
  if decide (r <> NORMAL_BOOT) then ret (r, target_path, oneshot) else
  ret (check_charge_mode pf, target_path, oneshot).

(** ** The selection rule, as the specification words it

    "Evaluated in strict priority order; the first rule producing a
    non-NORMAL_BOOT result wins."  The rules, in the order of the
    specification; the battery-level rule shows the low-battery screen
    before it answers POWER_OFF. *)
Definition bcb_rule (pf : platform) : M boot_target :=
  b <- check_bcb pf ;; ret b.1.1.

Definition battery_rule (pf : platform) : M boot_target :=
  let r := check_battery pf in
  (if decide (r = POWER_OFF) then ux_show (UxLowBattery 3) else ret tt) ;;
  ret r.

Definition rules_before_one_shot (pf : platform) : list (M boot_target) :=
  [check_command_line pf; ret (check_fastboot_sentinel pf);
   check_magic_key pf; check_watchdog pf; ret (check_battery_inserted pf);
   bcb_rule pf].

Definition rules_after_one_shot (pf : platform) : list (M boot_target) :=
  [battery_rule pf; ret (check_charge_mode pf)].

Definition spec_rules (pf : platform) : list (M boot_target) :=
  rules_before_one_shot pf ++ [check_loader_entry_one_shot pf]
  ++ rules_after_one_shot pf.

Fixpoint first_rule_wins (rules : list (M boot_target)) : M boot_target :=
  match rules with
  | [] => ret NORMAL_BOOT
  | rule :: rest =>
      r <- rule ;;
      if decide (r <> NORMAL_BOOT) then ret r else first_rule_wins rest
  end.

(** The one-shot rule with a DNX answer dropped. *)
Definition ignoring_dnx (rule : M boot_target) : M boot_target :=
  r <- rule ;; ret (if decide (r = DNX) then NORMAL_BOOT else r).

Definition code_rules (pf : platform) : list (M boot_target) :=
  rules_before_one_shot pf ++ [ignoring_dnx (check_loader_entry_one_shot pf)]
  ++ rules_after_one_shot pf.

(** The state after the rules [pre] have all answered NORMAL_BOOT, if they
    do. *)
Fixpoint all_pass (pre : list (M boot_target)) (st : state) : option state :=
  match pre with
  | [] => Some st
  | rule :: rest =>
      let '(r, st') := rule st in
      if decide (r = NORMAL_BOOT) then all_pass rest st' else None
  end.

(** ** Image validation and the trust state in [efi_main] *)

(** What [efi_main] and [validate_bootimage] ask of the security module:
    the build flavour, the lock and secure-boot state, where recovery
    lives, and [verify_android_boot_image], which yields a trust state and
    the target name the image declares. *)
Record security := {
  USERDEBUG : bool;
  efi_secure_boot_enabled : bool;
  device_is_provisioning : bool;
  device_is_unlocked : bool;
  recovery_in_boot_partition : bool;
  verify_android_boot_image : list Byte.byte -> Z * string
}.

(** The [switch] of [validate_bootimage]: [expected] and [expected2],
    [None] for [NULL]. *)
Definition expected_targets (sec : security) (boot_target : boot_target)
    : option string * option string :=
  match boot_target with
  | NORMAL_BOOT | MEMORY => (Some "/boot", Some "/recovery")
  | CHARGER => (Some "/boot", None)
  | RECOVERY =>
      if recovery_in_boot_partition sec then (Some "/boot", None)
      else (Some "/recovery", None)
  | ESP_BOOTIMAGE => (Some "/boot", None)
  | _ => (None, None)
  end.

(** [!expected || StrCmp(expected, target)]. *)
Definition name_differs (expected : option string) (target : string) : bool :=
  match expected with
  | None => true
  | Some e => negb (StrCmp e target =? 0)%Z
  end.

Definition validate_bootimage (sec : security) (boot_target : boot_target)
    (bootimage : list Byte.byte) : Z :=
  let '(boot_state, target) := verify_android_boot_image sec bootimage in
  if (boot_state =? BOOT_STATE_RED)%Z then boot_state
  else
    let '(expected, expected2) := expected_targets sec boot_target in
    if name_differs expected target && name_differs expected2 target
    then BOOT_STATE_RED
    else boot_state.

(** The trust state [efi_main] has when it reaches "Loading boot image":
    GREEN at first, then the device-state block. *)
Definition device_boot_state (sec : security) : Z :=
  let boot_state := BOOT_STATE_GREEN in
  if USERDEBUG sec then
    if negb (efi_secure_boot_enabled sec) && negb (device_is_provisioning sec)
    then BOOT_STATE_ORANGE
    else if device_is_unlocked sec then BOOT_STATE_ORANGE
    else boot_state
  else BOOT_STATE_RED.

(** The load/validate stage of [efi_main]: [loaded] is what
    [load_boot_image] returned, its status and the image. *)
Definition load_validate_stage (sec : security) (boot_target : boot_target)
    (loaded : EFI_STATUS * list Byte.byte) (boot_state : Z) : Z :=
  let '(ret, bootimage) := loaded in
  if EFI_ERROR ret then BOOT_STATE_RED
  else
    let new_boot_state := validate_bootimage sec boot_target bootimage in
    if negb (boot_state =? BOOT_STATE_ORANGE)%Z then new_boot_state
    else boot_state.

(** The trust state [efi_main] passes on to [load_image], on the path
    that reaches it. *)
Definition efi_main_boot_state (sec : security) (boot_target : boot_target)
    (loaded : EFI_STATUS * list Byte.byte) : Z :=
  load_validate_stage sec boot_target loaded (device_boot_state sec).

(** ** Sample inputs *)
Definition SCAN_DOWN : Z := 2.

(** A platform with the given ESP files, BCB write result, battery and
    charger state; nothing else asks for a special boot. *)
Definition sample_platform_with (files : list string) (write_ok : bool)
    (battery_low charger : bool) : platform :=
  {| USER := true; argv := Some ["kernelflinger.efi"]; esp_files := files;
     magic_key_timeout_var := None;
     ui_keycode_to_event :=
       fun code => if (code =? SCAN_DOWN)%Z then EV_DOWN else EV_NONE;
     ui_enforce_key_held := fun _ _ => false;
     crash_event_menu := false;
     watchdog_status_ok := true; watchdog_reset_ok := true;
     watchdog_set_time_ok := true; watchdog_set_counter_ok := true;
     reset_source := RESET_NOT_APPLICABLE; now := Some 0%Z;
     watchdog_counter_max := 2; crash_menu_choice := CRASHMODE;
     off_mode_charge := true; wake_source := WAKE_POWER_BUTTON_PRESSED;
     write_bcb_ok := write_ok;
     name_to_boot_target :=
       fun name =>
         if String.eqb name "recovery" then RECOVERY
         else if String.eqb name "fastboot" then FASTBOOT
         else if String.eqb name "dnx" then DNX
         else if String.eqb name "charging" then CHARGER
         else UNKNOWN_TARGET;
     set_verity_ok := true;
     battery_below_boot_OS_threshold := battery_low;
     charger_plugged_in := charger |}.

Definition sample_platform : platform :=
  sample_platform_with [] true false false.

Definition sample_bcb (cmd stat : string) : bootloader_message :=
  {| command := char_array 32 cmd; status := char_array 32 stat;
     recovery := char_array 768 ""; stage := char_array 32 "" |}.

Definition sample_state : state :=
  {| key_queue := []; stalled_us := 0%N; misc := Some (sample_bcb "" "");
     bcb_writes := []; loader_entry_one_shot := None;
     watchdog_counter := 0; watchdog_time_ref := 0; reboot_reason := None;
     verity_corrupted := false; ux_shown := []; unittests_run := [] |}.

(** A short press: the down key is read at the first poll and is not held
    for the fastboot delay. *)
Definition short_press_state : state :=
  set_keys [(EFI_SUCCESS, {| ScanCode := SCAN_DOWN; UnicodeChar := 0 |})]
    sample_state.

Definition sample_security (userdebug : bool) (verdict : Z * string)
    : security :=
  {| USERDEBUG := userdebug; efi_secure_boot_enabled := true;
     device_is_provisioning := false; device_is_unlocked := false;
     recovery_in_boot_partition := false;
     verify_android_boot_image := fun _ => verdict |}.

(** ** Notions used to state properties of the selector *)

(** A string without an embedded [NUL]: what a NUL-terminated array holds. *)
Definition nul_free (s : string) : Prop :=
  Forall (fun c => c <> NUL) (list_ascii_of_string s).


(** The watchdog check at a sequence of boots; each boot comes with what
    the platform answers at that boot. *)
Fixpoint watchdog_boots (boots : list platform) : M (list boot_target) :=
  match boots with
  | [] => ret []
  | pf :: rest =>
      r <- check_watchdog pf ;;
      rs <- watchdog_boots rest ;;
      ret (r :: rs)
  end.

(** A boot after a watchdog reset, at a time within [WATCHDOG_DELAY] of
    [t0], on a platform where the crash event menu is enabled, the
    watchdog variables can be read and written, and the counter maximum is
    [max]. *)
Definition watchdog_reset_boot (max t0 : Z) (pf : platform) : Prop :=
  crash_event_menu pf = true /\
  watchdog_status_ok pf = true /\
  watchdog_set_time_ok pf = true /\
  watchdog_set_counter_ok pf = true /\
  reset_source pf ∈ WATCHDOG_RESET_SOURCES /\
  watchdog_counter_max pf = max /\
  exists t, now pf = Some t /\ (t0 <= t <= t0 + WATCHDOG_DELAY)%Z.


(** A platform on which the boot follows a kernel watchdog reset at time
    [t]; the crash event menu is enabled, with a maximum of 2, and the user
    chooses CRASHMODE there. *)
Definition watchdog_platform (t : Z) : platform :=
  {| USER := true; argv := Some ["kernelflinger.efi"]; esp_files := [];
     magic_key_timeout_var := None;
     ui_keycode_to_event := fun _ => EV_NONE;
     ui_enforce_key_held := fun _ _ => false;
     crash_event_menu := true;
     watchdog_status_ok := true; watchdog_reset_ok := true;
     watchdog_set_time_ok := true; watchdog_set_counter_ok := true;
     reset_source := RESET_KERNEL_WATCHDOG; now := Some t;
     watchdog_counter_max := 2; crash_menu_choice := CRASHMODE;
     off_mode_charge := true; wake_source := WAKE_POWER_BUTTON_PRESSED;
     write_bcb_ok := true;
     name_to_boot_target := fun _ => UNKNOWN_TARGET;
     set_verity_ok := true;
     battery_below_boot_OS_threshold := false;
     charger_plugged_in := false |}.


(** ** Loading the boot image

    Modelled from the spec: the slot controller and the image loaders are
    not under src; the slot controller has the "operations: init(),
    get_active() -> optional<suffix>, set_active_cached(suffix), boot_ok() /
    boot_failed(target), recovery_tries_remaining()".  [St] is the state
    the slot controller keeps.  A loader is given the value [*bootimage]
    has and answers its status and the value [*bootimage] has then; [None]
    is [NULL]. *)
Definition BOOT_LABEL : string := "boot".
Definition RECOVERY_LABEL : string := "recovery".

Record slot_ops (St : Type) := {
  use_slot : bool;
  slot_get_active : St -> option string;
  slot_label : St -> string -> string;
  slot_boot_failed : boot_target -> St -> St;
  slot_recovery_tries_remaining : St -> nat;
  android_image_load_partition :
    string -> option (list Byte.byte) -> EFI_STATUS * option (list Byte.byte);
  android_image_load_file :
    option string -> bool -> option (list Byte.byte)
    -> EFI_STATUS * option (list Byte.byte)
}.

Arguments use_slot {St} _.
Arguments slot_get_active {St} _ _.
Arguments slot_label {St} _ _ _.
Arguments slot_boot_failed {St} _ _ _.
Arguments slot_recovery_tries_remaining {St} _ _.
Arguments android_image_load_partition {St} _ _ _.
Arguments android_image_load_file {St} _ _ _ _.

(** The [do ... while] loop of [load_boot_image]; it runs at most [fuel]
    times, and [None] says that was not enough. *)
Fixpoint load_slot_loop {St : Type} (ops : slot_ops St) (fuel : nat)
    (boot_target : boot_target) (s : St) (bootimage : option (list Byte.byte))
    : option (EFI_STATUS * option (list Byte.byte) * St) :=
  match fuel with
  | O => None
  | S fuel' =>
      let label := slot_label ops s BOOT_LABEL in
      let '(ret, bootimage) := android_image_load_partition ops label bootimage in
      let s :=
        if EFI_ERROR ret && use_slot ops then slot_boot_failed ops boot_target s
        else s in
      if EFI_ERROR ret && bool_decide (is_Some (slot_get_active ops s))
      then load_slot_loop ops fuel' boot_target s bootimage
      else Some (ret, bootimage, s)
  end.

(** The [NORMAL_BOOT] and [CHARGER] case of [load_boot_image]. *)
Definition load_boot_partition {St : Type} (ops : slot_ops St) (fuel : nat)
    (boot_target : boot_target) (s : St) (bootimage : option (list Byte.byte))
    : option (EFI_STATUS * option (list Byte.byte) * St) :=
  if use_slot ops && negb (bool_decide (is_Some (slot_get_active ops s)))
  then Some (EFI_NOT_FOUND, bootimage, s)
  else load_slot_loop ops fuel boot_target s bootimage.

(** [load_boot_image]: the status, [*bootimage] and the state of the slot
    controller.  The [RECOVERY] case calls the function itself once, with
    [NORMAL_BOOT]. *)
Definition load_boot_image {St : Type} (ops : slot_ops St) (sec : security)
    (fuel : nat) (boot_target : boot_target) (target_path : option string)
    (bootimage : option (list Byte.byte)) (oneshot : bool) (s : St)
    : option (EFI_STATUS * option (list Byte.byte) * St) :=
  match boot_target with
  | NORMAL_BOOT | CHARGER =>
      load_boot_partition ops fuel boot_target s bootimage
  | RECOVERY =>
      if recovery_in_boot_partition sec then
        load_boot_partition ops fuel NORMAL_BOOT s bootimage
      else if use_slot ops && (slot_recovery_tries_remaining ops s =? 0)%nat
      then Some (EFI_NOT_FOUND, bootimage, s)
      else Some (android_image_load_partition ops RECOVERY_LABEL bootimage, s)
  | ESP_BOOTIMAGE =>
      Some (android_image_load_file ops target_path oneshot bootimage, s)
  | _ => Some (EFI_INVALID_PARAMETER, None, s)
  end.

(** What the loop needs of the slot controller to end: without slots no
    slot is active; with slots, a slot that is still active after
    [slot_boot_failed] has fewer tries left, [tries] counting them. *)
Record slot_ops_spec {St : Type} (ops : slot_ops St) (tries : St -> nat)
    : Prop := {
  no_slots_none_active :
    use_slot ops = false -> forall s, slot_get_active ops s = None;
  boot_failed_uses_try :
    forall t s,
      is_Some (slot_get_active ops (slot_boot_failed ops t s)) ->
      (tries (slot_boot_failed ops t s) < tries s)%nat
}.

(** A slot controller over the tries the slots "_a" and "_b" have left:
    "_a" is active while it has a try left, then "_b"; [slot_boot_failed]
    takes one try from the active slot.  The boot partition of slot [good]
    holds an image, the other cannot be read. *)
Definition sample_active (s : nat * nat) : option string :=
  if (0 <? s.1)%nat then Some "_a"
  else if (0 <? s.2)%nat then Some "_b"
  else None.

Definition sample_slot_ops (good : string) : slot_ops (nat * nat) :=
  {| use_slot := true;
     slot_get_active := sample_active;
     slot_label := fun s base => base +:+ default "" (sample_active s);
     slot_boot_failed :=
       fun _ s =>
         if (0 <? s.1)%nat then (Nat.pred s.1, s.2) else (s.1, Nat.pred s.2);
     slot_recovery_tries_remaining := fun _ => 0%nat;
     android_image_load_partition :=
       fun label bootimage =>
         if String.eqb label ("boot" +:+ good) then (EFI_SUCCESS, Some [])
         else (EFI_DEVICE_ERROR, bootimage);
     android_image_load_file := fun _ _ bootimage => (EFI_NOT_FOUND, bootimage)
  |}.


(** The checks of [choose_boot_target] that do not look at the battery or
    the charger, in its order, the one-shot rule with DNX dropped. *)
Definition rules_without_battery (pf : platform) : list (M boot_target) :=
  [check_command_line pf; ret (check_fastboot_sentinel pf);
   check_magic_key pf; check_watchdog pf; bcb_rule pf;
   ignoring_dnx (check_loader_entry_one_shot pf)].


(** A platform without off-mode charging, woken by a battery insertion,
    with a battery below the threshold and no charger. *)
Definition no_charge_platform : platform :=
  {| USER := true; argv := None; esp_files := [];
     magic_key_timeout_var := None;
     ui_keycode_to_event := fun _ => EV_NONE;
     ui_enforce_key_held := fun _ _ => false;
     crash_event_menu := false;
     watchdog_status_ok := true; watchdog_reset_ok := true;
     watchdog_set_time_ok := true; watchdog_set_counter_ok := true;
     reset_source := RESET_NOT_APPLICABLE; now := None;
     watchdog_counter_max := 2; crash_menu_choice := CRASHMODE;
     off_mode_charge := false; wake_source := WAKE_BATTERY_INSERTED;
     write_bcb_ok := true;
     name_to_boot_target :=
       fun name => if String.eqb name "charging" then CHARGER
                   else UNKNOWN_TARGET;
     set_verity_ok := true;
     battery_below_boot_OS_threshold := true;
     charger_plugged_in := false |}.

End Kf.

(* ===================================================================== *)
(** * Properties of the rollback controller                               *)
(* ===================================================================== *)

Section RollbackFacts.
Import Avb.
Context {D : Type} (ops : AvbOps D) (stored : D -> nat -> N).
Context (Hops : AvbOpsSpec ops stored).
Variable slot_data : AvbSlotVerifyData.
Local Abbreviation idx := (rollback_indexes slot_data).

Lemma io_ok_true r : io_ok r = true <-> r = AVB_IO_RESULT_OK.
Proof. destruct r; simpl; split; congruence. Qed.

Lemma io_ok_false r : io_ok r = false <-> r <> AVB_IO_RESULT_OK.
Proof. destruct r; simpl; split; congruence. Qed.

(** One pass of the loop over the locations [n, n + todo): locations
    outside the range keep their value; on success every location of the
    range holds the maximum; on failure the locations before the failing
    one hold the maximum and the others are as before. *)
Lemma update_loop_stored todo :
  forall n dev r dev',
    update_loop ops slot_data n todo dev = (r, dev') ->
    (forall m, (m < n \/ n + todo <= m)%nat -> stored dev' m = stored dev m) /\
    (r = true -> forall m, (n <= m < n + todo)%nat ->
       stored dev' m = N.max (stored dev m) (idx m)) /\
    (r = false -> exists k, (n <= k < n + todo)%nat /\
       (forall m, (n <= m < k)%nat ->
          stored dev' m = N.max (stored dev m) (idx m)) /\
       (forall m, (k <= m)%nat -> stored dev' m = stored dev m)).
Proof.
  induction todo as [|todo IH]; intros n dev r dev' Hrun; simpl in Hrun.
  - inversion Hrun; subst. split; [done|]. split; [intros _ m Hm; lia|done].
  - destruct (0 <? idx n)%N eqn:Hpos.
    + destruct (read_rollback_index ops n dev) as [[io v] dev1] eqn:Hrd.
      pose proof (read_frame ops stored Hops _ _ _ _ _ Hrd) as Hfr.
      destruct (io_ok io) eqn:Hio; simpl in Hrun.
      * apply io_ok_true in Hio.
        pose proof (read_value ops stored Hops _ _ _ _ _ Hrd Hio) as Hv.
        subst v. apply N.ltb_lt in Hpos.
        destruct (stored dev n <? idx n)%N eqn:Hlt.
        -- destruct (write_rollback_index ops n (idx n) dev1)
             as [io' dev2] eqn:Hwr.
           destruct (io_ok io') eqn:Hio'; simpl in Hrun.
           ++ apply io_ok_true in Hio'. subst io'.
              destruct (write_value ops stored Hops _ _ _ _ Hwr) as [Hn Ho].
              apply N.ltb_lt in Hlt.
              destruct (IH _ _ _ _ Hrun) as (Hout & Hok & Hko).
              split; [|split].
              ** intros m Hm. rewrite Hout by lia. rewrite Ho by lia. apply Hfr.
              ** intros Hr m Hm. destruct (decide (m = n)) as [->|Hne].
                 --- rewrite Hout by lia. rewrite Hn. lia.
                 --- rewrite (Hok Hr) by lia. rewrite Ho by lia.
                     by rewrite Hfr.
              ** intros Hr. destruct (Hko Hr) as (k & Hk & Hbefore & Hafter).
                 exists k. split; [lia|]. split.
                 --- intros m Hm. destruct (decide (m = n)) as [->|Hne].
                     +++ rewrite Hout by lia. rewrite Hn. lia.
                     +++ rewrite Hbefore by lia. rewrite Ho by lia.
                         by rewrite Hfr.
                 --- intros m Hm. rewrite Hafter by lia. rewrite Ho by lia.
                     apply Hfr.
           ++ inversion Hrun; subst. apply io_ok_false in Hio'.
              pose proof (write_failed ops stored Hops _ _ _ _ _ Hwr Hio') as Hwf.
              split; [|split].
              ** intros m _. rewrite Hwf. apply Hfr.
              ** done.
              ** intros _. exists n. split; [lia|]. split; [intros m Hm; lia|].
                 intros m _. rewrite Hwf. apply Hfr.
        -- apply N.ltb_ge in Hlt.
           destruct (IH _ _ _ _ Hrun) as (Hout & Hok & Hko).
           split; [|split].
           ++ intros m Hm. rewrite Hout by lia. apply Hfr.
           ++ intros Hr m Hm. destruct (decide (m = n)) as [->|Hne].
              ** rewrite Hout by lia. rewrite Hfr. lia.
              ** rewrite (Hok Hr) by lia. by rewrite Hfr.
           ++ intros Hr. destruct (Hko Hr) as (k & Hk & Hbefore & Hafter).
              exists k. split; [lia|]. split.
              ** intros m Hm. destruct (decide (m = n)) as [->|Hne].
                 --- rewrite Hout by lia. rewrite Hfr. lia.
                 --- rewrite Hbefore by lia. by rewrite Hfr.
              ** intros m Hm. rewrite Hafter by lia. apply Hfr.
      * inversion Hrun; subst. split; [|split].
        -- intros m _. apply Hfr.
        -- done.
        -- intros _. exists n. split; [lia|]. split; [intros m Hm; lia|].
           intros m _. apply Hfr.
    + apply N.ltb_ge in Hpos.
      destruct (IH _ _ _ _ Hrun) as (Hout & Hok & Hko).
      split; [|split].
      * intros m Hm. apply Hout. lia.
      * intros Hr m Hm. destruct (decide (m = n)) as [->|Hne].
        -- rewrite Hout by lia. lia.
        -- apply (Hok Hr). lia.
      * intros Hr. destruct (Hko Hr) as (k & Hk & Hbefore & Hafter).
        exists k. split; [lia|]. split; [|done].
        intros m Hm. destruct (decide (m = n)) as [->|Hne].
        -- rewrite Hout by lia. lia.
        -- apply Hbefore. lia.
Qed.
End RollbackFacts.

Section RollbackLog.
Import Avb.
Context {D : Type} (ops : AvbOps D) (stored : D -> nat -> N).
Context (Hops : AvbOpsSpec ops stored).
Variable slot_data : AvbSlotVerifyData.
Local Abbreviation idx := (rollback_indexes slot_data).

Lemma justified_event_shift lo hi dev dev' e :
  justified_event stored idx (S lo) hi dev' e ->
  (forall m, (lo < m)%nat -> stored dev' m = stored dev m) ->
  justified_event stored idx lo hi dev e.
Proof.
  destruct e as [n r|n x r]; simpl.
  - intros [Hn Hx] _. split; [lia|done].
  - intros (Hn & Hx & Hx0 & Hst) Hsame. rewrite Hsame in Hst by lia.
    repeat split; try lia; done.
Qed.

Lemma log_shape_cons r e new :
  event_ok e = true -> log_shape r new -> log_shape r (e :: new).
Proof.
  destruct r; simpl; intros He Hs.
  - by constructor.
  - destruct Hs as (pre & e' & -> & He' & Hpre).
    exists (e :: pre), e'. split; [done|]. split; [done|by constructor].
Qed.

(** Recording the I/O does not change what the loop computes; every
    event it issues is justified; the loop stops at the first failing
    operation, and fails only then. *)
Lemma update_loop_log todo :
  forall n dev log r dev' log',
    update_loop (log_io ops) slot_data n todo (dev, log) = (r, (dev', log')) ->
    update_loop ops slot_data n todo dev = (r, dev') /\
    exists new, log' = log ++ new /\
      Forall (justified_event stored idx n (n + todo) dev) new /\
      log_shape r new.
Proof.
  induction todo as [|todo IH]; intros n dev log r dev' log' Hrun;
    simpl in Hrun |- *.
  - inversion Hrun; subst. split; [done|]. exists [].
    rewrite app_nil_r. repeat split; constructor.
  - destruct (0 <? idx n)%N eqn:Hpos.
    + destruct (read_rollback_index ops n dev) as [[io v] dev1] eqn:Hrd.
      pose proof (read_frame ops stored Hops _ _ _ _ _ Hrd) as Hfr.
      apply N.ltb_lt in Hpos.
      assert (Hjr : justified_event stored idx n (n + S todo) dev (EvRead n io))
        by (simpl; split; [lia|done]).
      destruct (io_ok io) eqn:Hio; simpl in Hrun |- *.
      * pose proof Hio as Hio2. apply io_ok_true in Hio2.
        pose proof (read_value ops stored Hops _ _ _ _ _ Hrd Hio2) as Hv.
        subst v.
        destruct (stored dev n <? idx n)%N eqn:Hlt.
        -- destruct (write_rollback_index ops n (idx n) dev1)
             as [io' dev2] eqn:Hwr.
           apply N.ltb_lt in Hlt.
           assert (Hjw : justified_event stored idx n (n + S todo) dev
                           (EvWrite n (idx n) io'))
             by (simpl; repeat split; lia).
           destruct (io_ok io') eqn:Hio'; simpl in Hrun |- *.
           ++ pose proof Hio' as Hio3. apply io_ok_true in Hio3. subst io'.
              destruct (write_value ops stored Hops _ _ _ _ Hwr) as [_ Ho].
              destruct (IH _ _ _ _ _ _ Hrun) as (Heq & new & -> & Hall & Hsh).
              split; [done|].
              exists (EvRead n io :: EvWrite n (idx n) AVB_IO_RESULT_OK :: new).
              split; [by rewrite <- !app_assoc|]. split.
              ** constructor; [done|]. constructor; [done|].
                 eapply Forall_impl; [exact Hall|]. intros e He.
                 replace (n + S todo)%nat with (S n + todo)%nat by lia.
                 eapply justified_event_shift; [exact He|].
                 intros m Hm. rewrite Ho by lia. apply Hfr.
              ** apply log_shape_cons; [done|]. by apply log_shape_cons.
           ++ injection Hrun as <- <- <-. split; [done|].
              exists [EvRead n io; EvWrite n (idx n) io'].
              split; [by rewrite <- app_assoc|]. split.
              ** constructor; [assumption|].
                 constructor; [assumption|]. constructor.
              ** exists [EvRead n io], (EvWrite n (idx n) io').
                 split; [done|]. split; [done|].
                 constructor; [assumption|]. constructor.
        -- destruct (IH _ _ _ _ _ _ Hrun) as (Heq & new & -> & Hall & Hsh).
           split; [done|]. exists (EvRead n io :: new).
           split; [by rewrite <- app_assoc|]. split.
           ++ constructor; [done|]. eapply Forall_impl; [exact Hall|].
              intros e He.
              replace (n + S todo)%nat with (S n + todo)%nat by lia.
              eapply justified_event_shift; [exact He|]. intros m Hm. apply Hfr.
           ++ by apply log_shape_cons.
      * injection Hrun as <- <- <-. split; [done|]. exists [EvRead n io].
        split; [done|]. split; [constructor; [assumption|constructor]|].
        exists [], (EvRead n io). split; [done|]. split; [done|constructor].
    + destruct (IH _ _ _ _ _ _ Hrun) as (Heq & new & -> & Hall & Hsh).
      split; [done|]. exists new. split; [done|]. split; [|done].
      eapply Forall_impl; [exact Hall|]. intros e He.
      replace (n + S todo)%nat with (S n + todo)%nat by lia.
      eapply justified_event_shift; [exact He|]. done.
Qed.
End RollbackLog.

(** The scripted device honours the storage contract. *)
Lemma nv_ops_spec : Avb.AvbOpsSpec Avb.nv_ops Avb.nv_stored.
Proof.
  split.
  - intros n dev r v dev'. unfold Avb.nv_ops; simpl.
    destruct (Avb.nv_next dev) as [r0 rest]. intros [= <- <- <-] ->. done.
  - intros n dev r v dev'. unfold Avb.nv_ops; simpl.
    destruct (Avb.nv_next dev) as [r0 rest]. intros [= <- <- <-] m. done.
  - intros n x dev dev'. unfold Avb.nv_ops; simpl.
    destruct (Avb.nv_next dev) as [r0 rest]. intros [= -> <-].
    unfold Avb.nv_stored; simpl. split.
    + by rewrite lookup_insert_eq.
    + intros m Hm. by rewrite lookup_insert_ne.
  - intros n x dev r dev'. unfold Avb.nv_ops; simpl.
    destruct (Avb.nv_next dev) as [r0 rest]. intros [= <- <-] Hr m.
    apply io_ok_false in Hr. unfold Avb.nv_stored; simpl.
    by rewrite Hr.
Qed.

(** C2.  [avb_update_stored_rollback_indexes_for_slot] never decreases a
    stored rollback index.  Run over any storage that honours the contract
    [AvbOpsSpec], with its I/O recorded: every read is at a location below
    [max_locations] where the slot asserts a non-zero index; every write is
    at such a location, writes the asserted index, and is issued only when
    that index is strictly greater than the value stored before the call;
    no stored value is lower afterwards; and when the function returns
    [true], every location below [max_locations] holds the maximum of the
    value stored before and the asserted index. *)
Theorem rollback_update_never_decreases
    {D : Type} (ops : Avb.AvbOps D) (stored : D -> nat -> N)
    (Hops : Avb.AvbOpsSpec ops stored)
    (slot_data : Avb.AvbSlotVerifyData) (max_locations : nat)
    (dev : D) (r : bool) (dev' : D) (log : list Avb.io_event) :
  Avb.avb_update_stored_rollback_indexes_for_slot
    (Avb.log_io ops) slot_data max_locations (dev, []) = (r, (dev', log)) ->
  Avb.avb_update_stored_rollback_indexes_for_slot
    ops slot_data max_locations dev = (r, dev') /\
  Forall (Avb.justified_event stored (Avb.rollback_indexes slot_data)
            0 max_locations dev) log /\
  (forall n, (stored dev n <= stored dev' n)%N) /\
  (r = true -> forall n, (n < max_locations)%nat ->
     stored dev' n = N.max (stored dev n) (Avb.rollback_indexes slot_data n)).
Proof.
  unfold Avb.avb_update_stored_rollback_indexes_for_slot. intros Hrun.
  destruct (update_loop_log ops stored Hops slot_data _ _ _ _ _ _ _ Hrun)
    as (Hplain & new & Hlog & Hall & _).
  simpl in Hlog. subst new.
  destruct (update_loop_stored ops stored Hops slot_data _ _ _ _ _ Hplain)
    as (Hout & Hok & Hko).
  split; [done|]. split; [done|]. split.
  - intros n. destruct r.
    + destruct (decide (n < max_locations)%nat) as [Hn|Hn].
      * rewrite (Hok eq_refl n) by lia. lia.
      * rewrite Hout by lia. lia.
    + destruct (Hko eq_refl) as (k & Hk & Hbefore & Hafter).
      destruct (decide (n < k)%nat) as [Hn|Hn].
      * rewrite Hbefore by lia. lia.
      * rewrite Hafter by lia. lia.
  - intros Hr n Hn. apply (Hok Hr). lia.
Qed.

Lemma rollback_update_never_decreases_witness :
  exists dev' log,
    Avb.avb_update_stored_rollback_indexes_for_slot
      Avb.nv_ops (Avb.slot_asserting Avb.sample_indexes) 4
      (Avb.sample_device []) = (true, dev') /\
    Forall (Avb.justified_event Avb.nv_stored
              Avb.sample_indexes 0 4 (Avb.sample_device [])) log /\
    (forall n, (Avb.nv_stored (Avb.sample_device []) n
                <= Avb.nv_stored dev' n)%N) /\
    (true = true -> forall n, (n < 4)%nat ->
       Avb.nv_stored dev' n =
       N.max (Avb.nv_stored (Avb.sample_device []) n)
             (Avb.sample_indexes n)).
Proof.
  eexists _, _.
  apply (rollback_update_never_decreases
           Avb.nv_ops Avb.nv_stored nv_ops_spec
           (Avb.slot_asserting Avb.sample_indexes) 4 (Avb.sample_device [])).
  vm_compute. reflexivity.
Defined.

Section RollbackFailure.
Import Avb.
Context {D : Type} (ops : AvbOps D) (stored : D -> nat -> N).
Context (Hops : AvbOpsSpec ops stored).
Variable slot_data : AvbSlotVerifyData.
Local Abbreviation idx := (rollback_indexes slot_data).

(** A failing pass of the loop over the locations [n, n + todo), with its
    I/O recorded: the last operation recorded is the one that failed, every
    operation before it succeeded, and the store is split at the location
    of the failing operation: the locations of the range before it hold the
    maximum, that location and every other one are as before. *)
Lemma update_loop_fails_at todo :
  forall n dev log dev' log',
    update_loop (log_io ops) slot_data n todo (dev, log) = (false, (dev', log')) ->
    exists pre e,
      log' = log ++ pre ++ [e] /\ event_ok e = false /\
      Forall (fun e => event_ok e = true) pre /\
      Forall (fun e' => (event_loc e' <= event_loc e)%nat) pre /\
      (n <= event_loc e < n + todo)%nat /\
      (forall m, (n <= m < event_loc e)%nat ->
         stored dev' m = N.max (stored dev m) (idx m)) /\
      (forall m, (m < n \/ event_loc e <= m)%nat -> stored dev' m = stored dev m).
Proof.
  induction todo as [|todo IH]; intros n dev log dev' log' Hrun;
    simpl in Hrun; [discriminate Hrun|].
  destruct (0 <? idx n)%N eqn:Hpos.
  - destruct (read_rollback_index ops n dev) as [[io v] dev1] eqn:Hrd.
    pose proof (read_frame ops stored Hops _ _ _ _ _ Hrd) as Hfr.
    destruct (io_ok io) eqn:Hio; simpl in Hrun.
    + pose proof Hio as Hio2. apply io_ok_true in Hio2.
      pose proof (read_value ops stored Hops _ _ _ _ _ Hrd Hio2) as Hv.
      subst v.
      destruct (stored dev n <? idx n)%N eqn:Hlt.
      * destruct (write_rollback_index ops n (idx n) dev1) as [io' dev2] eqn:Hwr.
        destruct (io_ok io') eqn:Hio'; simpl in Hrun.
        -- pose proof Hio' as Hio3. apply io_ok_true in Hio3. subst io'.
           destruct (write_value ops stored Hops _ _ _ _ Hwr) as [Hn Ho].
           apply N.ltb_lt in Hlt.
           destruct (IH _ _ _ _ _ Hrun)
             as (pre & e & -> & He & Hpre & Hloc & Hrange & Hbefore & Hafter).
           exists (EvRead n io :: EvWrite n (idx n) AVB_IO_RESULT_OK :: pre), e.
           split; [by rewrite <- !app_assoc|]. split; [done|].
           split; [constructor; [done|]; constructor; done|].
           split; [constructor; [simpl; lia|]; constructor; [simpl; lia|done]|].
           split; [lia|]. split.
           ++ intros m Hm. destruct (decide (m = n)) as [->|Hne].
              ** rewrite Hafter by lia. rewrite Hn. lia.
              ** rewrite Hbefore by lia. rewrite Ho by lia. by rewrite Hfr.
           ++ intros m Hm. rewrite Hafter by lia. rewrite Ho by lia. apply Hfr.
        -- injection Hrun as <- <-. apply io_ok_false in Hio'.
           pose proof (write_failed ops stored Hops _ _ _ _ _ Hwr Hio') as Hwf.
           exists [EvRead n io], (EvWrite n (idx n) io').
           split; [by rewrite <- app_assoc|].
           split; [simpl; by apply io_ok_false|].
           split; [constructor; [done|constructor]|].
           split; [constructor; [simpl; lia|constructor]|].
           simpl. split; [lia|]. split; [intros m Hm; lia|].
           intros m _. rewrite Hwf. apply Hfr.
      * apply N.ltb_ge in Hlt.
        destruct (IH _ _ _ _ _ Hrun)
          as (pre & e & -> & He & Hpre & Hloc & Hrange & Hbefore & Hafter).
        exists (EvRead n io :: pre), e.
        split; [by rewrite <- !app_assoc|]. split; [done|].
        split; [constructor; done|].
        split; [constructor; [simpl; lia|done]|].
        split; [lia|]. split.
        -- intros m Hm. destruct (decide (m = n)) as [->|Hne].
           ++ rewrite Hafter by lia. rewrite Hfr. lia.
           ++ rewrite Hbefore by lia. by rewrite Hfr.
        -- intros m Hm. rewrite Hafter by lia. apply Hfr.
    + injection Hrun as <- <-. exists [], (EvRead n io).
      split; [done|]. split; [done|]. split; [constructor|].
      split; [constructor|]. simpl. split; [lia|].
      split; [intros m Hm; lia|]. intros m _. apply Hfr.
  - apply N.ltb_ge in Hpos.
    destruct (IH _ _ _ _ _ Hrun)
      as (pre & e & -> & He & Hpre & Hloc & Hrange & Hbefore & Hafter).
    exists pre, e. split; [done|]. split; [done|]. split; [done|].
    split; [done|]. split; [lia|]. split.
    + intros m Hm. destruct (decide (m = n)) as [->|Hne].
      * rewrite Hafter by lia. lia.
      * apply Hbefore. lia.
    + intros m Hm. apply Hafter. lia.
Qed.
End RollbackFailure.

(** The claim of C4 as stated fails: location 0 is advanced from 2 to 5,
    then the read at location 1 fails; the function returns [false] and the
    advance of location 0 stays. *)
Lemma rollback_update_partial_advance :
  let dev := Avb.sample_device
               [Avb.AVB_IO_RESULT_OK; Avb.AVB_IO_RESULT_OK;
                Avb.AVB_IO_RESULT_ERROR_IO] in
  let res := Avb.avb_update_stored_rollback_indexes_for_slot
               Avb.nv_ops (Avb.slot_asserting Avb.advancing_indexes) 2 dev in
  res.1 = false /\
  Avb.nv_stored dev 0 = 2%N /\
  Avb.nv_stored res.2 0 = 5%N /\
  ~ (forall n, Avb.nv_stored res.2 n = Avb.nv_stored dev n).
Proof.
  cbv zeta. split; [by vm_compute|]. split; [by vm_compute|].
  split; [by vm_compute|]. intros H. specialize (H 0%nat).
  vm_compute in H. discriminate H.
Qed.

(** C4, amended.  An I/O error makes the update stop at once and return
    failure, and the update is not undone.  The function returns [false]
    exactly when one of its reads or writes failed.  That operation is then
    the last one it issues, every operation before it succeeded and was at
    the same or an earlier location, and the store is split at the location
    [k] of the failing operation: every location before [k] has been
    advanced to the maximum of stored and asserted index, while location
    [k], whether its read or its write failed, and every later location
    hold the value they had before the call. *)
Theorem rollback_update_stops_at_first_error
    {D : Type} (ops : Avb.AvbOps D) (stored : D -> nat -> N)
    (Hops : Avb.AvbOpsSpec ops stored)
    (slot_data : Avb.AvbSlotVerifyData) (max_locations : nat)
    (dev : D) (r : bool) (dev' : D) (log : list Avb.io_event) :
  Avb.avb_update_stored_rollback_indexes_for_slot
    (Avb.log_io ops) slot_data max_locations (dev, []) = (r, (dev', log)) ->
  Avb.avb_update_stored_rollback_indexes_for_slot
    ops slot_data max_locations dev = (r, dev') /\
  (r = false <-> Exists (fun e => Avb.event_ok e = false) log) /\
  (r = false ->
     exists pre e,
       log = pre ++ [e] /\ Avb.event_ok e = false /\
       Forall (fun e => Avb.event_ok e = true) pre /\
       Forall (fun e' => (Avb.event_loc e' <= Avb.event_loc e)%nat) pre /\
       (Avb.event_loc e < max_locations)%nat /\
       (forall m, (m < Avb.event_loc e)%nat ->
          stored dev' m =
          N.max (stored dev m) (Avb.rollback_indexes slot_data m)) /\
       (forall m, (Avb.event_loc e <= m)%nat -> stored dev' m = stored dev m)).
Proof.
  unfold Avb.avb_update_stored_rollback_indexes_for_slot. intros Hrun.
  destruct (update_loop_log ops stored Hops slot_data _ _ _ _ _ _ _ Hrun)
    as (Hplain & new & Hlog & _ & Hshape).
  simpl in Hlog. subst new.
  split; [done|]. split.
  - destruct r; simpl in Hshape.
    + split; [done|]. intros Hex. apply Exists_exists in Hex as (e & Hin & He).
      rewrite Forall_forall in Hshape. by rewrite (Hshape e Hin) in He.
    + split; [|done]. intros _. destruct Hshape as (pre & e & -> & He & _).
      apply Exists_exists. exists e. split; [|done].
      apply elem_of_app. right. by apply list_elem_of_singleton.
  - intros ->.
    destruct (update_loop_fails_at ops stored Hops slot_data _ _ _ _ _ _ Hrun)
      as (pre & e & Hlog & He & Hpre & Hloc & Hrange & Hbefore & Hafter).
    simpl in Hlog. exists pre, e. split; [done|]. split; [done|].
    split; [done|]. split; [done|]. split; [lia|]. split.
    + intros m Hm. apply Hbefore. lia.
    + intros m Hm. apply Hafter. lia.
Qed.

Lemma rollback_update_stops_at_first_error_witness :
  exists dev' log,
    let dev := Avb.sample_device
                 [Avb.AVB_IO_RESULT_OK; Avb.AVB_IO_RESULT_OK;
                  Avb.AVB_IO_RESULT_ERROR_IO] in
    Avb.avb_update_stored_rollback_indexes_for_slot
      Avb.nv_ops (Avb.slot_asserting Avb.advancing_indexes) 2 dev = (false, dev') /\
    (false = false <-> Exists (fun e => Avb.event_ok e = false) log) /\
    (false = false ->
       exists pre e,
         log = pre ++ [e] /\ Avb.event_ok e = false /\
         Forall (fun e => Avb.event_ok e = true) pre /\
         Forall (fun e' => (Avb.event_loc e' <= Avb.event_loc e)%nat) pre /\
         (Avb.event_loc e < 2)%nat /\
         (forall m, (m < Avb.event_loc e)%nat ->
            Avb.nv_stored dev' m =
            N.max (Avb.nv_stored dev m) (Avb.advancing_indexes m)) /\
         (forall m, (Avb.event_loc e <= m)%nat ->
            Avb.nv_stored dev' m = Avb.nv_stored dev m)).
Proof.
  eexists _, _. cbv zeta.
  apply (rollback_update_stops_at_first_error
           Avb.nv_ops Avb.nv_stored nv_ops_spec
           (Avb.slot_asserting Avb.advancing_indexes) 2).
  vm_compute. reflexivity.
Defined.

(* ===================================================================== *)
(** * Properties of the AVB adapter                                       *)
(* ===================================================================== *)

Section AdapterFacts.
Import Avb.

Lemma byte_to_nat_inj b1 b2 : Byte.to_nat b1 = Byte.to_nat b2 -> b1 = b2.
Proof.
  intros H. apply (f_equal Byte.of_nat) in H.
  rewrite !Byte.of_to_nat in H. congruence.
Qed.

(** [avb_memcmp] answers 0 exactly when the first [n] bytes agree, a
    missing byte counting as 0. *)
Lemma avb_memcmp_zero n :
  forall src1 src2,
    avb_memcmp src1 src2 n = 0 <->
    forall i, (i < n)%nat -> nth i src1 Byte.x00 = nth i src2 Byte.x00.
Proof.
  induction n as [|n IH]; intros src1 src2; simpl.
  - split; [intros _ i Hi; lia|done].
  - destruct (Byte.eqb (hd Byte.x00 src1) (hd Byte.x00 src2)) eqn:Heq.
    + apply Byte.byte_dec_bl in Heq. rewrite IH. split.
      * intros H [|i] Hi.
        -- destruct src1, src2; simpl in *; done.
        -- specialize (H i ltac:(lia)).
           destruct src1, src2; simpl in *; try done;
             destruct i; simpl in *; done.
      * intros H i Hi. specialize (H (S i) ltac:(lia)).
        destruct src1, src2; simpl in *; try done;
          destruct i; simpl in *; done.
    + apply Byte.eqb_false in Heq. split.
      * intros H. exfalso. apply Heq. apply byte_to_nat_inj. lia.
      * intros H. exfalso. apply Heq. specialize (H 0%nat ltac:(lia)).
        destruct src1, src2; simpl in *; done.
Qed.

(** The magic test of the adapters accepts exactly the payloads that
    start with the eight bytes of [BOOT_MAGIC]. *)
Lemma magic_test_accepts payload :
  avb_memcmp BOOT_MAGIC (header_magic payload) BOOT_MAGIC_SIZE = 0 <->
  magic_ok payload.
Proof.
  unfold magic_ok, header_magic. rewrite avb_memcmp_zero. split.
  - intros H.
    pose proof (H 0%nat ltac:(unfold BOOT_MAGIC_SIZE; lia)) as H0.
    pose proof (H 1%nat ltac:(unfold BOOT_MAGIC_SIZE; lia)) as H1.
    pose proof (H 2%nat ltac:(unfold BOOT_MAGIC_SIZE; lia)) as H2.
    pose proof (H 3%nat ltac:(unfold BOOT_MAGIC_SIZE; lia)) as H3.
    pose proof (H 4%nat ltac:(unfold BOOT_MAGIC_SIZE; lia)) as H4.
    pose proof (H 5%nat ltac:(unfold BOOT_MAGIC_SIZE; lia)) as H5.
    pose proof (H 6%nat ltac:(unfold BOOT_MAGIC_SIZE; lia)) as H6.
    pose proof (H 7%nat ltac:(unfold BOOT_MAGIC_SIZE; lia)) as H7.
    clear H. cbn in H0, H1, H2, H3, H4, H5, H6, H7.
    do 8 (destruct payload as [|? payload]; [simpl in *; discriminate|]).
    simpl in *. subst. reflexivity.
  - intros H i Hi. rewrite <- H. unfold BOOT_MAGIC_SIZE in *.
    do 8 (destruct i as [|i];
          [by destruct payload as [|? [|? [|? [|? [|? [|? [|? [|? ?]]]]]]]]|]).
    lia.
Qed.
End AdapterFacts.

Section AdapterTheorems.
Import Avb.

Lemma magic_test_bool payload :
  negb (avb_memcmp BOOT_MAGIC (header_magic payload) BOOT_MAGIC_SIZE =? 0)
  = false <-> magic_ok payload.
Proof.
  rewrite negb_false_iff, Z.eqb_eq. apply magic_test_accepts.
Qed.

Lemma get_avb_result_accepted sd boot rest allow r state :
  loaded_partitions sd = boot :: rest -> magic_ok (data boot) ->
  get_avb_result (Some sd) allow r state =
  (EFI_SUCCESS, adapter_table (verify_result_ok r) allow state).
Proof.
  intros Hparts Hmagic. unfold get_avb_result, num_loaded_partitions.
  rewrite Hparts. cbn [length Nat.ltb Nat.leb].
  apply magic_test_bool in Hmagic. rewrite Hmagic.
  unfold adapter_table.
  destruct r; cbn [verify_result_ok];
    destruct allow; cbn [andb];
    repeat match goal with |- context [if ?b then _ else _] =>
      destruct b end; reflexivity.
Qed.

Lemma get_avb_flow_result_accepted sd boot rest allow f state :
  loaded_partitions sd = boot :: rest -> magic_ok (data boot) ->
  get_avb_flow_result (Some sd) allow f state =
  (EFI_SUCCESS, adapter_table (flow_result_ok f) allow state).
Proof.
  intros Hparts Hmagic. unfold get_avb_flow_result, num_loaded_partitions.
  rewrite Hparts. cbn [length Nat.ltb Nat.leb].
  apply magic_test_bool in Hmagic. rewrite Hmagic.
  unfold adapter_table.
  destruct f; cbn [flow_result_ok];
    destruct allow; cbn [andb];
    repeat match goal with |- context [if ?b then _ else _] =>
      destruct b end; reflexivity.
Qed.

Lemma get_avb_result_wrong_magic sd boot rest allow r state :
  loaded_partitions sd = boot :: rest -> ~ magic_ok (data boot) ->
  get_avb_result (Some sd) allow r state = (EFI_NOT_FOUND, state).
Proof.
  intros Hparts Hmagic. unfold get_avb_result, num_loaded_partitions.
  rewrite Hparts. cbn [length Nat.ltb Nat.leb].
  destruct (negb _) eqn:Htest; [done|].
  apply magic_test_bool in Htest. done.
Qed.

Lemma get_avb_flow_result_wrong_magic sd boot rest allow f state :
  loaded_partitions sd = boot :: rest -> ~ magic_ok (data boot) ->
  get_avb_flow_result (Some sd) allow f state = (EFI_NOT_FOUND, state).
Proof.
  intros Hparts Hmagic. unfold get_avb_flow_result, num_loaded_partitions.
  rewrite Hparts. cbn [length Nat.ltb Nat.leb].
  destruct (negb _) eqn:Htest; [done|].
  apply magic_test_bool in Htest. done.
Qed.

(** What the loaders pass to the verifier. *)
Lemma load_avb_unfold env label state sd0 :
  avb_init_ok env = true ->
  android_image_load_partition_avb env label state sd0 =
  let allow := caller_allows_error state in
  let '(r, sd') :=
    avb_slot_verify env label (caller_suffix env) (caller_flags allow) in
  let '(ret, state') := get_avb_result sd' allow r state in
  if EFI_ERROR ret then load_fail ret sd'
  else {| load_ret := ret; bootimage_p := boot_partition_data sd';
          boot_state_out := state'; slot_data_out := sd';
          active_cached := None |}.
Proof.
  intros Hinit. unfold android_image_load_partition_avb.
  rewrite Hinit. cbn [negb]. unfold caller_allows_error, caller_suffix.
  destruct (negb (state =? BOOT_STATE_GREEN)); cbn [caller_flags];
    destruct (use_slot env); try destruct (slot_get_active env); reflexivity.
Qed.

Lemma load_avb_ab_unfold env label state sd0 :
  USE_SLOT env = true ->
  android_image_load_partition_avb_ab env label state sd0 =
  let allow := caller_allows_error state in
  let '(f, sd') := avb_ab_flow env label (caller_flags allow) in
  let '(ret, state') := get_avb_flow_result sd' allow f state in
  if EFI_ERROR ret then load_fail ret sd'
  else {| load_ret := ret; bootimage_p := boot_partition_data sd';
          boot_state_out := state'; slot_data_out := sd';
          active_cached := ab_suffix <$> sd' |}.
Proof.
  intros Hslot. unfold android_image_load_partition_avb_ab.
  rewrite Hslot. cbn [negb]. unfold caller_allows_error.
  destruct (negb (state =? BOOT_STATE_GREEN)); reflexivity.
Qed.
End AdapterTheorems.

Section LoaderTheorems.
Import Avb.

(** An adapter that reports success has seen slot data whose first
    partition starts with the boot magic. *)
Lemma get_avb_result_success sd' allow r state ret state' :
  get_avb_result sd' allow r state = (ret, state') ->
  EFI_ERROR ret = false ->
  exists sd boot rest,
    sd' = Some sd /\ loaded_partitions sd = boot :: rest /\
    magic_ok (data boot).
Proof.
  unfold get_avb_result, num_loaded_partitions.
  destruct sd' as [sd|]; [|by intros [= <- <-]].
  destruct (loaded_partitions sd) as [|boot rest] eqn:Hparts;
    [by intros [= <- <-]|].
  cbn [length Nat.ltb Nat.leb].
  destruct (negb _) eqn:Htest; [by intros [= <- <-]|].
  apply magic_test_bool in Htest. intros _ _. by exists sd, boot, rest.
Qed.

Lemma get_avb_flow_result_success sd' allow f state ret state' :
  get_avb_flow_result sd' allow f state = (ret, state') ->
  EFI_ERROR ret = false ->
  exists sd boot rest,
    sd' = Some sd /\ loaded_partitions sd = boot :: rest /\
    magic_ok (data boot).
Proof.
  unfold get_avb_flow_result, num_loaded_partitions.
  destruct sd' as [sd|]; [|by intros [= <- <-]].
  destruct (loaded_partitions sd) as [|boot rest] eqn:Hparts;
    [by intros [= <- <-]|].
  cbn [length Nat.ltb Nat.leb].
  destruct (negb _) eqn:Htest; [by intros [= <- <-]|].
  apply magic_test_bool in Htest. intros _ _. by exists sd, boot, rest.
Qed.

(** Whatever the verifier answers, a payload a loader hands out starts
    with the boot magic. *)
Lemma load_avb_payload_magic env label state sd0 payload :
  bootimage_p (android_image_load_partition_avb env label state sd0)
    = Some payload ->
  magic_ok payload.
Proof.
  unfold android_image_load_partition_avb.
  destruct (negb (avb_init_ok env)); [done|].
  destruct (avb_slot_verify env label _ _) as [r sd'].
  destruct (get_avb_result sd' _ r state) as [ret state'] eqn:Hres.
  destruct (EFI_ERROR ret) eqn:Herr; [done|]. cbn [bootimage_p].
  destruct (get_avb_result_success _ _ _ _ _ _ Hres Herr)
    as (sd & boot & rest & -> & Hparts & Hmagic).
  unfold boot_partition_data. rewrite Hparts. by intros [= <-].
Qed.

Lemma load_avb_ab_payload_magic env label state sd0 payload :
  bootimage_p (android_image_load_partition_avb_ab env label state sd0)
    = Some payload ->
  magic_ok payload.
Proof.
  unfold android_image_load_partition_avb_ab.
  destruct (negb (USE_SLOT env)); [apply load_avb_payload_magic|].
  destruct (avb_ab_flow env label _) as [f sd'].
  destruct (get_avb_flow_result sd' _ f state) as [ret state'] eqn:Hres.
  destruct (EFI_ERROR ret) eqn:Herr; [done|]. cbn [bootimage_p].
  destruct (get_avb_flow_result_success _ _ _ _ _ _ Hres Herr)
    as (sd & boot & rest & -> & Hparts & Hmagic).
  unfold boot_partition_data. rewrite Hparts. by intros [= <-].
Qed.
End LoaderTheorems.

(** C1.  On slot data whose first loaded partition starts with the boot
    magic, [get_avb_result] and [get_avb_flow_result] succeed and leave the
    trust state the adapter table gives: outcome OK keeps the state, raised
    to ORANGE when errors are allowed and the state is below ORANGE; every
    other outcome gives ORANGE when errors are allowed and the state is at
    most ORANGE, RED otherwise.  Both loaders allow errors exactly when the
    incoming state is not GREEN, and leave the state the table gives for
    that policy. *)
Theorem avb_adapter_follows_table
    (env : Avb.avb_env) (label : string) (sd : Avb.AvbSlotVerifyData)
    (boot : Avb.AvbPartitionData) (rest : list Avb.AvbPartitionData)
    (state : Z) (sd0 : option Avb.AvbSlotVerifyData) :
  Avb.loaded_partitions sd = boot :: rest ->
  Avb.magic_ok (Avb.data boot) ->
  (forall allow r,
     Avb.get_avb_result (Some sd) allow r state =
     (EFI_SUCCESS, Avb.adapter_table (Avb.verify_result_ok r) allow state)) /\
  (forall allow f,
     Avb.get_avb_flow_result (Some sd) allow f state =
     (EFI_SUCCESS, Avb.adapter_table (Avb.flow_result_ok f) allow state)) /\
  (Avb.caller_allows_error state = true <-> state <> BOOT_STATE_GREEN) /\
  (forall r,
     Avb.avb_init_ok env = true ->
     Avb.avb_slot_verify env label (Avb.caller_suffix env)
       (Avb.caller_flags (Avb.caller_allows_error state)) = (r, Some sd) ->
     Avb.boot_state_out
       (Avb.android_image_load_partition_avb env label state sd0) =
     Avb.adapter_table (Avb.verify_result_ok r)
       (Avb.caller_allows_error state) state) /\
  (forall f,
     Avb.USE_SLOT env = true ->
     Avb.avb_ab_flow env label
       (Avb.caller_flags (Avb.caller_allows_error state)) = (f, Some sd) ->
     Avb.boot_state_out
       (Avb.android_image_load_partition_avb_ab env label state sd0) =
     Avb.adapter_table (Avb.flow_result_ok f)
       (Avb.caller_allows_error state) state).
Proof.
  intros Hparts Hmagic. split; [|split; [|split; [|split]]].
  - intros allow r. by eapply get_avb_result_accepted.
  - intros allow f. by eapply get_avb_flow_result_accepted.
  - unfold Avb.caller_allows_error.
    rewrite negb_true_iff, Z.eqb_neq. done.
  - intros r Hinit Hverify. rewrite load_avb_unfold by done. cbv zeta.
    rewrite Hverify.
    rewrite (get_avb_result_accepted sd boot rest) by done. done.
  - intros f Hslot Hflow. rewrite load_avb_ab_unfold by done. cbv zeta.
    rewrite Hflow.
    rewrite (get_avb_flow_result_accepted sd boot rest) by done. done.
Qed.

Lemma avb_adapter_follows_table_witness :
  let sd := Avb.sample_slot_data Avb.android_payload None in
  let env := Avb.sample_env Avb.AVB_SLOT_VERIFY_RESULT_ERROR_VERIFICATION
               Avb.AVB_AB_FLOW_RESULT_OK Avb.android_payload in
  Avb.magic_ok Avb.android_payload /\
  Avb.get_avb_result (Some sd) true
    Avb.AVB_SLOT_VERIFY_RESULT_ERROR_ROLLBACK_INDEX BOOT_STATE_YELLOW
    = (EFI_SUCCESS, BOOT_STATE_ORANGE) /\
  Avb.boot_state_out
    (Avb.android_image_load_partition_avb env "boot" BOOT_STATE_GREEN None)
    = BOOT_STATE_RED /\
  Avb.boot_state_out
    (Avb.android_image_load_partition_avb_ab env "boot" BOOT_STATE_YELLOW None)
    = BOOT_STATE_ORANGE.
Proof.
  intros sd env.
  pose (boot := {| Avb.partition_name := "boot"%string;
                   Avb.data := Avb.android_payload |}).
  split; [reflexivity|]. split; [|split].
  - apply (proj1 (avb_adapter_follows_table env "boot" sd boot []
                    BOOT_STATE_YELLOW None eq_refl eq_refl)).
  - destruct (avb_adapter_follows_table env "boot" sd boot []
                BOOT_STATE_GREEN None eq_refl eq_refl) as (_ & _ & _ & H & _).
    apply (H Avb.AVB_SLOT_VERIFY_RESULT_ERROR_VERIFICATION); reflexivity.
  - destruct (avb_adapter_follows_table env "boot" sd boot []
                BOOT_STATE_YELLOW None eq_refl eq_refl) as (_ & _ & _ & _ & H).
    apply (H Avb.AVB_AB_FLOW_RESULT_OK); reflexivity.
Defined.

(** C8.  Slot data whose first loaded partition does not start with the
    eight bytes of [BOOT_MAGIC] is rejected by [get_avb_result] and
    [get_avb_flow_result] with [EFI_NOT_FOUND] and the trust state
    untouched, for every verifier outcome and either value of
    [allow_verification_error]; the loaders then return an error, leave
    [*bootimage_p] [NULL] and force the state to RED.  No payload a loader
    hands out has a wrong magic. *)
Theorem wrong_magic_never_loaded
    (env : Avb.avb_env) (label : string) (sd : Avb.AvbSlotVerifyData)
    (boot : Avb.AvbPartitionData) (rest : list Avb.AvbPartitionData)
    (state : Z) (sd0 : option Avb.AvbSlotVerifyData) :
  Avb.loaded_partitions sd = boot :: rest ->
  ~ Avb.magic_ok (Avb.data boot) ->
  (forall allow r,
     Avb.get_avb_result (Some sd) allow r state = (EFI_NOT_FOUND, state)) /\
  (forall allow f,
     Avb.get_avb_flow_result (Some sd) allow f state = (EFI_NOT_FOUND, state)) /\
  (forall r,
     Avb.avb_init_ok env = true ->
     Avb.avb_slot_verify env label (Avb.caller_suffix env)
       (Avb.caller_flags (Avb.caller_allows_error state)) = (r, Some sd) ->
     Avb.android_image_load_partition_avb env label state sd0 =
     {| Avb.load_ret := EFI_NOT_FOUND; Avb.bootimage_p := None;
        Avb.boot_state_out := BOOT_STATE_RED;
        Avb.slot_data_out := Some sd; Avb.active_cached := None |}) /\
  (forall f,
     Avb.USE_SLOT env = true ->
     Avb.avb_ab_flow env label
       (Avb.caller_flags (Avb.caller_allows_error state)) = (f, Some sd) ->
     Avb.android_image_load_partition_avb_ab env label state sd0 =
     {| Avb.load_ret := EFI_NOT_FOUND; Avb.bootimage_p := None;
        Avb.boot_state_out := BOOT_STATE_RED;
        Avb.slot_data_out := Some sd; Avb.active_cached := None |}) /\
  (forall env' label' state' sd0' payload,
     Avb.bootimage_p
       (Avb.android_image_load_partition_avb env' label' state' sd0')
       = Some payload \/
     Avb.bootimage_p
       (Avb.android_image_load_partition_avb_ab env' label' state' sd0')
       = Some payload ->
     Avb.magic_ok payload).
Proof.
  intros Hparts Hmagic. split; [|split; [|split; [|split]]].
  - intros allow r. by eapply get_avb_result_wrong_magic.
  - intros allow f. by eapply get_avb_flow_result_wrong_magic.
  - intros r Hinit Hverify. rewrite load_avb_unfold by done. cbv zeta.
    rewrite Hverify.
    rewrite (get_avb_result_wrong_magic sd boot rest) by done. done.
  - intros f Hslot Hflow. rewrite load_avb_ab_unfold by done. cbv zeta.
    rewrite Hflow.
    rewrite (get_avb_flow_result_wrong_magic sd boot rest) by done. done.
  - intros env' label' state' sd0' payload [H|H].
    + by eapply load_avb_payload_magic.
    + by eapply load_avb_ab_payload_magic.
Qed.

Lemma wrong_magic_never_loaded_witness :
  let payload := list_byte_of_string "ANDROIX!kernel" in
  let sd := Avb.sample_slot_data payload None in
  let env := Avb.sample_env Avb.AVB_SLOT_VERIFY_RESULT_OK
               Avb.AVB_AB_FLOW_RESULT_OK payload in
  ~ Avb.magic_ok payload /\
  Avb.get_avb_result (Some sd) true Avb.AVB_SLOT_VERIFY_RESULT_OK
    BOOT_STATE_ORANGE = (EFI_NOT_FOUND, BOOT_STATE_ORANGE) /\
  Avb.bootimage_p
    (Avb.android_image_load_partition_avb env "boot" BOOT_STATE_ORANGE None)
    = None /\
  Avb.boot_state_out
    (Avb.android_image_load_partition_avb_ab env "boot" BOOT_STATE_ORANGE None)
    = BOOT_STATE_RED.
Proof.
  intros payload sd env.
  pose (boot := {| Avb.partition_name := "boot"%string;
                   Avb.data := payload |}).
  assert (Hbad : ~ Avb.magic_ok (Avb.data boot)) by (vm_compute; discriminate).
  destruct (wrong_magic_never_loaded env "boot" sd boot [] BOOT_STATE_ORANGE
              None eq_refl Hbad) as (H1 & _ & H3 & H4 & _).
  split; [exact Hbad|]. split; [apply H1|]. split.
  - rewrite (H3 Avb.AVB_SLOT_VERIFY_RESULT_OK eq_refl eq_refl). reflexivity.
  - rewrite (H4 Avb.AVB_AB_FLOW_RESULT_OK eq_refl eq_refl). reflexivity.
Defined.

(* ===================================================================== *)
(** * Properties of the command-line builder                              *)
(* ===================================================================== *)

Section CommandLineFacts.
Import Avb.
Local Open Scope string_scope.

Lemma append_nil_l s : "" +:+ s = s.
Proof. reflexivity. Qed.

Lemma append_cons a s t : String a s +:+ t = String a (s +:+ t).
Proof. reflexivity. Qed.

Lemma prefix_split needle :
  forall haystack,
    String.prefix needle haystack = true <->
    exists post, haystack = needle +:+ post.
Proof.
  induction needle as [|a needle IH]; intros haystack.
  - split; [intros _; by exists haystack|]. intros _. by destruct haystack.
  - destruct haystack as [|b haystack].
    + split; [done|]. intros [post Hpost]. rewrite append_cons in Hpost. done.
    + cbn [String.prefix]. destruct (ascii_dec a b) as [->|Hne].
      * rewrite IH. split; intros [post Hpost]; exists post.
        -- rewrite append_cons. congruence.
        -- rewrite append_cons in Hpost. congruence.
      * split; [done|]. intros [post Hpost]. rewrite append_cons in Hpost.
        congruence.
Qed.

(** [avb_strstr] finds nothing exactly when the needle does not occur. *)
Lemma avb_strstr_none needle :
  needle <> "" ->
  forall haystack,
    avb_strstr haystack needle = None <-> ~ contains haystack needle.
Proof.
  intros Hne. induction haystack as [|a haystack IH]; cbn [avb_strstr].
  - split; [|done]. intros _ (pre & post & Heq).
    destruct pre as [|b pre]; [|by rewrite append_cons in Heq].
    rewrite append_nil_l in Heq. destruct needle; [done|].
    by rewrite append_cons in Heq.
  - destruct (String.prefix needle (String a haystack)) eqn:Hpre.
    + split; [done|]. intros Hno. exfalso. apply Hno.
      apply prefix_split in Hpre as [post ->]. by exists "", post.
    + rewrite fmap_None, IH. split.
      * intros Hno (pre & post & Heq). destruct pre as [|b pre].
        -- rewrite append_nil_l in Heq.
           assert (String.prefix needle (String a haystack) = true)
             by (apply prefix_split; eauto). congruence.
        -- rewrite append_cons in Heq. injection Heq as -> ->.
           apply Hno. by exists pre, post.
      * intros Hno (pre & post & ->). apply Hno.
        by exists (String a pre), post.
Qed.

End CommandLineFacts.

Section CommandLineRule.
Import Avb.
Local Open Scope string_scope.

Lemma prepend_command_line_contract : prepend_contract prepend_command_line.
Proof. split; [done|]. intros line f. by destruct line. Qed.

Lemma prepend_out_of_resources_contract :
  prepend_contract prepend_out_of_resources.
Proof. split; [done|done]. Qed.

(** A [pcl] that honours the contract and never fails is
    [prepend_command_line]. *)
Lemma prepend_no_failure pcl :
  prepend_contract pcl ->
  (forall l f, EFI_ERROR (pcl l f).1 = false) ->
  forall l f, pcl l f = prepend_command_line l f.
Proof. intros Hc Hok l f. apply (prepend_done pcl Hc). apply Hok. Qed.

Lemma prepend_fragments_cons f fs line :
  prepend_command_line (prepend_fragments fs line) f
  = (EFI_SUCCESS, prepend_fragments (f :: fs) line).
Proof.
  cbn [prepend_fragments foldr]. fold (prepend_fragments fs line).
  by destruct (prepend_fragments fs line).
Qed.

(** [prepend_slot_command_line] with slots in use, when no prepend fails. *)
Lemma slot_command_line_run pcl env line target vb :
  (forall l f, pcl l f = prepend_command_line l f) ->
  use_slot env = true ->
  prepend_slot_command_line pcl env line target vb =
  let base := (suffix_fragments env ++ rootfs_fragments target)%list in
  match vb ≫= cmdline with
  | Some verified =>
      match avb_strstr verified "root=" with
      | Some _ => (EFI_SUCCESS, prepend_fragments base line)
      | None =>
          let '(ret, uuid) :=
            gpt_get_partition_uuid env (slot_label env "system") in
          if EFI_ERROR ret then (ret, prepend_fragments base line)
          else (EFI_SUCCESS, prepend_fragments (root_fragment uuid :: base) line)
      end
  | None => (EFI_SUCCESS, prepend_fragments base line)
  end.
Proof.
  intros Hpcl Hslot. cbv zeta.
  assert (Hrootfs :
    avb_prepend_command_line_rootfs pcl env line target
    = (EFI_SUCCESS, prepend_fragments (rootfs_fragments target) line)).
  { unfold avb_prepend_command_line_rootfs, rootfs_fragments.
    destruct (decide (target = RECOVERY \/ target = MEMORY)); [done|].
    rewrite Hslot, Hpcl. by destruct line. }
  unfold prepend_slot_command_line. rewrite Hrootfs, Hslot.
  assert (Hsuffix :
    match slot_get_active env with
    | Some suffix =>
        pcl (prepend_fragments (rootfs_fragments target) line)
          ("androidboot.slot_suffix=" +:+ suffix)
    | None => (EFI_SUCCESS, prepend_fragments (rootfs_fragments target) line)
    end
    = (EFI_SUCCESS,
       prepend_fragments (suffix_fragments env ++ rootfs_fragments target)%list
         line)).
  { unfold suffix_fragments. destruct (slot_get_active env) as [suffix|];
      [|done].
    rewrite Hpcl. apply (prepend_fragments_cons (slot_suffix_fragment suffix)). }
  rewrite Hsuffix. cbn [EFI_ERROR].
  destruct (vb ≫= cmdline) as [verified|]; [|done].
  destruct (avb_strstr verified "root="); [done|].
  destruct (gpt_get_partition_uuid env _) as [ret uuid].
  destruct (EFI_ERROR ret); [done|]. rewrite Hpcl.
  apply (prepend_fragments_cons (root_fragment uuid)).
Qed.
End CommandLineRule.

(** The claim of C9 as stated fails.  With slots in use and a verified
    command line without "root=": for RECOVERY the root fragment is still
    prepended, only the "skip_initramfs ..." fragment is left out; for
    NORMAL_BOOT the two pieces are prepended separately, the slot suffix
    between them and the root fragment in front. *)
Lemma rootfs_prepend_counterexample :
  let env := Avb.sample_env Avb.AVB_SLOT_VERIFY_RESULT_OK
               Avb.AVB_AB_FLOW_RESULT_OK Avb.android_payload in
  let vb := Some (Avb.sample_slot_data Avb.android_payload (Some "dm=1"%string)) in
  Avb.avb_strstr "dm=1" "root=" = None /\
  Avb.prepend_slot_command_line Avb.prepend_command_line env
    (Some "console=ttyS0"%string) RECOVERY vb =
    (EFI_SUCCESS,
     Some (" root=PARTUUID=01234567-89ab-cdef-0123-456789abcdef " +:+
           "androidboot.slot_suffix=_a console=ttyS0")%string) /\
  Avb.prepend_slot_command_line Avb.prepend_command_line env
    (Some "console=ttyS0"%string) NORMAL_BOOT vb =
    (EFI_SUCCESS,
     Some (" root=PARTUUID=01234567-89ab-cdef-0123-456789abcdef " +:+
           "androidboot.slot_suffix=_a " +:+
           "skip_initramfs rootwait ro init=/init console=ttyS0")%string).
Proof. cbv zeta. repeat split; vm_compute; reflexivity. Qed.

(** C9, amended.  When no [prepend_command_line] fails,
    [prepend_slot_command_line] puts these fragments in front of the line,
    with [base] the slot-suffix fragment, if a slot is active, followed by
    "skip_initramfs rootwait ro init=/init", unless the boot target is
    RECOVERY or MEMORY:
    - without slots in use, nothing: the line is returned as it is;
    - with slots in use and a verified command line that does not contain
      "root=": " root=PARTUUID=<system-partition-uuid>" and then [base], for
      every boot target, RECOVERY and MEMORY included, whether or not a
      slot is active; if the lookup of the UUID fails, [base] only, and the
      status of the lookup is returned;
    - with slots in use and a verified command line that contains "root=",
      or no verified data or command line: [base] only.
    So "skip_initramfs ..." is prepended whether or not the verified
    command line contains "root=", and only that fragment is left out for
    RECOVERY and MEMORY. *)
Theorem slot_command_line_fragments
    (pcl : Avb.prepend_fn) (env : Avb.avb_env) (line : option string)
    (target : boot_target) (vb : option Avb.AvbSlotVerifyData) :
  Avb.prepend_contract pcl ->
  (forall l f, EFI_ERROR (pcl l f).1 = false) ->
  let res := Avb.prepend_slot_command_line pcl env line target vb in
  let base := Avb.suffix_fragments env ++ Avb.rootfs_fragments target in
  (Avb.use_slot env = false -> res = (EFI_SUCCESS, line)) /\
  (Avb.use_slot env = true ->
   (forall verified ret uuid,
      vb ≫= Avb.cmdline = Some verified ->
      ~ Avb.contains verified "root=" ->
      Avb.gpt_get_partition_uuid env (Avb.slot_label env "system")
      = (ret, uuid) ->
      (EFI_ERROR ret = false ->
       res = (EFI_SUCCESS,
              Avb.prepend_fragments (Avb.root_fragment uuid :: base) line)) /\
      (EFI_ERROR ret = true ->
       res = (ret, Avb.prepend_fragments base line))) /\
   (forall verified,
      vb ≫= Avb.cmdline = Some verified ->
      Avb.contains verified "root=" ->
      res = (EFI_SUCCESS, Avb.prepend_fragments base line)) /\
   (vb ≫= Avb.cmdline = None ->
    res = (EFI_SUCCESS, Avb.prepend_fragments base line))) /\
  (Avb.rootfs_fragments target
   = if decide (target = RECOVERY \/ target = MEMORY) then []
     else ["skip_initramfs rootwait ro init=/init"%string]) /\
  (Avb.suffix_fragments env
   = match Avb.slot_get_active env with
     | Some suffix => [("androidboot.slot_suffix=" +:+ suffix)%string]
     | None => []
     end).
Proof.
  intros Hcontract Hok res base.
  pose proof (prepend_no_failure pcl Hcontract Hok) as Hpcl.
  assert (Hneedle : "root="%string <> ""%string) by done.
  split; [|split; [|split; [reflexivity|reflexivity]]].
  - intros Hslot. subst res.
    unfold Avb.prepend_slot_command_line, Avb.avb_prepend_command_line_rootfs.
    rewrite Hslot. by destruct (decide (target = RECOVERY \/ target = MEMORY)).
  - intros Hslot. subst res base.
    rewrite (slot_command_line_run pcl env line target vb Hpcl Hslot).
    cbv zeta. split; [|split].
    + intros verified ret uuid Hcmd Hno Huuid. rewrite Hcmd.
      apply (avb_strstr_none _ Hneedle) in Hno. rewrite Hno, Huuid.
      split; by intros ->.
    + intros verified Hcmd Hyes. rewrite Hcmd.
      destruct (Avb.avb_strstr verified "root=") eqn:Hfound; [done|].
      by apply (avb_strstr_none _ Hneedle) in Hfound.
    + by intros ->.
Qed.

Lemma slot_command_line_fragments_witness :
  let env := Avb.sample_env Avb.AVB_SLOT_VERIFY_RESULT_OK
               Avb.AVB_AB_FLOW_RESULT_OK Avb.android_payload in
  let vb := Avb.sample_slot_data Avb.android_payload (Some "dm=1"%string) in
  ~ Avb.contains "dm=1" "root=" /\
  Avb.prepend_slot_command_line Avb.prepend_command_line env
    (Some "console=ttyS0"%string) MEMORY (Some vb) =
  (EFI_SUCCESS,
   Avb.prepend_fragments
     [Avb.root_fragment Avb.sample_uuid; Avb.slot_suffix_fragment "_a"]
     (Some "console=ttyS0"%string)).
Proof.
  intros env vb.
  assert (Hno : ~ Avb.contains "dm=1" "root=").
  { apply (avb_strstr_none "root="); [done|]. reflexivity. }
  split; [exact Hno|].
  destruct (slot_command_line_fragments Avb.prepend_command_line env
              (Some "console=ttyS0"%string) MEMORY (Some vb)
              prepend_command_line_contract
              (fun l f => match l with Some _ => eq_refl | None => eq_refl end))
    as (_ & Hslots & _).
  destruct (Hslots eq_refl) as (Hroot & _ & _).
  exact (proj1 (Hroot "dm=1"%string EFI_SUCCESS Avb.sample_uuid
                  eq_refl Hno eq_refl) eq_refl).
Defined.

(* ===================================================================== *)
(** * Properties of image validation and of the trust state               *)
(* ===================================================================== *)

(** C10.  For a boot target outside NORMAL_BOOT, MEMORY, CHARGER, RECOVERY
    and ESP_BOOTIMAGE, [validate_bootimage] returns RED whatever
    [verify_android_boot_image] answers, GREEN and YELLOW included: no
    expected target name exists, so the name check fails. *)
Theorem validate_bootimage_unsupported_target
    (sec : Kf.security) (target : boot_target) (bootimage : list Byte.byte) :
  target ∉ [NORMAL_BOOT; MEMORY; CHARGER; RECOVERY; ESP_BOOTIMAGE] ->
  Kf.expected_targets sec target = (None, None) /\
  Kf.validate_bootimage sec target bootimage = BOOT_STATE_RED.
Proof.
  intros Hout.
  assert (Hexp : Kf.expected_targets sec target = (None, None)).
  { destruct target; try reflexivity; exfalso; apply Hout;
      repeat (first [apply list_elem_of_here | apply list_elem_of_further]). }
  split; [exact Hexp|]. unfold Kf.validate_bootimage.
  destruct (Kf.verify_android_boot_image sec bootimage) as [boot_state name].
  destruct (boot_state =? BOOT_STATE_RED) eqn:Hred.
  - by apply Z.eqb_eq in Hred.
  - by rewrite Hexp.
Qed.

Lemma validate_bootimage_unsupported_target_witness :
  (FASTBOOT ∉ [NORMAL_BOOT; MEMORY; CHARGER; RECOVERY; ESP_BOOTIMAGE]) /\
  Kf.validate_bootimage
    (Kf.sample_security true (BOOT_STATE_GREEN, "/boot"%string)) FASTBOOT []
  = BOOT_STATE_RED.
Proof.
  assert (Hout : FASTBOOT ∉ [NORMAL_BOOT; MEMORY; CHARGER; RECOVERY;
                             ESP_BOOTIMAGE]).
  { intros Hin. repeat (apply elem_of_cons in Hin as [Hin|Hin]; [discriminate|]).
    by apply elem_of_nil in Hin. }
  split; [exact Hout|].
  apply (validate_bootimage_unsupported_target
           (Kf.sample_security true (BOOT_STATE_GREEN, "/boot"%string))
           FASTBOOT [] Hout).
Defined.

Section TrustStateFacts.
Import Avb.

Lemma get_avb_result_raises sd allow r state :
  is_boot_state state -> state <= (get_avb_result sd allow r state).2.
Proof.
  unfold is_boot_state, get_avb_result, BOOT_STATE_GREEN, BOOT_STATE_RED,
    BOOT_STATE_ORANGE.
  intros Hs. destruct sd as [sd|]; [|simpl; lia].
  destruct (num_loaded_partitions sd <? 1)%nat; [simpl; lia|].
  destruct (negb _); [simpl; lia|].
  destruct r, allow; cbn [andb];
    repeat match goal with
           | |- context [(?a <? ?b)] => destruct (Z.ltb_spec a b)
           | |- context [(?a <=? ?b)] => destruct (Z.leb_spec a b)
           end; simpl; lia.
Qed.

Lemma get_avb_flow_result_raises sd allow f state :
  is_boot_state state -> state <= (get_avb_flow_result sd allow f state).2.
Proof.
  unfold is_boot_state, get_avb_flow_result, BOOT_STATE_GREEN, BOOT_STATE_RED,
    BOOT_STATE_ORANGE.
  intros Hs. destruct sd as [sd|]; [|simpl; lia].
  destruct (num_loaded_partitions sd <? 1)%nat; [simpl; lia|].
  destruct (negb _); [simpl; lia|].
  destruct f, allow; cbn [andb];
    repeat match goal with
           | |- context [(?a <? ?b)] => destruct (Z.ltb_spec a b)
           | |- context [(?a <=? ?b)] => destruct (Z.leb_spec a b)
           end; simpl; lia.
Qed.

Lemma load_avb_raises env label state sd0 :
  is_boot_state state ->
  state <= boot_state_out (android_image_load_partition_avb env label state sd0).
Proof.
  intros Hs. unfold android_image_load_partition_avb.
  destruct (negb (avb_init_ok env)); [apply Hs|].
  destruct (avb_slot_verify env label _ _) as [r sd'].
  pose proof (get_avb_result_raises sd'
                (negb (state =? BOOT_STATE_GREEN)) r state Hs) as Hle.
  destruct (get_avb_result sd' _ r state) as [ret state'].
  destruct (EFI_ERROR ret); [apply Hs|exact Hle].
Qed.

Lemma load_avb_ab_raises env label state sd0 :
  is_boot_state state ->
  state <=
  boot_state_out (android_image_load_partition_avb_ab env label state sd0).
Proof.
  intros Hs. unfold android_image_load_partition_avb_ab.
  destruct (negb (USE_SLOT env)); [by apply load_avb_raises|].
  destruct (avb_ab_flow env label _) as [f sd'].
  pose proof (get_avb_flow_result_raises sd'
                (negb (state =? BOOT_STATE_GREEN)) f state Hs) as Hle.
  destruct (get_avb_flow_result sd' _ f state) as [ret state'].
  destruct (EFI_ERROR ret); [apply Hs|exact Hle].
Qed.

Lemma validate_bootimage_lower_bound sec target bootimage :
  BOOT_STATE_GREEN <= (Kf.verify_android_boot_image sec bootimage).1 ->
  BOOT_STATE_GREEN <= Kf.validate_bootimage sec target bootimage.
Proof.
  unfold Kf.validate_bootimage.
  destruct (Kf.verify_android_boot_image sec bootimage) as [boot_state name].
  simpl. intros Hs. destruct (boot_state =? BOOT_STATE_RED); [done|].
  destruct (Kf.expected_targets sec target) as [e1 e2].
  destruct (_ && _); [done|done].
Qed.
End TrustStateFacts.

(** The claim of C7 as stated fails in a build without USERDEBUG: the
    state enters the load/validate stage as RED, the image loads and
    validates as GREEN, and the state is lowered to GREEN. *)
Lemma red_state_lowered_counterexample :
  let sec := Kf.sample_security false (BOOT_STATE_GREEN, "/boot"%string) in
  Kf.device_boot_state sec = BOOT_STATE_RED /\
  Kf.validate_bootimage sec NORMAL_BOOT [] = BOOT_STATE_GREEN /\
  Kf.load_validate_stage sec NORMAL_BOOT (EFI_SUCCESS, []) BOOT_STATE_RED
    = BOOT_STATE_GREEN /\
  Kf.efi_main_boot_state sec NORMAL_BOOT (EFI_SUCCESS, [])
    < Kf.device_boot_state sec.
Proof. cbv zeta. repeat split. Qed.

(** C7, amended.  ORANGE is latched: when the state entering the
    load/validate stage of [efi_main] is ORANGE and the image loads, the
    state is still ORANGE after [validate_bootimage] returns, for every
    validation outcome, RED included.  A state of GREEN or ORANGE entering
    that stage is never lowered by it, and those are the states that enter
    it in USERDEBUG builds.  [get_avb_result], [get_avb_flow_result] and
    the two AVB loaders never lower a valid trust state. *)
Theorem orange_latched_states_raised
    (sec : Kf.security) (target : boot_target)
    (loaded : EFI_STATUS * list Byte.byte) (state : Z) :
  (EFI_ERROR loaded.1 = false ->
   Kf.load_validate_stage sec target loaded BOOT_STATE_ORANGE
   = BOOT_STATE_ORANGE) /\
  (BOOT_STATE_GREEN <= (Kf.verify_android_boot_image sec loaded.2).1 ->
   state = BOOT_STATE_GREEN \/ state = BOOT_STATE_ORANGE ->
   state <= Kf.load_validate_stage sec target loaded state) /\
  (Kf.USERDEBUG sec = true ->
   Kf.device_boot_state sec = BOOT_STATE_GREEN \/
   Kf.device_boot_state sec = BOOT_STATE_ORANGE) /\
  (is_boot_state state ->
   forall sd allow r f env label sd0,
     state <= (Avb.get_avb_result sd allow r state).2 /\
     state <= (Avb.get_avb_flow_result sd allow f state).2 /\
     state <= Avb.boot_state_out
                (Avb.android_image_load_partition_avb env label state sd0) /\
     state <= Avb.boot_state_out
                (Avb.android_image_load_partition_avb_ab env label state sd0)).
Proof.
  split; [|split; [|split]].
  - destruct loaded as [ret bootimage]. simpl. intros ->. done.
  - destruct loaded as [ret bootimage]. simpl. intros Hverify Hstate.
    destruct (EFI_ERROR ret).
    + destruct Hstate as [-> | ->]; done.
    + pose proof (validate_bootimage_lower_bound sec target bootimage Hverify).
      destruct Hstate as [-> | ->]; simpl; [done|done].
  - intros Hbuild. unfold Kf.device_boot_state. rewrite Hbuild.
    destruct (_ && _); [by right|]. destruct (Kf.device_is_unlocked sec); auto.
  - intros Hs sd allow r f env label sd0.
    split; [by apply get_avb_result_raises|].
    split; [by apply get_avb_flow_result_raises|].
    split; [by apply load_avb_raises|by apply load_avb_ab_raises].
Qed.

Lemma orange_latched_states_raised_witness :
  let sec := Kf.sample_security true (BOOT_STATE_RED, "/boot"%string) in
  EFI_ERROR EFI_SUCCESS = false /\
  Kf.validate_bootimage sec NORMAL_BOOT [] = BOOT_STATE_RED /\
  Kf.load_validate_stage sec NORMAL_BOOT (EFI_SUCCESS, []) BOOT_STATE_ORANGE
  = BOOT_STATE_ORANGE.
Proof.
  intros sec. split; [reflexivity|]. split; [reflexivity|].
  apply (proj1 (orange_latched_states_raised sec NORMAL_BOOT
                  (EFI_SUCCESS, []) BOOT_STATE_ORANGE)).
  reflexivity.
Defined.

(* ===================================================================== *)
(** * Properties of the boot-target selector                              *)
(* ===================================================================== *)

Section MagicKeyFacts.
Import Kf.

Lemma ReadKeyStroke_pending st r rest :
  key_queue st = r :: rest ->
  ReadKeyStroke st = (r, set_keys rest st).
Proof. intros Hq. unfold ReadKeyStroke, bind, get, modify, ret. by rewrite Hq. Qed.

Lemma poll_key_unfold remaining st r rest :
  key_queue st = r :: rest ->
  poll_key remaining st =
  if decide (r.1 = EFI_SUCCESS) then (r, set_keys rest st)
  else match remaining with
       | O => (r, set_keys rest st)
       | S remaining' =>
           poll_key remaining'
             (set_stalled (stalled_us (set_keys rest st)
                           + DETECT_KEY_STALL_TIME_MS * 1000)%N
                (set_keys rest st))
       end.
Proof.
  intros Hq. destruct remaining; cbn [poll_key]; unfold bind at 1;
    rewrite (ReadKeyStroke_pending _ _ _ Hq);
    destruct (decide (r.1 = EFI_SUCCESS)); reflexivity.
Qed.

(** A key stroke that arrives within the wait time is the one the polling
    loop returns; the strokes behind it stay pending. *)
Lemma poll_key_finds misses :
  forall remaining st key rest,
    key_queue st = misses ++ (EFI_SUCCESS, key) :: rest ->
    Forall (fun r => r.1 <> EFI_SUCCESS) misses ->
    (length misses <= remaining)%nat ->
    exists st', poll_key remaining st = ((EFI_SUCCESS, key), st') /\
                key_queue st' = rest.
Proof.
  induction misses as [|m misses IH]; intros remaining st key rest Hq Hmiss Hlen.
  - rewrite (poll_key_unfold _ _ _ _ Hq). cbn [fst].
    destruct (decide (EFI_SUCCESS = EFI_SUCCESS)); [|done].
    by eexists.
  - rewrite (poll_key_unfold _ _ _ _ Hq).
    apply Forall_cons in Hmiss as [Hm Hmiss].
    destruct (decide (m.1 = EFI_SUCCESS)); [done|].
    destruct remaining as [|remaining]; [simpl in Hlen; lia|].
    apply IH; [reflexivity|done|simpl in Hlen; lia].
Qed.

(** [check_magic_key] answers NORMAL_BOOT or FASTBOOT, nothing else. *)
Lemma check_magic_key_range pf st :
  (check_magic_key pf st).1 = NORMAL_BOOT \/
  (check_magic_key pf st).1 = FASTBOOT.
Proof.
  unfold check_magic_key, bind.
  destruct (poll_key (magic_key_wait_ms pf) st) as [[status key] st'].
  destruct (EFI_ERROR status); [by left|].
  destruct (negb _); [by left|].
  destruct (ui_enforce_key_held pf _ _); [by right|by left].
Qed.
End MagicKeyFacts.

(** C3, the behaviour of the code.  When the down-arrow key is read within
    the wait time, [check_magic_key] returns FASTBOOT if the key stays held
    for the fastboot delay and NORMAL_BOOT if it does not: a short press
    does not yield RECOVERY. *)
Theorem magic_key_short_press_boots_normally
    (pf : Kf.platform) (st : Kf.state)
    (misses : list (EFI_STATUS * Kf.EFI_INPUT_KEY))
    (key : Kf.EFI_INPUT_KEY) (rest : list (EFI_STATUS * Kf.EFI_INPUT_KEY)) :
  Kf.key_queue st = misses ++ (EFI_SUCCESS, key) :: rest ->
  Forall (fun r => r.1 <> EFI_SUCCESS) misses ->
  (length misses <= Kf.magic_key_wait_ms pf)%nat ->
  Kf.ui_keycode_to_event pf (Kf.ScanCode key) = Kf.MAGIC_KEY ->
  (Kf.check_magic_key pf st).1 =
    (if Kf.ui_enforce_key_held pf Kf.FASTBOOT_HOLD_DELAY Kf.MAGIC_KEY
     then FASTBOOT else NORMAL_BOOT) /\
  (Kf.check_magic_key pf st).1 <> RECOVERY.
Proof.
  intros Hq Hmiss Hlen Hkey.
  destruct (poll_key_finds misses _ st key rest Hq Hmiss Hlen)
    as (st' & Hpoll & _).
  assert (Hres : (Kf.check_magic_key pf st).1 =
    if Kf.ui_enforce_key_held pf Kf.FASTBOOT_HOLD_DELAY Kf.MAGIC_KEY
    then FASTBOOT else NORMAL_BOOT).
  { unfold Kf.check_magic_key, Kf.bind. rewrite Hpoll. cbn [EFI_ERROR].
    rewrite Hkey. rewrite bool_decide_eq_true_2 by done. cbn [negb].
    by destruct (Kf.ui_enforce_key_held pf _ _). }
  split; [exact Hres|]. rewrite Hres.
  by destruct (Kf.ui_enforce_key_held pf _ _).
Qed.

Lemma magic_key_short_press_boots_normally_witness :
  Kf.key_queue Kf.short_press_state =
    [] ++ [(EFI_SUCCESS, {| Kf.ScanCode := Kf.SCAN_DOWN; Kf.UnicodeChar := 0 |})] /\
  Kf.ui_enforce_key_held Kf.sample_platform Kf.FASTBOOT_HOLD_DELAY Kf.MAGIC_KEY
    = false /\
  (Kf.check_magic_key Kf.sample_platform Kf.short_press_state).1 = NORMAL_BOOT.
Proof.
  split; [reflexivity|]. split; [reflexivity|].
  apply (proj1 (magic_key_short_press_boots_normally
                  Kf.sample_platform Kf.short_press_state []
                  {| Kf.ScanCode := Kf.SCAN_DOWN; Kf.UnicodeChar := 0 |} []
                  eq_refl (Forall_nil_2 _) (Nat.le_0_l _) eq_refl)).
Defined.

Section BcbFacts.
Import Kf.
Local Open Scope string_scope.

Lemma char_code_inj c1 c2 : char_code c1 - char_code c2 = 0 -> c1 = c2.
Proof.
  unfold char_code. intros H.
  assert (Hn : nat_of_ascii c1 = nat_of_ascii c2) by lia.
  apply (f_equal ascii_of_nat) in Hn. by rewrite !ascii_nat_embedding in Hn.
Qed.

Lemma ascii_eqb_false c1 c2 : Ascii.eqb c1 c2 = false <-> c1 <> c2.
Proof.
  split.
  - intros H ->. by rewrite Ascii.eqb_refl in H.
  - intros H. destruct (Ascii.eqb c1 c2) eqn:E; [|done].
    by apply Ascii.eqb_eq in E.
Qed.


(** Writing [NUL] into the first byte empties the string. *)
Lemma cstr_insert_nul a : cstr (<[0%nat := NUL]> a) = "".
Proof. by destruct a. Qed.

Lemma char_at_cons x a : char_at (x :: a) 0 = x.
Proof. reflexivity. Qed.

Lemma char_at_nil : char_at [] 0 = NUL.
Proof. reflexivity. Qed.

(** [strncmpa] against a literal over the literal's length answers 0
    exactly when the string in the array starts with the literal. *)
Lemma strncmpa_prefix p :
  Forall (fun c => c <> NUL) (list_ascii_of_string p) ->
  forall a,
    strncmpa a (list_ascii_of_string p) (String.length p) = 0 <->
    String.prefix p (cstr a) = true.
Proof.
  induction p as [|c p IH]; intros Hp a.
  - cbn [String.length strncmpa]. by destruct (cstr a).
  - cbn [list_ascii_of_string] in Hp. apply Forall_cons in Hp as [Hc Hp].
    cbn [String.length list_ascii_of_string strncmpa tl].
    rewrite (char_at_cons c). destruct a as [|x a].
    + rewrite char_at_nil. cbn [cstr]. rewrite Ascii.eqb_refl. split.
      * intros H. apply char_code_inj in H. congruence.
      * done.
    + rewrite char_at_cons. cbn [cstr tl].
      destruct (Ascii.eqb x NUL) eqn:Hx.
      * apply Ascii.eqb_eq in Hx. subst x. split; [|done].
        intros H. apply char_code_inj in H. congruence.
      * cbn [String.prefix]. destruct (Ascii.eqb x c) eqn:Hxc.
        -- apply Ascii.eqb_eq in Hxc. subst x. cbn [negb].
           destruct (ascii_dec c c); [|done]. by apply IH.
        -- apply ascii_eqb_false in Hxc. cbn [negb]. split.
           ++ intros H. apply char_code_inj in H. done.
           ++ destruct (ascii_dec c x); [congruence|done].
Qed.

Lemma write_bcb_effect pf bcb st :
  bcb_writes (write_bcb pf bcb st).2 = (bcb_writes st ++ [bcb])%list /\
  misc (write_bcb pf bcb st).2 = (if write_bcb_ok pf then Some bcb else misc st).
Proof.
  unfold write_bcb, bind, get, modify, ret.
  by destruct (write_bcb_ok pf).
Qed.

(** [check_bcb] on a readable BCB, branch by branch. *)
Lemma check_bcb_run pf st bcb :
  misc st = Some bcb ->
  let dirty := negb (Ascii.eqb (char_at (status bcb) 0) NUL) in
  let bcb1 := set_status (<[0%nat := NUL]> (status bcb)) bcb in
  let bcb2 := set_command (<[0%nat := NUL]> (command bcb)) bcb1 in
  check_bcb pf st =
  if (strncmpa (command bcb) (list_ascii_of_string "boot-") 5 =? 0)%Z then
    ((bcb_target pf (cstr (drop 5 (command bcb))), false),
     if dirty then (write_bcb pf bcb1 st).2 else st)
  else if (strncmpa (command bcb) (list_ascii_of_string "bootonce-") 9 =? 0)%Z
  then
    ((bcb_target pf (cstr (drop 9 (command bcb))), true),
     (write_bcb pf bcb2 st).2)
  else
    ((NORMAL_BOOT, None, false),
     if dirty then (write_bcb pf bcb1 st).2 else st).
Proof.
  intros Hmisc. cbv zeta. unfold check_bcb, read_bcb.
  unfold bind at 1 2. unfold get at 1. rewrite Hmisc. unfold ret at 1.
  cbn [fst snd set_status command status].
  destruct (strncmpa (command bcb) _ 5 =? 0)%Z.
  - destruct (negb _); unfold bind, ret.
    + destruct (write_bcb pf _ st) as [r st'].
      by destruct (bcb_target pf _).
    + by destruct (bcb_target pf _).
  - destruct (strncmpa (command bcb) _ 9 =? 0)%Z.
    + unfold bind, ret. destruct (write_bcb pf _ st) as [r st'].
      by destruct (bcb_target pf _).
    + destruct (negb _); unfold bind, ret; [|done].
      by destruct (write_bcb pf _ st) as [r st'].
Qed.
End BcbFacts.




Section SelectorFacts.
Import Kf.

(** When the rules in front of a rule all answer NORMAL_BOOT and the rule
    itself answers something else, that answer is the result, and the
    state is the one the rule leaves: the rules behind it are not run. *)
Lemma first_rule_wins_app pre :
  forall rule post st st1 t st2,
    all_pass pre st = Some st1 ->
    rule st1 = (t, st2) ->
    t <> NORMAL_BOOT ->
    first_rule_wins (pre ++ rule :: post) st = (t, st2).
Proof.
  induction pre as [|r0 pre IH]; intros rule post st st1 t st2 Hpass Hrule Ht.
  - injection Hpass as <-. cbn [app first_rule_wins]. unfold bind.
    rewrite Hrule. by destruct (decide (t <> NORMAL_BOOT)).
  - cbn [all_pass] in Hpass. cbn [app first_rule_wins]. unfold bind at 1.
    destruct (r0 st) as [t0 st0].
    destruct (decide (t0 = NORMAL_BOOT)) as [->|]; [|done].
    destruct (decide (NORMAL_BOOT <> NORMAL_BOOT)); [done|].
    by eapply IH.
Qed.

(** [choose_boot_target] is the priority rule over [code_rules]. *)
Lemma choose_boot_target_first_rule pf st :
  ((choose_boot_target pf st).1.1.1, (choose_boot_target pf st).2) =
  first_rule_wins (code_rules pf) st.
Proof.
  unfold choose_boot_target, code_rules, rules_before_one_shot,
    rules_after_one_shot, bcb_rule, battery_rule, ignoring_dnx.
  cbn [app first_rule_wins]. unfold bind, ret.
  destruct (check_command_line pf st) as [r1 st1].
  destruct (decide (r1 <> NORMAL_BOOT)); [reflexivity|].
  destruct (decide (check_fastboot_sentinel pf <> NORMAL_BOOT)); [reflexivity|].
  destruct (check_magic_key pf st1) as [r3 st3].
  destruct (decide (r3 <> NORMAL_BOOT)); [reflexivity|].
  destruct (check_watchdog pf st3) as [r4 st4].
  destruct (decide (r4 <> NORMAL_BOOT)); [reflexivity|].
  destruct (decide (check_battery_inserted pf <> NORMAL_BOOT)); [reflexivity|].
  destruct (check_bcb pf st4) as [[[r6 path] oneshot] st6]. cbn [fst snd].
  destruct (decide (r6 <> NORMAL_BOOT)); [reflexivity|].
  destruct (check_loader_entry_one_shot pf st6) as [r7 st7].
  destruct (decide (r7 <> DNX /\ r7 <> NORMAL_BOOT)) as [[Hd Hn]|Hno].
  - destruct (decide (r7 = DNX)); [done|].
    destruct (decide (r7 <> NORMAL_BOOT)); [reflexivity|done].
  - assert (Hskip : (if decide (r7 = DNX) then NORMAL_BOOT else r7) = NORMAL_BOOT).
    { destruct (decide (r7 = DNX)); [done|].
      destruct (decide (r7 = NORMAL_BOOT)); [done|]. exfalso. by apply Hno. }
    rewrite Hskip. destruct (decide (NORMAL_BOOT <> NORMAL_BOOT)); [done|].
    destruct (decide (check_battery pf = POWER_OFF));
      [destruct (ux_show _ st7) as [u st8]|];
      destruct (decide (check_battery pf <> NORMAL_BOOT)); try reflexivity;
      destruct (decide (check_charge_mode pf <> NORMAL_BOOT)); try reflexivity;
      cbn [fst snd]; f_equal;
      destruct (decide (check_charge_mode pf = NORMAL_BOOT));
      done.
Qed.
End SelectorFacts.

Section CommandLineArgs.
Import Kf.

(** The argument loop changes the state only when it runs the unit tests,
    and then it answers EXIT_SHELL. *)
Lemma command_line_loop_state n :
  forall args user pos bt st,
    (length args <= n)%nat ->
    bt <> EXIT_SHELL ->
    (command_line_loop user pos args bt st).1 = EXIT_SHELL \/
    ((command_line_loop user pos args bt st).1 <> EXIT_SHELL /\
     (command_line_loop user pos args bt st).2 = st).
Proof.
  induction n as [|n IH]; intros args user pos bt st Hlen Hbt.
  - destruct args; [|simpl in Hlen; lia]. right. by split.
  - destruct args as [|arg rest]; [right; by split|].
    cbn [command_line_loop]. simpl in Hlen.
    destruct (StrCmp arg "-f" =? 0); [apply IH; [lia|done]|].
    destruct (negb user && (StrCmp arg "-U" =? 0)); [by left|].
    destruct (StrCmp arg "-a" =? 0).
    + destruct rest as [|addr rest']; [right; by split|].
      apply IH; [simpl in Hlen; lia|done].
    + destruct (pos =? 0)%nat; [apply IH; [lia|done]|right; by split].
Qed.

Lemma check_command_line_state pf st :
  (check_command_line pf st).1 = NORMAL_BOOT ->
  (check_command_line pf st).2 = st.
Proof.
  unfold check_command_line. destruct (argv pf) as [args|]; [|done].
  intros Hr.
  destruct (command_line_loop_state (length args) args (USER pf) 0
              NORMAL_BOOT st (Nat.le_refl _) ltac:(done)) as [He|[_ Hs]].
  - congruence.
  - exact Hs.
Qed.
End CommandLineArgs.

(** The claim of C5 as stated fails for the one-shot rule.  With
    LoaderEntryOneShot naming DNX, a low battery and a charger plugged in,
    the first rule that produces a result other than NORMAL_BOOT is the
    one-shot rule, with DNX; [choose_boot_target] passes it over and
    returns what the lower-priority battery rule says. *)
Lemma one_shot_dnx_counterexample :
  let pf := Kf.sample_platform_with [] true true true in
  let st := Kf.set_one_shot (Some "dnx"%string) Kf.sample_state in
  (Kf.first_rule_wins (Kf.spec_rules pf) st).1 = DNX /\
  (Kf.choose_boot_target pf st).1.1.1 = CHARGER /\
  (Kf.choose_boot_target Kf.sample_platform st).1.1.1 = NORMAL_BOOT.
Proof. cbv zeta. repeat split; vm_compute; reflexivity. Qed.

(** C5, amended.  [choose_boot_target] runs its checks in the order
    command line, fastboot sentinel, magic key, watchdog, battery
    inserted, BCB, LoaderEntryOneShot, battery level, charger wake, and the
    first check whose result is not NORMAL_BOOT wins, except that a DNX
    result of the LoaderEntryOneShot check is passed over like NORMAL_BOOT.
    When a check wins, the state is the one that check leaves: no later
    check is run.  In particular, when the command line yields NORMAL_BOOT
    and the fastboot sentinel exists, FASTBOOT is returned and the state is
    untouched: no key is read, no BCB or variable is read or written. *)
Theorem boot_target_priority (pf : Kf.platform) (st : Kf.state) :
  ((Kf.choose_boot_target pf st).1.1.1, (Kf.choose_boot_target pf st).2) =
    Kf.first_rule_wins (Kf.code_rules pf) st /\
  (forall pre rule post st1 t st2,
     Kf.code_rules pf = pre ++ rule :: post ->
     Kf.all_pass pre st = Some st1 ->
     rule st1 = (t, st2) ->
     t <> NORMAL_BOOT ->
     (Kf.choose_boot_target pf st).1.1.1 = t /\
     (Kf.choose_boot_target pf st).2 = st2) /\
  ((Kf.check_command_line pf st).1 = NORMAL_BOOT ->
   Kf.file_exists pf Kf.FASTBOOT_SENTINEL = true ->
   Kf.choose_boot_target pf st = ((FASTBOOT, None, true), st)).
Proof.
  split; [apply choose_boot_target_first_rule|]. split.
  - intros pre rule post st1 t st2 Hrules Hpass Hrule Ht.
    pose proof (choose_boot_target_first_rule pf st) as Hchoose.
    rewrite Hrules in Hchoose.
    pose proof (eq_trans Hchoose
                  (first_rule_wins_app pre rule post st st1 t st2
                     Hpass Hrule Ht)) as Heq.
    by injection Heq.
  - intros Hcmd Hfile. pose proof (check_command_line_state pf st Hcmd) as Hst.
    unfold Kf.choose_boot_target, Kf.bind, Kf.ret.
    destruct (Kf.check_command_line pf st) as [r1 st1]. simpl in Hcmd, Hst.
    subst r1 st1. destruct (decide (NORMAL_BOOT <> NORMAL_BOOT)); [done|].
    unfold Kf.check_fastboot_sentinel. rewrite Hfile.
    destruct (decide (FASTBOOT <> NORMAL_BOOT)) as [_|Hn]; [reflexivity|].
    exfalso. apply Hn. discriminate.
Qed.

Lemma boot_target_priority_witness :
  let pf := Kf.sample_platform_with [Kf.FASTBOOT_SENTINEL] true true true in
  let st := Kf.set_bcb (Some (Kf.sample_bcb "bootonce-recovery" "")) []
              Kf.short_press_state in
  (Kf.check_command_line pf st).1 = NORMAL_BOOT /\
  Kf.file_exists pf Kf.FASTBOOT_SENTINEL = true /\
  Kf.choose_boot_target pf st = ((FASTBOOT, None, true), st).
Proof.
  intros pf st. split; [reflexivity|]. split; [reflexivity|].
  destruct (boot_target_priority pf st) as (_ & _ & H).
  apply H; reflexivity.
Defined.

(* ===================================================================== *)
(** * Further properties of the AVB source file                           *)
(* ===================================================================== *)

Section AdapterStatus.
Import Avb.

(** The status of an adapter depends on the slot data alone. *)
Lemma get_avb_result_status sd allow r state :
  (get_avb_result sd allow r state).1 =
  match sd with
  | None => EFI_INVALID_PARAMETER
  | Some d =>
      match loaded_partitions d with
      | [] => EFI_LOAD_ERROR
      | boot :: _ =>
          if (avb_memcmp BOOT_MAGIC (header_magic (data boot))
                BOOT_MAGIC_SIZE =? 0)
          then EFI_SUCCESS else EFI_NOT_FOUND
      end
  end.
Proof.
  unfold get_avb_result, num_loaded_partitions.
  destruct sd as [d|]; [|done].
  destruct (loaded_partitions d) as [|boot rest]; [done|].
  cbn [length Nat.ltb Nat.leb].
  destruct (avb_memcmp _ _ _ =? 0); cbn [negb]; [|done].
  by destruct r, allow; cbn [andb];
    repeat match goal with |- context [if ?b then _ else _] =>
      destruct b end.
Qed.

Lemma get_avb_flow_result_status sd allow f state :
  (get_avb_flow_result sd allow f state).1 =
  match sd with
  | None => EFI_INVALID_PARAMETER
  | Some d =>
      match loaded_partitions d with
      | [] => EFI_LOAD_ERROR
      | boot :: _ =>
          if (avb_memcmp BOOT_MAGIC (header_magic (data boot))
                BOOT_MAGIC_SIZE =? 0)
          then EFI_SUCCESS else EFI_NOT_FOUND
      end
  end.
Proof.
  unfold get_avb_flow_result, num_loaded_partitions.
  destruct sd as [d|]; [|done].
  destruct (loaded_partitions d) as [|boot rest]; [done|].
  cbn [length Nat.ltb Nat.leb].
  destruct (avb_memcmp _ _ _ =? 0); cbn [negb]; [|done].
  by destruct f, allow; cbn [andb];
    repeat match goal with |- context [if ?b then _ else _] =>
      destruct b end.
Qed.

Lemma get_avb_result_error_state sd allow r state :
  EFI_ERROR (get_avb_result sd allow r state).1 = true ->
  (get_avb_result sd allow r state).2 = state.
Proof.
  unfold get_avb_result, num_loaded_partitions.
  destruct sd as [d|]; [|done].
  destruct (length (loaded_partitions d) <? 1)%nat; [done|].
  destruct (negb _); [done|].
  by destruct r, allow; cbn [andb];
    repeat match goal with |- context [if ?b then _ else _] =>
      destruct b end.
Qed.

Lemma get_avb_flow_result_error_state sd allow f state :
  EFI_ERROR (get_avb_flow_result sd allow f state).1 = true ->
  (get_avb_flow_result sd allow f state).2 = state.
Proof.
  unfold get_avb_flow_result, num_loaded_partitions.
  destruct sd as [d|]; [|done].
  destruct (length (loaded_partitions d) <? 1)%nat; [done|].
  destruct (negb _); [done|].
  by destruct f, allow; cbn [andb];
    repeat match goal with |- context [if ?b then _ else _] =>
      destruct b end.
Qed.
End AdapterStatus.

(** X1.  The status [get_avb_result] and [get_avb_flow_result] return is
    decided by the slot data alone, and of the slot data by whether there
    is a loaded partition and how the data of the first one begins:
    EFI_INVALID_PARAMETER without slot data, EFI_LOAD_ERROR without a
    loaded partition, EFI_NOT_FOUND when the data of the first loaded
    partition do not begin with the 8 bytes of the boot magic, EFI_SUCCESS
    otherwise.  The name of that partition, the verifier outcome,
    [allow_verification_error] and the incoming trust state have no part in
    it, and the two adapters agree.  A failed verification is therefore
    reported through the trust state only, with status EFI_SUCCESS.  When
    the status is an error the trust state is left as it was. *)
Theorem adapter_status_ignores_outcome
    (sd : option Avb.AvbSlotVerifyData) (state : Z) (allow : bool)
    (r : Avb.AvbSlotVerifyResult) (f : Avb.AvbABFlowResult) :
  let status :=
    match sd with
    | None => EFI_INVALID_PARAMETER
    | Some d =>
        match Avb.loaded_partitions d with
        | [] => EFI_LOAD_ERROR
        | boot :: _ =>
            if (Avb.avb_memcmp Avb.BOOT_MAGIC (Avb.data boot) 8 =? 0)%Z
            then EFI_SUCCESS else EFI_NOT_FOUND
        end
    end in
  (Avb.get_avb_result sd allow r state).1 = status /\
  (Avb.get_avb_flow_result sd allow f state).1 = status /\
  (EFI_ERROR status = true ->
   (Avb.get_avb_result sd allow r state).2 = state /\
   (Avb.get_avb_flow_result sd allow f state).2 = state).
Proof.
  cbv zeta. split; [|split].
  - apply get_avb_result_status.
  - apply get_avb_flow_result_status.
  - intros Herr. split.
    + apply get_avb_result_error_state. by rewrite get_avb_result_status.
    + apply get_avb_flow_result_error_state.
      by rewrite get_avb_flow_result_status.
Qed.

Lemma adapter_status_ignores_outcome_witness :
  let vendor :=
    {| Avb.ab_suffix := "_a"%string;
       Avb.loaded_partitions :=
         [{| Avb.partition_name := "vendor"%string;
             Avb.data := Avb.android_payload |}];
       Avb.cmdline := None; Avb.rollback_indexes := fun _ => 0%N |} in
  (Avb.get_avb_result (Some vendor) false
     Avb.AVB_SLOT_VERIFY_RESULT_ERROR_VERIFICATION BOOT_STATE_GREEN).1
  = EFI_SUCCESS /\
  (Avb.get_avb_result None true
     Avb.AVB_SLOT_VERIFY_RESULT_OK BOOT_STATE_YELLOW)
  = (EFI_INVALID_PARAMETER, BOOT_STATE_YELLOW).
Proof.
  intros vendor. split.
  - exact (proj1 (adapter_status_ignores_outcome (Some vendor)
                    BOOT_STATE_GREEN false
                    Avb.AVB_SLOT_VERIFY_RESULT_ERROR_VERIFICATION
                    Avb.AVB_AB_FLOW_RESULT_OK)).
  - destruct (adapter_status_ignores_outcome None BOOT_STATE_YELLOW true
                Avb.AVB_SLOT_VERIFY_RESULT_OK Avb.AVB_AB_FLOW_RESULT_OK)
      as (Hstatus & _ & Hstate).
    apply injective_projections; [exact Hstatus|].
    exact (proj1 (Hstate eq_refl)).
Defined.

(** X2.  The outcome mapping is idempotent and has three possible results:
    the state [get_avb_result] or [get_avb_flow_result] leaves is the
    incoming state, ORANGE or RED, and mapping the same outcome under the
    same policy once more does not change it. *)
Theorem adapter_mapping_idempotent
    (sd : option Avb.AvbSlotVerifyData) (allow : bool)
    (r : Avb.AvbSlotVerifyResult) (f : Avb.AvbABFlowResult) (state : Z) :
  let s1 := (Avb.get_avb_result sd allow r state).2 in
  let s2 := (Avb.get_avb_flow_result sd allow f state).2 in
  (s1 = state \/ s1 = BOOT_STATE_ORANGE \/ s1 = BOOT_STATE_RED) /\
  (s2 = state \/ s2 = BOOT_STATE_ORANGE \/ s2 = BOOT_STATE_RED) /\
  (Avb.get_avb_result sd allow r s1).2 = s1 /\
  (Avb.get_avb_flow_result sd allow f s2).2 = s2.
Proof.
  cbv zeta.
  assert (Hr : forall s,
    let s1 := (Avb.get_avb_result sd allow r s).2 in
    (s1 = s \/ s1 = BOOT_STATE_ORANGE \/ s1 = BOOT_STATE_RED) /\
    (Avb.get_avb_result sd allow r s1).2 = s1).
  { intros s. cbv zeta. unfold Avb.get_avb_result.
    destruct sd as [d|]; [|by auto].
    destruct (Avb.num_loaded_partitions d <? 1)%nat; [by auto|].
    destruct (negb _); [by auto|].
    unfold BOOT_STATE_ORANGE, BOOT_STATE_RED.
    destruct r, allow; cbn [andb];
      repeat match goal with
             | |- context [(?a <? ?b)] => destruct (Z.ltb_spec a b)
             | |- context [(?a <=? ?b)] => destruct (Z.leb_spec a b)
             end; cbn [fst snd];
      repeat match goal with
             | |- context [(?a <? ?b)] => destruct (Z.ltb_spec a b)
             | |- context [(?a <=? ?b)] => destruct (Z.leb_spec a b)
             end; cbn [fst snd] in *; (split; [auto|]); first [done | lia]. }
  assert (Hf : forall s,
    let s2 := (Avb.get_avb_flow_result sd allow f s).2 in
    (s2 = s \/ s2 = BOOT_STATE_ORANGE \/ s2 = BOOT_STATE_RED) /\
    (Avb.get_avb_flow_result sd allow f s2).2 = s2).
  { intros s. cbv zeta. unfold Avb.get_avb_flow_result.
    destruct sd as [d|]; [|by auto].
    destruct (Avb.num_loaded_partitions d <? 1)%nat; [by auto|].
    destruct (negb _); [by auto|].
    unfold BOOT_STATE_ORANGE, BOOT_STATE_RED.
    destruct f, allow; cbn [andb];
      repeat match goal with
             | |- context [(?a <? ?b)] => destruct (Z.ltb_spec a b)
             | |- context [(?a <=? ?b)] => destruct (Z.leb_spec a b)
             end; cbn [fst snd];
      repeat match goal with
             | |- context [(?a <? ?b)] => destruct (Z.ltb_spec a b)
             | |- context [(?a <=? ?b)] => destruct (Z.leb_spec a b)
             end; cbn [fst snd] in *; (split; [auto|]); first [done | lia]. }
  destruct (Hr state) as [H1 H2]. destruct (Hf state) as [H3 H4]. done.
Qed.

Section LoaderShape.
Import Avb.

Lemma adapter_table_green ok allow state :
  adapter_table ok allow state = BOOT_STATE_GREEN ->
  ok = true /\ state = BOOT_STATE_GREEN.
Proof.
  unfold adapter_table, BOOT_STATE_GREEN, BOOT_STATE_ORANGE, BOOT_STATE_RED.
  destruct ok, allow; cbn [andb];
    repeat match goal with
           | |- context [(?a <? ?b)] => destruct (Z.ltb_spec a b)
           | |- context [(?a <=? ?b)] => destruct (Z.leb_spec a b)
           end; intros Hg; first [done | lia].
Qed.

(** What a loader returns, in terms of what the adapter answered. *)
Lemma load_avb_cases env label state sd0 :
  let res := android_image_load_partition_avb env label state sd0 in
  (avb_init_ok env = false /\ res = load_fail EFI_OUT_OF_RESOURCES sd0) \/
  (avb_init_ok env = true /\
   exists r sd' ret state',
     avb_slot_verify env label (caller_suffix env)
       (caller_flags (caller_allows_error state)) = (r, sd') /\
     get_avb_result sd' (caller_allows_error state) r state = (ret, state') /\
     ((EFI_ERROR ret = true /\ res = load_fail ret sd') \/
      (ret = EFI_SUCCESS /\
       exists sd boot rest,
         sd' = Some sd /\ loaded_partitions sd = boot :: rest /\
         magic_ok (data boot) /\
         res = {| load_ret := EFI_SUCCESS; bootimage_p := Some (data boot);
                  boot_state_out := state'; slot_data_out := Some sd;
                  active_cached := None |}))).
Proof.
  cbv zeta. destruct (avb_init_ok env) eqn:Hinit.
  - right. split; [done|]. rewrite load_avb_unfold by done. cbv zeta.
    destruct (avb_slot_verify env label _ _) as [r sd'] eqn:Hv.
    destruct (get_avb_result sd' _ r state) as [ret state'] eqn:Hres.
    exists r, sd', ret, state'. split; [done|]. split; [done|].
    destruct (EFI_ERROR ret) eqn:Herr; [by left|]. right.
    destruct (get_avb_result_success _ _ _ _ _ _ Hres Herr)
      as (sd & boot & rest & -> & Hparts & Hmagic).
    assert (ret = EFI_SUCCESS) as -> by (by destruct ret).
    split; [done|]. exists sd, boot, rest. repeat split; try done.
    unfold boot_partition_data. by rewrite Hparts.
  - left. split; [done|]. unfold android_image_load_partition_avb.
    by rewrite Hinit.
Qed.

Lemma load_avb_ab_cases env label state sd0 :
  USE_SLOT env = true ->
  let res := android_image_load_partition_avb_ab env label state sd0 in
  exists f sd' ret state',
    avb_ab_flow env label (caller_flags (caller_allows_error state))
      = (f, sd') /\
    get_avb_flow_result sd' (caller_allows_error state) f state
      = (ret, state') /\
    ((EFI_ERROR ret = true /\ res = load_fail ret sd') \/
     (ret = EFI_SUCCESS /\
      exists sd boot rest,
        sd' = Some sd /\ loaded_partitions sd = boot :: rest /\
        magic_ok (data boot) /\
        res = {| load_ret := EFI_SUCCESS; bootimage_p := Some (data boot);
                 boot_state_out := state'; slot_data_out := Some sd;
                 active_cached := Some (ab_suffix sd) |})).
Proof.
  intros Hslot. cbv zeta. rewrite load_avb_ab_unfold by done. cbv zeta.
  destruct (avb_ab_flow env label _) as [f sd'] eqn:Hv.
  destruct (get_avb_flow_result sd' _ f state) as [ret state'] eqn:Hres.
  exists f, sd', ret, state'. split; [done|]. split; [done|].
  destruct (EFI_ERROR ret) eqn:Herr; [by left|]. right.
  destruct (get_avb_flow_result_success _ _ _ _ _ _ Hres Herr)
    as (sd & boot & rest & -> & Hparts & Hmagic).
  assert (ret = EFI_SUCCESS) as -> by (by destruct ret).
  split; [done|]. exists sd, boot, rest. repeat split; try done.
  unfold boot_partition_data. by rewrite Hparts.
Qed.
End LoaderShape.

(** X3.  [android_image_load_partition_avb] leaves the trust state GREEN
    only when the state came in GREEN, [avb_init] succeeded,
    [avb_slot_verify], called without the allow-verification-error flag,
    answered OK, and the first partition it loaded starts with the boot
    magic; that partition is then the image handed out.
    [android_image_load_partition_avb_ab] built with USE_SLOT never calls
    [avb_init]: it leaves GREEN only when the state came in GREEN,
    [avb_ab_flow], called without the flag, answered OK, and the first
    partition it loaded starts with the boot magic, which is then the
    image handed out.  Built without USE_SLOT it is
    [android_image_load_partition_avb]. *)
Theorem loader_green_only_if_verified
    (env : Avb.avb_env) (label : string) (state : Z)
    (sd0 : option Avb.AvbSlotVerifyData) :
  (Avb.boot_state_out
     (Avb.android_image_load_partition_avb env label state sd0)
   = BOOT_STATE_GREEN ->
   state = BOOT_STATE_GREEN /\ Avb.avb_init_ok env = true /\
   exists sd boot rest,
     Avb.avb_slot_verify env label (Avb.caller_suffix env)
       Avb.AVB_SLOT_VERIFY_FLAGS_NONE
       = (Avb.AVB_SLOT_VERIFY_RESULT_OK, Some sd) /\
     Avb.loaded_partitions sd = boot :: rest /\
     Avb.magic_ok (Avb.data boot) /\
     Avb.bootimage_p
       (Avb.android_image_load_partition_avb env label state sd0)
     = Some (Avb.data boot)) /\
  (Avb.USE_SLOT env = true ->
   Avb.boot_state_out
     (Avb.android_image_load_partition_avb_ab env label state sd0)
   = BOOT_STATE_GREEN ->
   state = BOOT_STATE_GREEN /\
   exists sd boot rest,
     Avb.avb_ab_flow env label Avb.AVB_SLOT_VERIFY_FLAGS_NONE
       = (Avb.AVB_AB_FLOW_RESULT_OK, Some sd) /\
     Avb.loaded_partitions sd = boot :: rest /\
     Avb.magic_ok (Avb.data boot) /\
     Avb.bootimage_p
       (Avb.android_image_load_partition_avb_ab env label state sd0)
     = Some (Avb.data boot)) /\
  (Avb.USE_SLOT env = false ->
   Avb.android_image_load_partition_avb_ab env label state sd0
   = Avb.android_image_load_partition_avb env label state sd0).
Proof.
  split; [|split]; cycle 2.
  { intros Hslot. unfold Avb.android_image_load_partition_avb_ab.
    by rewrite Hslot. }
  - intros Hgreen.
    destruct (load_avb_cases env label state sd0)
      as [[_ Hres]|(Hinit & r & sd' & ret & state' & Hv & Hadapt & Hcase)].
    { rewrite Hres in Hgreen. discriminate Hgreen. }
    destruct Hcase as [[_ Hres]|(-> & sd & boot & rest & -> & Hparts & Hmagic & Hres)].
    { rewrite Hres in Hgreen. discriminate Hgreen. }
    rewrite Hres in Hgreen |- *. cbn [Avb.boot_state_out Avb.bootimage_p] in *.
    subst state'.
    rewrite (get_avb_result_accepted sd boot rest) in Hadapt by done.
    injection Hadapt as Hadapt.
    apply adapter_table_green in Hadapt as [Hok ->].
    destruct r; try discriminate Hok.
    split; [done|]. split; [done|]. exists sd, boot, rest. by repeat split.
  - intros Hslot Hgreen.
    destruct (load_avb_ab_cases env label state sd0 Hslot)
      as (f & sd' & ret & state' & Hv & Hadapt & Hcase).
    destruct Hcase as [[_ Hres]|(-> & sd & boot & rest & -> & Hparts & Hmagic & Hres)].
    { rewrite Hres in Hgreen. discriminate Hgreen. }
    rewrite Hres in Hgreen |- *. cbn [Avb.boot_state_out Avb.bootimage_p] in *.
    subst state'.
    rewrite (get_avb_flow_result_accepted sd boot rest) in Hadapt by done.
    injection Hadapt as Hadapt.
    apply adapter_table_green in Hadapt as [Hok ->].
    destruct f; try discriminate Hok.
    split; [done|]. exists sd, boot, rest. by repeat split.
Qed.

Lemma loader_green_only_if_verified_witness :
  let env := Avb.sample_env Avb.AVB_SLOT_VERIFY_RESULT_OK
               Avb.AVB_AB_FLOW_RESULT_OK Avb.android_payload in
  Avb.boot_state_out
    (Avb.android_image_load_partition_avb env "boot" BOOT_STATE_GREEN None)
  = BOOT_STATE_GREEN /\
  Avb.bootimage_p
    (Avb.android_image_load_partition_avb env "boot" BOOT_STATE_GREEN None)
  = Some Avb.android_payload.
Proof.
  intros env. split; [reflexivity|].
  destruct (proj1 (loader_green_only_if_verified env "boot" BOOT_STATE_GREEN
                     None) eq_refl)
    as (_ & _ & sd & boot & rest & Hv & Hparts & _ & Himg).
  rewrite Himg. injection Hv as <-. by injection Hparts as <- _.
Defined.

(** X4.  A loader hands out an image exactly when it returns
    [EFI_SUCCESS].  On any error [*bootimage_p] is [NULL], the trust state
    is RED and no slot suffix is cached.  On success the image is the data
    of the first loaded partition of the slot data it leaves behind, and
    the A/B loader built with USE_SLOT has cached that slot data's suffix
    as the active slot.  [*slot_data] is not cleared on an error: on error
    as on success it holds what the verifier left there, [avb_ab_flow] for
    the A/B loader built with USE_SLOT and [avb_slot_verify] otherwise, and
    what the caller passed in when [avb_init] failed. *)
Theorem loader_result_shape
    (env : Avb.avb_env) (label : string) (state : Z)
    (sd0 : option Avb.AvbSlotVerifyData) (use_ab : bool) :
  let res :=
    if use_ab
    then Avb.android_image_load_partition_avb_ab env label state sd0
    else Avb.android_image_load_partition_avb env label state sd0 in
  (Avb.load_ret res = EFI_SUCCESS <-> is_Some (Avb.bootimage_p res)) /\
  (Avb.load_ret res <> EFI_SUCCESS ->
   Avb.bootimage_p res = None /\ Avb.boot_state_out res = BOOT_STATE_RED /\
   Avb.active_cached res = None) /\
  (Avb.load_ret res = EFI_SUCCESS ->
   Avb.bootimage_p res = Avb.boot_partition_data (Avb.slot_data_out res) /\
   Avb.active_cached res =
     if use_ab && Avb.USE_SLOT env
     then Avb.ab_suffix <$> Avb.slot_data_out res else None) /\
  Avb.slot_data_out res =
    (let flags := Avb.caller_flags (Avb.caller_allows_error state) in
     if use_ab && Avb.USE_SLOT env then (Avb.avb_ab_flow env label flags).2
     else if Avb.avb_init_ok env
     then (Avb.avb_slot_verify env label (Avb.caller_suffix env) flags).2
     else sd0).
Proof.
  cbv zeta.
  assert (Hplain :
    let res := Avb.android_image_load_partition_avb env label state sd0 in
    (Avb.load_ret res = EFI_SUCCESS <-> is_Some (Avb.bootimage_p res)) /\
    (Avb.load_ret res <> EFI_SUCCESS ->
     Avb.bootimage_p res = None /\ Avb.boot_state_out res = BOOT_STATE_RED /\
     Avb.active_cached res = None) /\
    (Avb.load_ret res = EFI_SUCCESS ->
     Avb.bootimage_p res = Avb.boot_partition_data (Avb.slot_data_out res) /\
     Avb.active_cached res = None) /\
    Avb.slot_data_out res =
      if Avb.avb_init_ok env
      then (Avb.avb_slot_verify env label (Avb.caller_suffix env)
              (Avb.caller_flags (Avb.caller_allows_error state))).2
      else sd0).
  { cbv zeta.
    destruct (load_avb_cases env label state sd0)
      as [[Hinit ->]|(Hinit & r & sd' & ret & state' & Hv & _ &
                  [[Herr ->]|(-> & sd & boot & rest & -> & Hparts & _ & ->)])];
      rewrite Hinit, ?Hv;
      cbn [Avb.load_fail Avb.load_ret Avb.bootimage_p Avb.boot_state_out
           Avb.active_cached Avb.slot_data_out Avb.boot_partition_data snd].
    - split; [split; [done|by intros [? ?]]|]. by split.
    - split; [split; [by intros ->|by intros [? ?]]|]. split; [done|].
      split; [by intros ->|done].
    - rewrite Hparts. split; [by split|]. by split. }
  destruct use_ab; [|destruct Hplain as (H1 & H2 & H3 & H4); cbn [andb]; done].
  destruct (Avb.USE_SLOT env) eqn:Hslot; cbn [andb].
  - destruct (load_avb_ab_cases env label state sd0 Hslot)
      as (f & sd' & ret & state' & Hv & _ &
          [[Herr ->]|(-> & sd & boot & rest & -> & Hparts & _ & ->)]);
      rewrite Hv;
      cbn [Avb.load_fail Avb.load_ret Avb.bootimage_p Avb.boot_state_out
           Avb.active_cached Avb.slot_data_out Avb.boot_partition_data snd].
    + split; [split; [by intros ->|by intros [? ?]]|]. split; [done|].
      split; [by intros ->|done].
    + rewrite Hparts. split; [by split|]. by split.
  - unfold Avb.android_image_load_partition_avb_ab. rewrite Hslot.
    cbn [negb]. exact Hplain.
Qed.

Lemma loader_result_shape_witness :
  let env := Avb.sample_env Avb.AVB_SLOT_VERIFY_RESULT_ERROR_VERIFICATION
               Avb.AVB_AB_FLOW_RESULT_OK Avb.android_payload in
  let res := Avb.android_image_load_partition_avb_ab env "boot"
               BOOT_STATE_ORANGE None in
  Avb.load_ret res = EFI_SUCCESS /\
  Avb.active_cached res = Avb.ab_suffix <$> Avb.slot_data_out res.
Proof.
  intros env res. split; [reflexivity|].
  destruct (loader_result_shape env "boot" BOOT_STATE_ORANGE None true)
    as (_ & _ & Hok & _).
  exact (proj2 (Hok eq_refl)).
Defined.

Section RollbackOrder.
Import Avb.
Context {D : Type} (ops : AvbOps D) (slot_data : AvbSlotVerifyData).

Lemma io_ordered_weaken lo lo' l :
  (lo' <= lo)%nat -> io_ordered lo l -> io_ordered lo' l.
Proof.
  intros Hle Hord. destruct Hord; constructor; try done; lia.
Qed.

Lemma io_ordered_bound lo l :
  io_ordered lo l -> Forall (fun e => (lo <= event_loc e)%nat) l.
Proof.
  induction 1 as [lo|lo n r rest Hn _ IH|lo n x r rest Hn _ IH].
  - constructor.
  - constructor; [done|]. eapply Forall_impl; [exact IH|].
    simpl. intros e He. lia.
  - constructor; [done|]. constructor; [done|].
    eapply Forall_impl; [exact IH|]. simpl. intros e He. lia.
Qed.

Lemma io_ordered_sorted lo l :
  io_ordered lo l -> StronglySorted le (map event_loc l).
Proof.
  induction 1 as [lo|lo n r rest Hn Hrest IH|lo n x r rest Hn Hrest IH];
    simpl.
  - constructor.
  - constructor; [done|]. apply Forall_map.
    eapply Forall_impl; [exact (io_ordered_bound _ _ Hrest)|].
    simpl. intros e He. lia.
  - assert (Hall : Forall (le n) (map event_loc rest)).
    { apply Forall_map.
      eapply Forall_impl; [exact (io_ordered_bound _ _ Hrest)|].
      simpl. intros e He. lia. }
    constructor; [constructor; done|]. constructor; [lia|done].
Qed.

Lemma io_ordered_length lo hi l :
  io_ordered lo l -> Forall (fun e => (event_loc e < hi)%nat) l ->
  (length l <= 2 * (hi - lo))%nat.
Proof.
  induction 1 as [lo|lo n r rest Hn Hrest IH|lo n x r rest Hn Hrest IH];
    intros Hhi; simpl.
  - lia.
  - apply Forall_cons in Hhi as [Hh Hhi]. simpl in Hh.
    specialize (IH Hhi). lia.
  - apply Forall_cons in Hhi as [Hh Hhi]. apply Forall_cons in Hhi as [_ Hhi].
    simpl in Hh. specialize (IH Hhi). lia.
Qed.

(** The loop issues its I/O in that shape, whatever the callbacks do. *)
Lemma update_loop_ordered todo :
  forall n dev log r dev' log',
    update_loop (log_io ops) slot_data n todo (dev, log) = (r, (dev', log')) ->
    exists new, log' = log ++ new /\ io_ordered n new /\
                Forall (fun e => (event_loc e < n + todo)%nat) new.
Proof.
  induction todo as [|todo IH]; intros n dev log r dev' log' Hrun;
    simpl in Hrun.
  - injection Hrun as <- <- <-. exists []. rewrite app_nil_r.
    repeat split; constructor.
  - destruct (0 <? rollback_indexes slot_data n)%N.
    + destruct (read_rollback_index ops n dev) as [[io v] dev1].
      destruct (io_ok io) eqn:Hio; simpl in Hrun.
      * apply io_ok_true in Hio. subst io.
        destruct (v <? rollback_indexes slot_data n)%N.
        -- destruct (write_rollback_index ops n _ dev1) as [io' dev2].
           destruct (io_ok io') eqn:Hio'; simpl in Hrun.
           ++ destruct (IH _ _ _ _ _ _ Hrun) as (new & -> & Hord & Hhi).
              eexists (_ :: _ :: new). rewrite <- !app_assoc.
              split; [reflexivity|]. split.
              ** by apply io_ordered_read_write.
              ** constructor; [simpl; lia|]. constructor; [simpl; lia|].
                 eapply Forall_impl; [exact Hhi|]. simpl. intros e He. lia.
           ++ injection Hrun as <- <- <-. eexists [_; _].
              rewrite <- app_assoc. split; [reflexivity|]. split.
              ** apply io_ordered_read_write; [done|constructor].
              ** repeat constructor; simpl; lia.
        -- destruct (IH _ _ _ _ _ _ Hrun) as (new & -> & Hord & Hhi).
           eexists (_ :: new). rewrite <- app_assoc.
           split; [reflexivity|]. split.
           ++ by apply io_ordered_read.
           ++ constructor; [simpl; lia|].
              eapply Forall_impl; [exact Hhi|]. simpl. intros e He. lia.
      * injection Hrun as <- <- <-. eexists [_]. split; [reflexivity|].
        split.
        -- apply io_ordered_read; [done|constructor].
        -- repeat constructor; simpl; lia.
    + destruct (IH _ _ _ _ _ _ Hrun) as (new & -> & Hord & Hhi).
      exists new. split; [done|]. split.
      * eapply io_ordered_weaken; [|exact Hord]. lia.
      * eapply Forall_impl; [exact Hhi|]. simpl. intros e He. lia.
Qed.
End RollbackOrder.

(** X5.  Whatever the storage callbacks do, the update issues its I/O in
    ascending location order: at each location at most one read, followed
    at once by at most one write when that read succeeded, never a write
    without the read before it; so at most two operations per location. *)
Theorem rollback_io_ascending
    {D : Type} (ops : Avb.AvbOps D) (slot_data : Avb.AvbSlotVerifyData)
    (max_locations : nat) (dev : D) :
  let log := (Avb.avb_update_stored_rollback_indexes_for_slot
                (Avb.log_io ops) slot_data max_locations (dev, [])).2.2 in
  Avb.io_ordered 0 log /\
  StronglySorted le (map Avb.event_loc log) /\
  Forall (fun e => (Avb.event_loc e < max_locations)%nat) log /\
  (length log <= 2 * max_locations)%nat.
Proof.
  cbv zeta. unfold Avb.avb_update_stored_rollback_indexes_for_slot.
  destruct (Avb.update_loop (Avb.log_io ops) slot_data 0 max_locations
              (dev, [])) as [r [dev' log]] eqn:Hrun.
  destruct (update_loop_ordered ops slot_data _ _ _ _ _ _ _ Hrun)
    as (new & Hlog & Hord & Hhi).
  simpl in Hlog. subst new. cbn [snd].
  split; [done|]. split; [by eapply io_ordered_sorted|]. split; [done|].
  pose proof (io_ordered_length 0 max_locations log Hord Hhi). lia.
Qed.

(** X6.  The update is idempotent.  Over storage that honours the
    contract, once an update has returned [true], running it again on the
    device it left issues no write and leaves every stored index as it
    is. *)
Theorem rollback_update_idempotent
    {D : Type} (ops : Avb.AvbOps D) (stored : D -> nat -> N)
    (Hops : Avb.AvbOpsSpec ops stored)
    (slot_data : Avb.AvbSlotVerifyData) (max_locations : nat)
    (dev dev1 : D) (r2 : bool) (dev2 : D) (log2 : list Avb.io_event) :
  Avb.avb_update_stored_rollback_indexes_for_slot
    ops slot_data max_locations dev = (true, dev1) ->
  Avb.avb_update_stored_rollback_indexes_for_slot
    (Avb.log_io ops) slot_data max_locations (dev1, []) = (r2, (dev2, log2)) ->
  Forall (fun e => Avb.is_write e = false) log2 /\
  (forall n, stored dev2 n = stored dev1 n).
Proof.
  unfold Avb.avb_update_stored_rollback_indexes_for_slot. intros Hrun1 Hrun2.
  destruct (update_loop_stored ops stored Hops slot_data _ _ _ _ _ Hrun1)
    as (_ & Hmax & _). specialize (Hmax eq_refl).
  destruct (update_loop_log ops stored Hops slot_data _ _ _ _ _ _ _ Hrun2)
    as (Hplain & new & Hlog & Hall & _).
  simpl in Hlog. subst new.
  assert (Hfix : forall m, (m < max_locations)%nat ->
            N.max (stored dev1 m) (Avb.rollback_indexes slot_data m)
            = stored dev1 m).
  { intros m Hm. rewrite (Hmax m) by lia. lia. }
  split.
  - eapply Forall_impl; [exact Hall|]. intros [n r|n x r]; [done|].
    simpl. intros (Hn & -> & _ & Hlt).
    specialize (Hfix n ltac:(lia)). lia.
  - destruct (update_loop_stored ops stored Hops slot_data _ _ _ _ _ Hplain)
      as (Hout & Hok & Hko).
    intros n. destruct r2.
    + destruct (decide (n < max_locations)%nat) as [Hn|Hn].
      * rewrite (Hok eq_refl n) by lia. by apply Hfix.
      * apply Hout. lia.
    + destruct (Hko eq_refl) as (k & Hk & Hbefore & Hafter).
      destruct (decide (n < k)%nat) as [Hn|Hn].
      * rewrite Hbefore by lia. apply Hfix. lia.
      * apply Hafter. lia.
Qed.

Lemma rollback_update_idempotent_witness :
  exists dev1 r2 dev2 log2,
    Avb.avb_update_stored_rollback_indexes_for_slot
      Avb.nv_ops (Avb.slot_asserting Avb.advancing_indexes) 2
      (Avb.sample_device []) = (true, dev1) /\
    Avb.avb_update_stored_rollback_indexes_for_slot
      (Avb.log_io Avb.nv_ops) (Avb.slot_asserting Avb.advancing_indexes) 2
      (dev1, []) = (r2, (dev2, log2)) /\
    Forall (fun e => Avb.is_write e = false) log2 /\
    (forall n, Avb.nv_stored dev2 n = Avb.nv_stored dev1 n).
Proof.
  eexists _, _, _, _. split; [vm_compute; reflexivity|].
  split; [vm_compute; reflexivity|].
  eapply (rollback_update_idempotent Avb.nv_ops Avb.nv_stored nv_ops_spec
            (Avb.slot_asserting Avb.advancing_indexes) 2
            (Avb.sample_device [])); vm_compute; reflexivity.
Defined.

Section CommandLineSuffix.
Import Avb.
Local Open Scope string_scope.

Lemma append_assoc_str a b c : (a +:+ b) +:+ c = a +:+ (b +:+ c).
Proof.
  induction a as [|x a IH]; [by rewrite !append_nil_l|].
  by rewrite !append_cons, IH.
Qed.

(** A line that ends with [line] still does after a fragment has been
    prepended, or after the attempt to prepend one has failed. *)
Lemma prepend_keeps_line pcl line cur f :
  prepend_contract pcl ->
  (exists pre, cur = Some (pre +:+ line)) ->
  exists pre, (pcl cur f).2 = Some (pre +:+ line).
Proof.
  intros Hc [pre ->]. destruct (EFI_ERROR (pcl (Some (pre +:+ line)) f).1) eqn:E.
  - rewrite (prepend_failed pcl Hc _ _ E). by exists pre.
  - rewrite (prepend_done pcl Hc _ _ E). cbn [prepend_command_line snd].
    exists (f +:+ " " +:+ pre). by rewrite !append_assoc_str.
Qed.

Lemma rootfs_keeps_line pcl env line cur target :
  prepend_contract pcl ->
  (exists pre, cur = Some (pre +:+ line)) ->
  exists pre,
    (avb_prepend_command_line_rootfs pcl env cur target).2
    = Some (pre +:+ line).
Proof.
  intros Hc Hcur. unfold avb_prepend_command_line_rootfs.
  destruct (decide (target = RECOVERY \/ target = MEMORY)); [done|].
  destruct (use_slot env); [|done].
  destruct (prepend_keeps_line pcl line cur AVB_ROOTFS_PREFIX Hc Hcur)
    as [pre Hpre].
  exists pre. by destruct (pcl cur AVB_ROOTFS_PREFIX).
Qed.
End CommandLineSuffix.

(** X7.  [prepend_slot_command_line] over a [prepend_command_line] that
    may fail, and then leaves the line as it was.  The function only ever
    puts text in front: the line it leaves ends with the line it was
    given, on success and on error.  Without slots in use it leaves the
    line as it is and returns EFI_SUCCESS.  When it returns an error,
    slots are in use and the status is that of the failed prepend of the
    slot-suffix fragment, of the failed lookup of the system partition
    UUID, or of the failed prepend of the root fragment.  A failed prepend
    of "skip_initramfs ..." is not reported: with no active slot and no
    verified command line the function returns EFI_SUCCESS whatever
    [prepend_command_line] answers. *)
Theorem slot_command_line_keeps_line
    (pcl : Avb.prepend_fn) (env : Avb.avb_env) (line : string)
    (target : boot_target) (vb : option Avb.AvbSlotVerifyData) :
  Avb.prepend_contract pcl ->
  let res := Avb.prepend_slot_command_line pcl env (Some line) target vb in
  (exists pre, res.2 = Some (pre +:+ line)) /\
  (Avb.use_slot env = false -> res = (EFI_SUCCESS, Some line)) /\
  (EFI_ERROR res.1 = true ->
   Avb.use_slot env = true /\
   ((exists suffix cur,
       Avb.slot_get_active env = Some suffix /\
       res.1 = (pcl cur (Avb.slot_suffix_fragment suffix)).1) \/
    res.1 = (Avb.gpt_get_partition_uuid env (Avb.slot_label env "system")).1 \/
    (exists uuid cur, res.1 = (pcl cur (Avb.root_fragment uuid)).1))) /\
  (Avb.slot_get_active env = None -> vb ≫= Avb.cmdline = None ->
   res.1 = EFI_SUCCESS).
Proof.
  intros Hc. cbv zeta. unfold Avb.prepend_slot_command_line.
  destruct (rootfs_keeps_line pcl env line (Some line) target Hc
              ltac:(by exists ""%string)) as [pre0 Hpre0].
  assert (Hnoslot : Avb.use_slot env = false ->
            Avb.avb_prepend_command_line_rootfs pcl env (Some line) target
            = (EFI_SUCCESS, Some line)).
  { intros Hs. unfold Avb.avb_prepend_command_line_rootfs. rewrite Hs.
    by destruct (decide (target = RECOVERY \/ target = MEMORY)). }
  destruct (Avb.avb_prepend_command_line_rootfs pcl env (Some line) target)
    as [ret0 line0] eqn:Hrootfs.
  cbn [snd] in Hpre0. subst line0.
  destruct (Avb.use_slot env) eqn:Hslot.
  2:{ specialize (Hnoslot eq_refl). injection Hnoslot as -> Hl.
      split; [by exists pre0|]. split; [by rewrite Hl|]. by split. }
  set (cur0 := Some (pre0 +:+ line)).
  assert (Hstep2 : exists ret1 pre1,
    (match Avb.slot_get_active env with
     | Some suffix => pcl cur0 ("androidboot.slot_suffix=" +:+ suffix)%string
     | None => (EFI_SUCCESS, cur0)
     end) = (ret1, Some (pre1 +:+ line)) /\
    (EFI_ERROR ret1 = true ->
     exists suffix cur,
       Avb.slot_get_active env = Some suffix /\
       ret1 = (pcl cur (Avb.slot_suffix_fragment suffix)).1) /\
    (Avb.slot_get_active env = None -> ret1 = EFI_SUCCESS)).
  { destruct (Avb.slot_get_active env) as [suffix|].
    - destruct (prepend_keeps_line pcl line cur0
                  ("androidboot.slot_suffix=" +:+ suffix)%string Hc
                  ltac:(by exists pre0)) as [pre1 Hpre1].
      destruct (pcl cur0 ("androidboot.slot_suffix=" +:+ suffix)%string)
        as [ret1 line1] eqn:Hcall.
      cbn [snd] in Hpre1. subst line1. exists ret1, pre1.
      split; [done|]. split; [|done]. intros _. exists suffix, cur0.
      split; [done|]. unfold Avb.slot_suffix_fragment. by rewrite Hcall.
    - exists EFI_SUCCESS, pre0. by repeat split. }
  destruct Hstep2 as (ret1 & pre1 & -> & Hfail1 & Hnone1).
  destruct (EFI_ERROR ret1) eqn:Herr1.
  { cbn [fst snd]. split; [by exists pre1|]. split; [done|].
    split; [intros _; split; [done|]; left; by apply Hfail1|].
    intros Hnone _. by apply Hnone1. }
  assert (ret1 = EFI_SUCCESS) as -> by (by destruct ret1).
  destruct (vb ≫= Avb.cmdline) as [verified|] eqn:Hcmd.
  2:{ cbn [fst snd]. split; [by exists pre1|]. split; [done|]. by split. }
  destruct (Avb.avb_strstr verified "root=") as [pos|] eqn:Hfind.
  { cbn [fst snd]. split; [by exists pre1|]. split; [done|]. by split. }
  destruct (Avb.gpt_get_partition_uuid env _) as [ret uuid] eqn:Huuid.
  destruct (EFI_ERROR ret) eqn:Herr.
  - cbn [fst snd]. split; [by exists pre1|]. split; [done|].
    split; [|done]. intros _. split; [done|]. right. by left.
  - destruct (prepend_keeps_line pcl line (Some (pre1 +:+ line))
                (Avb.DISABLE_AVB_ROOTFS_PREFIX +:+ "PARTUUID=" +:+ uuid)%string
                Hc ltac:(by exists pre1)) as [pre2 Hpre2].
    split; [by exists pre2|]. split; [done|]. split; [|done].
    intros _. split; [done|]. right. right.
    by exists uuid, (Some (pre1 +:+ line)).
Qed.

Lemma slot_command_line_keeps_line_witness :
  let env :=
    {| Avb.avb_init_ok := true; Avb.USE_SLOT := true; Avb.use_slot := true;
       Avb.slot_get_active := None;
       Avb.avb_slot_verify :=
         fun _ _ _ => (Avb.AVB_SLOT_VERIFY_RESULT_OK, None);
       Avb.avb_ab_flow := fun _ _ => (Avb.AVB_AB_FLOW_RESULT_OK, None);
       Avb.slot_label := fun l => l;
       Avb.gpt_get_partition_uuid := fun _ => (EFI_NOT_FOUND, ""%string) |} in
  let res := Avb.prepend_slot_command_line Avb.prepend_out_of_resources env
               (Some "console=ttyS0"%string) NORMAL_BOOT None in
  (Avb.avb_prepend_command_line_rootfs Avb.prepend_out_of_resources env
     (Some "console=ttyS0"%string) NORMAL_BOOT).1 = EFI_OUT_OF_RESOURCES /\
  res.1 = EFI_SUCCESS /\
  exists pre, res.2 = Some (pre +:+ "console=ttyS0")%string.
Proof.
  intros env res. split; [reflexivity|].
  destruct (slot_command_line_keeps_line Avb.prepend_out_of_resources env
              "console=ttyS0" NORMAL_BOOT None
              prepend_out_of_resources_contract)
    as (Hkeep & _ & _ & Hok).
  split; [exact (Hok eq_refl eq_refl)|exact Hkeep].
Defined.

(* ===================================================================== *)
(** * Further properties of the boot-target selector                      *)
(* ===================================================================== *)

Section MagicKeyMore.
Import Kf.

Lemma state_eta st :
  set_stalled (stalled_us st) (set_keys (key_queue st) st) = st.
Proof. by destruct st. Qed.

Lemma set_stalled_keys u1 u2 q1 q2 st :
  u1 = u2 -> q1 = q2 ->
  set_stalled u1 (set_keys q1 st) = set_stalled u2 (set_keys q2 st).
Proof. by intros -> ->. Qed.

Lemma poll_key_empty remaining st :
  key_queue st = [] ->
  poll_key remaining st =
  match remaining with
  | O => ((EFI_NOT_READY, {| ScanCode := 0; UnicodeChar := 0 |}), st)
  | S remaining' =>
      poll_key remaining'
        (set_stalled (stalled_us st + DETECT_KEY_STALL_TIME_MS * 1000)%N st)
  end.
Proof.
  intros Hq. destruct remaining; cbn [poll_key]; unfold bind at 1;
    unfold ReadKeyStroke, bind, get, ret; rewrite Hq; cbn [fst];
    destruct (decide (EFI_NOT_READY = EFI_SUCCESS)); done.
Qed.

(** The polling loop changes the key queue and the stall time only: it
    stalls at most [remaining] times, one millisecond each, and takes at
    most one more key stroke than it stalls. *)
Lemma poll_key_frame remaining :
  forall st,
    exists reads stalls : nat,
      (stalls <= remaining)%nat /\ (reads <= stalls + 1)%nat /\
      (poll_key remaining st).2 =
      set_stalled (stalled_us st + 1000 * N.of_nat stalls)%N
        (set_keys (drop reads (key_queue st)) st).
Proof.
  induction remaining as [|remaining IH]; intros st.
  - destruct (key_queue st) as [|r rest] eqn:Hq.
    + exists 0%nat, 0%nat. split; [lia|]. split; [lia|].
      rewrite (poll_key_empty _ _ Hq). cbn [snd drop].
      rewrite N.add_0_r. symmetry. rewrite <- Hq. apply state_eta.
    + exists 1%nat, 0%nat. split; [lia|]. split; [lia|].
      rewrite (poll_key_unfold _ _ _ _ Hq).
      assert (Hres : forall x : (EFI_STATUS * EFI_INPUT_KEY) * state,
                x = (r, set_keys rest st) ->
                x.2 = set_stalled (stalled_us st + 1000 * N.of_nat 0)%N
                        (set_keys (drop 1 (r :: rest)) st)).
      { intros x ->. cbn [snd drop]. rewrite N.add_0_r. by destruct st. }
      destruct (decide (r.1 = EFI_SUCCESS)); by apply Hres.
  - destruct (key_queue st) as [|r rest] eqn:Hq.
    + rewrite (poll_key_empty _ _ Hq).
      set (st1 := set_stalled _ st).
      destruct (IH st1) as (reads & stalls & Hs & Hr & Heq).
      exists reads, (S stalls). split; [lia|]. split; [lia|].
      rewrite Heq. subst st1.
      apply (eq_trans
               (y := set_stalled (stalled_us st + DETECT_KEY_STALL_TIME_MS * 1000
                                  + 1000 * N.of_nat stalls)%N
                       (set_keys (drop reads (key_queue st)) st)));
        [reflexivity|].
      apply set_stalled_keys; [unfold DETECT_KEY_STALL_TIME_MS; lia|by rewrite Hq].
    + rewrite (poll_key_unfold _ _ _ _ Hq).
      destruct (decide (r.1 = EFI_SUCCESS)).
      * exists 1%nat, 0%nat. split; [lia|]. split; [lia|].
        cbn [snd drop]. rewrite N.add_0_r. by destruct st.
      * set (st1 := set_stalled _ _).
        destruct (IH st1) as (reads & stalls & Hs & Hr & Heq).
        exists (S reads), (S stalls). split; [lia|]. split; [lia|].
        rewrite Heq. subst st1.
        apply (eq_trans
                 (y := set_stalled (stalled_us st + DETECT_KEY_STALL_TIME_MS * 1000
                                    + 1000 * N.of_nat stalls)%N
                         (set_keys (drop reads rest) st)));
          [reflexivity|].
        cbn [drop].
        apply set_stalled_keys; [unfold DETECT_KEY_STALL_TIME_MS; lia|done].
Qed.

(** A key stroke the loop returns with [EFI_SUCCESS] was pending, behind
    at most [remaining] failed reads. *)
Lemma poll_key_success remaining :
  forall st key,
    (poll_key remaining st).1 = (EFI_SUCCESS, key) ->
    exists misses rest,
      key_queue st = misses ++ (EFI_SUCCESS, key) :: rest /\
      Forall (fun r => r.1 <> EFI_SUCCESS) misses /\
      (length misses <= remaining)%nat.
Proof.
  induction remaining as [|remaining IH]; intros st key Hres.
  - destruct (key_queue st) as [|r rest] eqn:Hq.
    + by rewrite (poll_key_empty _ _ Hq) in Hres.
    + rewrite (poll_key_unfold _ _ _ _ Hq) in Hres.
      assert (r = (EFI_SUCCESS, key)) as ->
        by (by destruct (decide (r.1 = EFI_SUCCESS))).
      exists [], rest. split; [done|]. split; [constructor|simpl; lia].
  - destruct (key_queue st) as [|r rest] eqn:Hq.
    + rewrite (poll_key_empty _ _ Hq) in Hres.
      apply IH in Hres as (misses & rest & Hq' & _).
      cbn in Hq'. rewrite Hq in Hq'. by destruct misses.
    + rewrite (poll_key_unfold _ _ _ _ Hq) in Hres.
      destruct (decide (r.1 = EFI_SUCCESS)) as [Hr|Hr].
      * cbn [fst] in Hres. subst r. exists [], rest.
        split; [done|]. split; [constructor|simpl; lia].
      * apply IH in Hres as (misses & rest' & Hq' & Hmiss & Hlen).
        cbn in Hq'. subst rest. exists (r :: misses), rest'.
        split; [done|]. split; [by constructor|simpl; lia].
Qed.

Lemma magic_key_wait_ms_bound pf : (magic_key_wait_ms pf <= 1000)%nat.
Proof.
  unfold magic_key_wait_ms, EFI_RESET_WAIT_MS.
  destruct (magic_key_timeout_var pf) as [w|]; [|lia].
  destruct (Nat.ltb_spec 1000 w); lia.
Qed.
End MagicKeyMore.

(** X8.  The polling loop of [check_magic_key] is bounded and touches
    nothing but the keyboard and the clock: the wait time it settles on is
    at most 1000 ms, the loop stalls at most that many times, one
    millisecond each, takes at most one more key stroke than it stalls, and
    leaves every other part of the state as it was.  When the loop ends
    without a key stroke, or with a key that is not the magic key,
    [check_magic_key] returns NORMAL_BOOT with nothing done but the loop.
    Otherwise [ui_enforce_key_held] is called for FASTBOOT_HOLD_DELAY;
    what that call costs in time and key reads is not covered. *)
Theorem magic_key_poll_bounded (pf : Kf.platform) (st : Kf.state) :
  let polled := Kf.poll_key (Kf.magic_key_wait_ms pf) st in
  (Kf.magic_key_wait_ms pf <= 1000)%nat /\
  (exists reads stalls : nat,
     (stalls <= Kf.magic_key_wait_ms pf)%nat /\ (reads <= stalls + 1)%nat /\
     polled.2 =
     Kf.set_stalled (Kf.stalled_us st + 1000 * N.of_nat stalls)%N
       (Kf.set_keys (drop reads (Kf.key_queue st)) st)) /\
  (polled.1.1 <> EFI_SUCCESS \/
   Kf.ui_keycode_to_event pf (Kf.ScanCode polled.1.2) <> Kf.MAGIC_KEY ->
   Kf.check_magic_key pf st = (NORMAL_BOOT, polled.2)).
Proof.
  cbv zeta. split; [apply magic_key_wait_ms_bound|].
  split; [apply poll_key_frame|].
  intros Hearly. unfold Kf.check_magic_key, Kf.bind, Kf.ret.
  destruct (Kf.poll_key (Kf.magic_key_wait_ms pf) st) as [[status key] st'].
  cbn [fst snd] in Hearly |- *.
  destruct (EFI_ERROR status) eqn:Herr; [done|].
  assert (status = EFI_SUCCESS) as -> by (by destruct status).
  destruct Hearly as [Hstatus|Hkey]; [done|].
  by rewrite bool_decide_eq_false_2.
Qed.

(** X9.  [check_magic_key] returns FASTBOOT exactly when a key stroke is
    read successfully within the wait time, it is the down-arrow key, and
    the key is then held for the fastboot delay.  In every other case, no
    key, another key, or a key released early, it returns NORMAL_BOOT. *)
Theorem magic_key_fastboot_iff (pf : Kf.platform) (st : Kf.state) :
  ((Kf.check_magic_key pf st).1 = FASTBOOT <->
   Kf.ui_enforce_key_held pf Kf.FASTBOOT_HOLD_DELAY Kf.MAGIC_KEY = true /\
   exists misses key rest,
     Kf.key_queue st = misses ++ (EFI_SUCCESS, key) :: rest /\
     Forall (fun r => r.1 <> EFI_SUCCESS) misses /\
     (length misses <= Kf.magic_key_wait_ms pf)%nat /\
     Kf.ui_keycode_to_event pf (Kf.ScanCode key) = Kf.MAGIC_KEY) /\
  ((Kf.check_magic_key pf st).1 <> FASTBOOT ->
   (Kf.check_magic_key pf st).1 = NORMAL_BOOT).
Proof.
  split; [split|].
  - intros Hfast. unfold Kf.check_magic_key, Kf.bind, Kf.ret in Hfast.
    destruct (Kf.poll_key (Kf.magic_key_wait_ms pf) st)
      as [[status key] st'] eqn:Hpoll.
    destruct status; cbn [EFI_ERROR] in Hfast; try discriminate Hfast.
    destruct (bool_decide (Kf.ui_keycode_to_event pf (Kf.ScanCode key)
                           = Kf.MAGIC_KEY)) eqn:Hkey;
      cbn [negb] in Hfast; [|discriminate Hfast].
    apply bool_decide_eq_true_1 in Hkey.
    destruct (Kf.ui_enforce_key_held pf _ _) eqn:Hheld;
      [|discriminate Hfast].
    split; [done|].
    destruct (poll_key_success (Kf.magic_key_wait_ms pf) st key)
      as (misses & rest & Hq & Hmiss & Hlen); [by rewrite Hpoll|].
    by exists misses, key, rest.
  - intros (Hheld & misses & key & rest & Hq & Hmiss & Hlen & Hkey).
    destruct (poll_key_finds misses _ st key rest Hq Hmiss Hlen)
      as (st' & Hpoll & _).
    unfold Kf.check_magic_key, Kf.bind, Kf.ret. rewrite Hpoll.
    cbn [EFI_ERROR]. rewrite Hkey, bool_decide_eq_true_2 by done.
    cbn [negb]. by rewrite Hheld.
  - intros Hnot. by destruct (check_magic_key_range pf st).
Qed.

Section BcbMore.
Import Kf.
Local Open Scope string_scope.

Lemma char_code_nul c : char_code c = 0 -> c = NUL.
Proof. intros H. apply char_code_inj. by rewrite H. Qed.

Lemma cstr_nul_free a : nul_free (cstr a).
Proof.
  unfold nul_free. induction a as [|c a IH]; [constructor|].
  cbn [cstr]. destruct (Ascii.eqb c NUL) eqn:E; [constructor|].
  apply ascii_eqb_false in E. by constructor.
Qed.

Lemma str_drop_nul_free n : forall s, nul_free s -> nul_free (str_drop n s).
Proof.
  unfold nul_free. induction n as [|n IH]; intros s Hs; [done|].
  destruct s as [|c s]; [done|]. cbn [str_drop]. apply IH.
  cbn [list_ascii_of_string] in Hs. by apply Forall_cons in Hs as [_ Hs].
Qed.

(** On strings without an embedded [NUL], [StrCmp] answers 0 exactly for
    equal strings. *)
Lemma StrCmp_eq s1 :
  forall s2, nul_free s1 -> nul_free s2 -> StrCmp s1 s2 = 0 <-> s1 = s2.
Proof.
  unfold nul_free. induction s1 as [|c1 s1 IH]; intros [|c2 s2] H1 H2;
    cbn [StrCmp list_ascii_of_string] in *.
  - done.
  - apply Forall_cons in H2 as [Hc _]. split; [|done].
    intros H. exfalso. apply Hc, char_code_nul. lia.
  - apply Forall_cons in H1 as [Hc _]. split; [|done].
    intros H. exfalso. by apply Hc, char_code_nul.
  - apply Forall_cons in H1 as [_ H1]. apply Forall_cons in H2 as [_ H2].
    destruct (Ascii.eqb c1 c2) eqn:E.
    + apply Ascii.eqb_eq in E. subst c2. rewrite (IH s2 H1 H2).
      split; [by intros ->|by intros [= ->]].
    + apply ascii_eqb_false in E. split.
      * intros H. by apply char_code_inj in H.
      * by intros [= -> _].
Qed.

Lemma str_drop_split n :
  forall s, (n <= String.length s)%nat ->
            exists pre, s = pre +:+ str_drop n s /\ String.length pre = n.
Proof.
  induction n as [|n IH]; intros s Hlen; [by exists ""|].
  destruct s as [|c s]; [simpl in Hlen; lia|].
  destruct (IH s) as (pre & Hs & Hpre); [simpl in Hlen; lia|].
  exists (String c pre). cbn [str_drop String.length].
  rewrite append_cons, <- Hs. by rewrite Hpre.
Qed.

Lemma str_drop_append pre : forall s, str_drop (String.length pre) (pre +:+ s) = s.
Proof.
  induction pre as [|c pre IH]; intros s; [done|].
  rewrite append_cons. cbn [String.length str_drop]. apply IH.
Qed.

Lemma length_append_str a : forall b,
  String.length (a +:+ b) = (String.length a + String.length b)%nat.
Proof.
  induction a as [|c a IH]; intros b; [done|].
  rewrite append_cons. cbn [String.length]. by rewrite IH.
Qed.

(** The last four characters of a string longer than four are a given
    NUL-free suffix exactly when the string ends with it. *)
Lemma suffix_test p suffix :
  nul_free p -> nul_free suffix -> String.length suffix = 4%nat ->
  (4 < String.length p)%nat ->
  (StrCmp (str_drop (String.length p - 4) p) suffix =? 0)%Z = true <->
  exists pre, p = pre +:+ suffix.
Proof.
  intros Hp Hsuf Hlen Hlong. rewrite Z.eqb_eq.
  rewrite (StrCmp_eq _ _ (str_drop_nul_free _ _ Hp) Hsuf). split.
  - intros Hdrop.
    destruct (str_drop_split (String.length p - 4) p) as (pre & Hs & _); [lia|].
    exists pre. by rewrite <- Hdrop.
  - intros [pre ->]. rewrite length_append_str, Hlen.
    replace (String.length pre + 4 - 4)%nat with (String.length pre) by lia.
    apply str_drop_append.
Qed.

(** What [bcb_target] answers for a target name. *)
Lemma bcb_target_cases pf target :
  nul_free target ->
  (bcb_target pf target).1 <> UNKNOWN_TARGET /\
  ((bcb_target pf target).1 = NORMAL_BOOT -> (bcb_target pf target).2 = None) /\
  forall p, (bcb_target pf target).2 = Some p ->
    p = target /\
    ((bcb_target pf target).1 = ESP_EFI_BINARY \/
     (bcb_target pf target).1 = ESP_BOOTIMAGE) /\
    file_exists pf p = true /\ String.prefix "\" p = true /\
    (4 < String.length p)%nat /\
    ((bcb_target pf target).1 = ESP_EFI_BINARY <->
     exists pre, p = pre +:+ ".efi" \/ p = pre +:+ ".EFI").
Proof.
  intros Hfree. unfold bcb_target.
  destruct (String.prefix "\" target) eqn:Hslash.
  - destruct (file_exists pf target) eqn:Hfile; cbn [negb]; [|done].
    destruct (Nat.ltb_spec 4 (String.length target)) as [Hlong|Hshort]; [|done].
    assert (Hefi := suffix_test target ".efi" Hfree
                      ltac:(repeat constructor; discriminate) eq_refl Hlong).
    assert (HEFI := suffix_test target ".EFI" Hfree
                      ltac:(repeat constructor; discriminate) eq_refl Hlong).
    destruct (StrCmp _ ".efi" =? 0)%Z eqn:E1; cbn [orb fst snd].
    + split; [done|]. split; [done|]. intros p [= <-].
      repeat split; try done; [by left|].
      intros _. destruct (proj1 Hefi eq_refl) as [pre Hpre]. exists pre. by left.
    + destruct (StrCmp _ ".EFI" =? 0)%Z eqn:E2; cbn [fst snd].
      * split; [done|]. split; [done|]. intros p [= <-].
        repeat split; try done; [by left|].
        intros _. destruct (proj1 HEFI eq_refl) as [pre Hpre]. exists pre.
        by right.
      * split; [done|]. split; [done|]. intros p [= <-].
        repeat split; try done; [by right|].
        intros [pre [Hpre|Hpre]].
        -- assert (false = true) by (apply Hefi; by exists pre). done.
        -- assert (false = true) by (apply HEFI; by exists pre). done.
  - destruct (decide (name_to_boot_target pf target <> UNKNOWN_TARGET));
      cbn [fst snd]; done.
Qed.

Lemma strncmpa_boot a :
  (strncmpa a (list_ascii_of_string "boot-") 5 =? 0)%Z = true <->
  String.prefix "boot-" (cstr a) = true.
Proof.
  rewrite Z.eqb_eq. apply (strncmpa_prefix "boot-").
  repeat constructor; discriminate.
Qed.

Lemma strncmpa_bootonce a :
  (strncmpa a (list_ascii_of_string "bootonce-") 9 =? 0)%Z = true <->
  String.prefix "bootonce-" (cstr a) = true.
Proof.
  rewrite Z.eqb_eq. apply (strncmpa_prefix "bootonce-").
  repeat constructor; discriminate.
Qed.



(** [check_bcb] on a BCB it cannot read. *)
Lemma check_bcb_unreadable pf st :
  misc st = None -> check_bcb pf st = ((NORMAL_BOOT, None, false), st).
Proof.
  intros Hmisc. unfold check_bcb, read_bcb, bind, get, ret. by rewrite Hmisc.
Qed.

End BcbMore.

(** X10.  What [check_bcb] reports.  It never answers UNKNOWN_TARGET.  A
    target path is reported only with ESP_EFI_BINARY or ESP_BOOTIMAGE, and
    then it names a file that exists on the ESP, starts with a backslash
    and is longer than four characters; the target is ESP_EFI_BINARY
    exactly when the path ends in ".efi" or ".EFI".  [*oneshot] is TRUE
    only for a readable BCB whose command starts with "bootonce-".  A BCB
    that cannot be read yields NORMAL_BOOT, no path, and no write. *)
Theorem bcb_target_shape (pf : Kf.platform) (st : Kf.state) :
  let r := (Kf.check_bcb pf st).1 in
  r.1.1 <> UNKNOWN_TARGET /\
  (r.1.1 = NORMAL_BOOT -> r.1.2 = None) /\
  (forall p, r.1.2 = Some p ->
     (r.1.1 = ESP_EFI_BINARY \/ r.1.1 = ESP_BOOTIMAGE) /\
     Kf.file_exists pf p = true /\ String.prefix "\" p = true /\
     (4 < String.length p)%nat /\
     (r.1.1 = ESP_EFI_BINARY <->
      exists pre, p = (pre +:+ ".efi")%string \/ p = (pre +:+ ".EFI")%string)) /\
  (r.2 = true ->
   exists bcb, Kf.misc st = Some bcb /\
               String.prefix "bootonce-" (Kf.cstr (Kf.command bcb)) = true) /\
  (Kf.misc st = None -> Kf.check_bcb pf st = ((NORMAL_BOOT, None, false), st)).
Proof.
  cbv zeta.
  assert (Hcases :
    (exists target b,
       Kf.nul_free target /\
       (Kf.check_bcb pf st).1 = (Kf.bcb_target pf target, b) /\
       (b = true ->
        exists bcb, Kf.misc st = Some bcb /\
                    String.prefix "bootonce-" (Kf.cstr (Kf.command bcb)) = true))
    \/ (Kf.check_bcb pf st).1 = (NORMAL_BOOT, None, false)).
  { destruct (Kf.misc st) as [bcb|] eqn:Hmisc.
    - rewrite (check_bcb_run pf st bcb Hmisc). cbv zeta.
      destruct (Kf.strncmpa _ _ 5 =? 0) eqn:E5;
        [|destruct (Kf.strncmpa _ _ 9 =? 0) eqn:E9]; cbn [fst snd].
      + left. exists (Kf.cstr (drop 5 (Kf.command bcb))), false.
        split; [apply cstr_nul_free|]. by split.
      + left. exists (Kf.cstr (drop 9 (Kf.command bcb))), true.
        split; [apply cstr_nul_free|]. split; [done|]. intros _.
        exists bcb. split; [done|]. by apply strncmpa_bootonce.
      + by right.
    - right. by rewrite (check_bcb_unreadable pf st Hmisc). }
  assert (Hlast : Kf.misc st = None ->
                  Kf.check_bcb pf st = ((NORMAL_BOOT, None, false), st))
    by apply check_bcb_unreadable.
  destruct Hcases as [(target & b & Hfree & -> & Honce)| ->]; cbn [fst snd].
  - destruct (bcb_target_cases pf target Hfree) as (Hu & Hn & Hp).
    split; [done|]. split; [done|]. split; [|by split].
    intros p Hsome. by destruct (Hp p Hsome) as (_ & H).
  - repeat split; done.
Qed.



Section OneShotMore.
Import Kf.
Local Open Scope string_scope.

(** [check_loader_entry_one_shot], branch by branch. *)
Lemma check_loader_entry_one_shot_run pf st :
  check_loader_entry_one_shot pf st =
  match loader_entry_one_shot st with
  | None => (NORMAL_BOOT, set_one_shot None st)
  | Some target =>
      let bt := name_to_boot_target pf target in
      if decide (bt = UNKNOWN_TARGET) then
        (NORMAL_BOOT,
         if (StrCmp target "dm-verity device corrupted" =? 0)%Z
            && set_verity_ok pf
         then set_verity true (set_one_shot None st)
         else set_one_shot None st)
      else if bool_decide (bt = CHARGER) && negb (off_mode_charge pf)
      then (POWER_OFF, set_one_shot None st)
      else (bt, set_one_shot None st)
  end.
Proof.
  unfold check_loader_entry_one_shot, bind, get, modify, ret.
  destruct (loader_entry_one_shot st) as [target|]; [|done]. cbv zeta.
  destruct (decide (name_to_boot_target pf target = UNKNOWN_TARGET)).
  - destruct (StrCmp target _ =? 0)%Z; [|done].
    unfold slot_set_verity_corrupted, bind, modify, ret.
    by destruct (set_verity_ok pf).
  - by destruct (_ && _).
Qed.
End OneShotMore.

(** X12.  [check_loader_entry_one_shot] consumes the LoaderEntryOneShot
    variable: whatever it held, it is deleted, so a second call answers
    NORMAL_BOOT and changes nothing.  The call never answers
    UNKNOWN_TARGET, answers CHARGER only when off-mode charging is enabled,
    and changes nothing but the variable and the verity flag of the active
    slot; that flag is only ever set, and only when the variable held a
    name no boot target has, equal to "dm-verity device corrupted", in
    which case the answer is NORMAL_BOOT. *)
Theorem one_shot_variable_consumed (pf : Kf.platform) (st : Kf.state) :
  let r := Kf.check_loader_entry_one_shot pf st in
  Kf.loader_entry_one_shot r.2 = None /\
  Kf.check_loader_entry_one_shot pf r.2 = (NORMAL_BOOT, r.2) /\
  r.1 <> UNKNOWN_TARGET /\
  (r.1 = CHARGER -> Kf.off_mode_charge pf = true) /\
  (Kf.loader_entry_one_shot st = None -> r.1 = NORMAL_BOOT) /\
  r.2 = Kf.set_verity (Kf.verity_corrupted r.2) (Kf.set_one_shot None st) /\
  (Kf.verity_corrupted r.2 <> Kf.verity_corrupted st ->
   Kf.verity_corrupted r.2 = true /\ r.1 = NORMAL_BOOT /\
   exists target,
     Kf.loader_entry_one_shot st = Some target /\
     Kf.name_to_boot_target pf target = UNKNOWN_TARGET /\
     Kf.StrCmp target "dm-verity device corrupted" = 0).
Proof.
  cbv zeta. rewrite (check_loader_entry_one_shot_run pf st).
  assert (Hagain : forall st0,
    Kf.loader_entry_one_shot st0 = None ->
    Kf.set_one_shot None st0 = st0 ->
    Kf.check_loader_entry_one_shot pf st0 = (NORMAL_BOOT, st0)).
  { intros st0 Hnone Heta. rewrite check_loader_entry_one_shot_run, Hnone.
    by rewrite Heta. }
  destruct (Kf.loader_entry_one_shot st) as [target|] eqn:Hvar; cbv zeta.
  - destruct (decide (Kf.name_to_boot_target pf target = UNKNOWN_TARGET))
      as [Hunknown|Hknown].
    + destruct (Kf.StrCmp target "dm-verity device corrupted" =? 0) eqn:Hdm;
        [destruct (Kf.set_verity_ok pf)|]; cbn [andb fst snd].
      * split; [done|]. split; [by apply Hagain|]. split; [done|].
        split; [done|]. split; [done|]. split; [done|].
        intros _. split; [done|]. split; [done|]. exists target.
        split; [done|]. split; [done|]. by apply Z.eqb_eq.
      * split; [done|]. split; [by apply Hagain|]. split; [done|].
        split; [done|]. split; [done|]. split; [done|]. done.
      * split; [done|]. split; [by apply Hagain|]. split; [done|].
        split; [done|]. split; [done|]. split; [done|]. done.
    + destruct (bool_decide (Kf.name_to_boot_target pf target = CHARGER))
        eqn:Hcharger; cbn [andb].
      * destruct (Kf.off_mode_charge pf) eqn:Hoff; cbn [negb fst snd].
        -- split; [done|]. split; [by apply Hagain|]. split; [done|].
           split; [done|]. split; [done|]. split; [done|]. done.
        -- split; [done|]. split; [by apply Hagain|]. split; [done|].
           split; [done|]. split; [done|]. split; [done|]. done.
      * cbn [fst snd]. apply bool_decide_eq_false_1 in Hcharger.
        split; [done|]. split; [by apply Hagain|]. split; [done|].
        split; [done|]. split; [done|]. split; [done|]. done.
  - cbn [fst snd]. split; [done|]. split; [by apply Hagain|].
    split; [done|]. split; [done|]. split; [done|]. split; [done|]. done.
Qed.

Section WatchdogMore.
Import Kf.
Local Open Scope string_scope.

Lemma reset_due_state pf st :
  (reset_is_due_to_watchdog_or_panic pf st).2 = st.
Proof.
  unfold reset_is_due_to_watchdog_or_panic, is_reboot_reason, bind, get, ret.
  destruct (bool_decide _); [done|]. by destruct (bool_decide _).
Qed.

Lemma reset_due_source pf st :
  reset_source pf ∈ WATCHDOG_RESET_SOURCES ->
  reset_is_due_to_watchdog_or_panic pf st = (true, st).
Proof.
  intros Hin. unfold reset_is_due_to_watchdog_or_panic.
  by rewrite bool_decide_eq_true_2.
Qed.

(** One boot after a watchdog reset, with [c] earlier resets counted since
    [t0]: below the maximum the reset is counted and the boot is normal;
    at the maximum the menu is shown. *)
Lemma check_watchdog_counts max t0 pf st :
  watchdog_reset_boot max t0 pf ->
  (0 <= watchdog_counter st <= max)%Z -> (max < 255)%Z ->
  (USER pf = true -> reboot_reason st <> Some "shutdown") ->
  (watchdog_counter st = 0%Z -> now pf = Some t0) ->
  (0 < watchdog_counter st -> watchdog_time_ref st = t0)%Z ->
  ((watchdog_counter st < max)%Z ->
   check_watchdog pf st =
   (NORMAL_BOOT, set_watchdog (watchdog_counter st + 1) t0 st)) /\
  (watchdog_counter st = max ->
   (check_watchdog pf st).1 = crash_menu_choice pf /\
   ux_shown (check_watchdog pf st).2 = (ux_shown st ++ [UxCrashEventMenu])%list /\
   reboot_reason (check_watchdog pf st).2 = reboot_reason st /\
   (watchdog_reset_ok pf = true ->
    watchdog_counter (check_watchdog pf st).2 = 0%Z)).
Proof.
  intros (Hmenu & Hstatus & Htime & Hcounter & Hsrc & Hmax & t & Hnow & Ht)
    Hc Hlim Hshut Hfirst Hlater.
  assert (Hrun : check_watchdog pf st =
    let c := watchdog_counter st in
    let st1 := if (c =? 0)%Z then set_watchdog c t st else st in
    if (c + 1 <=? max)%Z
    then (NORMAL_BOOT, set_watchdog (c + 1) (watchdog_time_ref st1) st1)
    else (crash_menu_choice pf,
          set_ux (ux_shown st ++ [UxCrashEventMenu])%list
            (if watchdog_reset_ok pf then set_watchdog 0 0 st1 else st1))).
  { unfold check_watchdog. rewrite Hmenu. cbn [negb].
    unfold get_watchdog_status. unfold bind at 1 2. unfold get at 1.
    rewrite Hstatus. unfold ret at 1. cbn [EFI_ERROR].
    unfold bind at 1. rewrite (reset_due_source pf st Hsrc). cbn [negb].
    assert (Hno : (if USER pf then is_reboot_reason "shutdown" else ret false) st
                  = (false, st)).
    { destruct (USER pf) eqn:Huser; [|done].
      unfold is_reboot_reason, bind, get, ret.
      by rewrite bool_decide_eq_false_2 by (by apply Hshut). }
    unfold bind at 1. rewrite Hno, Hnow.
    assert (Hkeep : ((0 <? watchdog_counter st)%Z
                     && ((t <? watchdog_time_ref st)%Z
                         || (WATCHDOG_DELAY <? t - watchdog_time_ref st)%Z))
                    = false).
    { destruct (Z.ltb_spec 0 (watchdog_counter st)) as [Hpos|]; [|done].
      rewrite (Hlater Hpos). cbn [andb].
      destruct (Z.ltb_spec t t0); [lia|].
      destruct (Z.ltb_spec WATCHDOG_DELAY (t - t0)); [lia|done]. }
    rewrite Hkeep. cbv zeta.
    replace ((watchdog_counter st + 1) mod 256)%Z
      with (watchdog_counter st + 1)%Z by (rewrite Z.mod_small; lia).
    rewrite Hmax.
    destruct (watchdog_counter st =? 0)%Z eqn:Hzero.
    - unfold set_watchdog_time_reference. rewrite Htime.
      unfold bind, get, modify, ret. cbn [EFI_ERROR].
      destruct (watchdog_counter st + 1 <=? max)%Z.
      + unfold set_watchdog_counter. by rewrite Hcounter.
      + unfold reset_watchdog_status, ux_show, bind, modify, ret.
        by destruct (watchdog_reset_ok pf).
    - unfold bind at 1. unfold ret at 1. cbn [EFI_ERROR].
      destruct (watchdog_counter st + 1 <=? max)%Z.
      + unfold set_watchdog_counter. rewrite Hcounter.
        by unfold bind, get, modify, ret.
      + unfold reset_watchdog_status, ux_show, bind, modify, ret.
        by destruct (watchdog_reset_ok pf). }
  rewrite Hrun. cbv zeta. split.
  - intros Hlt. destruct (Z.leb_spec (watchdog_counter st + 1) max); [|lia].
    destruct (Z.eqb_spec (watchdog_counter st) 0) as [Hz|Hnz].
    + assert (t = t0) as -> by (rewrite (Hfirst Hz) in Hnow; congruence).
      done.
    + rewrite Hlater by lia. done.
  - intros Heq. destruct (Z.leb_spec (watchdog_counter st + 1) max); [lia|].
    cbn [fst snd]. split; [done|]. split; [done|].
    split; [by destruct (watchdog_reset_ok pf), (_ =? 0)%Z|].
    by intros ->.
Qed.

(** In a USER build a boot after a watchdog reset with reboot reason
    "shutdown" powers off: the reboot reason is deleted and nothing is
    counted. *)
Lemma check_watchdog_shutdown max t0 pf st :
  watchdog_reset_boot max t0 pf ->
  USER pf = true -> reboot_reason st = Some "shutdown" ->
  check_watchdog pf st = (POWER_OFF, set_reboot_reason None st).
Proof.
  intros (Hmenu & Hstatus & _ & _ & Hsrc & _) Huser Hreason.
  unfold check_watchdog. rewrite Hmenu. cbn [negb].
  unfold get_watchdog_status. unfold bind at 1 2. unfold get at 1.
  rewrite Hstatus. unfold ret at 1. cbn [EFI_ERROR].
  unfold bind at 1. rewrite (reset_due_source pf st Hsrc). cbn [negb].
  rewrite Huser. unfold bind at 1.
  unfold is_reboot_reason, bind, get, ret.
  rewrite bool_decide_eq_true_2 by done.
  by unfold del_reboot_reason, modify.
Qed.

(** Below the maximum, every boot after a watchdog reset is a normal boot
    that counts the reset. *)
Lemma watchdog_boots_count max t0 boots :
  forall st,
    Forall (watchdog_reset_boot max t0) boots ->
    Forall (fun pf => USER pf = true -> reboot_reason st <> Some "shutdown")
      boots ->
    (0 <= watchdog_counter st)%Z ->
    (watchdog_counter st + Z.of_nat (length boots) <= max)%Z ->
    (max < 255)%Z ->
    (watchdog_counter st = 0%Z -> forall pf, head boots = Some pf ->
                                             now pf = Some t0) ->
    (0 < watchdog_counter st -> watchdog_time_ref st = t0)%Z ->
    watchdog_boots boots st =
    (replicate (length boots) NORMAL_BOOT,
     match boots with
     | [] => st
     | _ => set_watchdog (watchdog_counter st + Z.of_nat (length boots)) t0 st
     end).
Proof.
  induction boots as [|pf boots IH];
    intros st Hboots Hshut Hc Hlen Hlim Hfirst Hlater; [done|].
  apply Forall_cons in Hboots as [Hpf Hboots].
  apply Forall_cons in Hshut as [Hs Hshut].
  cbn [length] in Hlen. cbn [watchdog_boots length replicate].
  destruct (check_watchdog_counts max t0 pf st Hpf) as [Hstep _];
    [lia|lia|done|by intros Hz; apply Hfirst|done|].
  unfold bind at 1. rewrite Hstep by lia.
  set (st1 := set_watchdog (watchdog_counter st + 1) t0 st).
  unfold bind, ret. rewrite (IH st1); try done.
  - f_equal. destruct boots as [|pf' boots].
    + reflexivity.
    + subst st1.
      change (set_watchdog ?c ?t (set_watchdog _ _ st))
        with (set_watchdog c t st).
      f_equal. cbn [watchdog_counter set_watchdog length]. lia.
  - subst st1. cbn. lia.
  - subst st1. cbn. lia.
  - subst st1. cbn. lia.
Qed.
End WatchdogMore.

(** X13.  The crash event menu appears at the reset after
    [watchdog_counter_max] counted ones.  The boots considered are those
    of [watchdog_reset_boot]: the crash event menu is enabled, the
    watchdog status can be read, the time reference and the counter can be
    written, the reset source is one of the four watchdog sources, the
    time can be read and lies within WATCHDOG_DELAY after [t0], the time of
    the first boot, and the counter maximum is [max], with 0 <= max < 255.
    In a USER build the reboot reason is moreover not "shutdown".  Starting
    with a counter of 0, the first [max] such boots are normal boots, show
    nothing and leave the counter at [max]; the next one shows the crash
    event menu, answers what the user chooses there and, when the watchdog
    variables can be reset, leaves the counter at 0.  Where the reboot
    reason is "shutdown" in a USER build, such a boot is POWER_OFF instead:
    it deletes the reboot reason and counts nothing. *)
Theorem watchdog_menu_after_max_resets
    (max t0 : Z) (boots : list Kf.platform) (last : Kf.platform)
    (st : Kf.state) :
  (0 <= max < 255) ->
  Z.of_nat (length boots) = max ->
  Kf.watchdog_counter st = 0 ->
  Forall (fun pf => Kf.USER pf = true ->
                    Kf.reboot_reason st <> Some "shutdown"%string)
    (boots ++ [last]) ->
  Forall (Kf.watchdog_reset_boot max t0) (boots ++ [last]) ->
  (forall pf, head (boots ++ [last]) = Some pf -> Kf.now pf = Some t0) ->
  let r := Kf.watchdog_boots boots st in
  r.1 = replicate (length boots) NORMAL_BOOT /\
  Kf.ux_shown r.2 = Kf.ux_shown st /\
  Kf.watchdog_counter r.2 = max /\
  (Kf.check_watchdog last r.2).1 = Kf.crash_menu_choice last /\
  Kf.ux_shown (Kf.check_watchdog last r.2).2
  = Kf.ux_shown st ++ [Kf.UxCrashEventMenu] /\
  (Kf.watchdog_reset_ok last = true ->
   Kf.watchdog_counter (Kf.check_watchdog last r.2).2 = 0) /\
  (forall pf st',
     pf ∈ boots ++ [last] -> Kf.USER pf = true ->
     Kf.reboot_reason st' = Some "shutdown"%string ->
     Kf.check_watchdog pf st' = (POWER_OFF, Kf.set_reboot_reason None st')).
Proof.
  intros Hmax Hlen Hzero Hshut Hboots Hfirst r.
  assert (Hoff : forall pf st',
     pf ∈ boots ++ [last] -> Kf.USER pf = true ->
     Kf.reboot_reason st' = Some "shutdown"%string ->
     Kf.check_watchdog pf st' = (POWER_OFF, Kf.set_reboot_reason None st')).
  { intros pf st' Hin. apply (check_watchdog_shutdown max t0).
    by apply (proj1 (Forall_forall _ _) Hboots). }
  apply Forall_app in Hboots as [Hboots Hlast].
  apply Forall_cons in Hlast as [Hlast _].
  apply Forall_app in Hshut as [Hshut Hshutlast].
  apply Forall_cons in Hshutlast as [Hshutlast _].
  pose proof (watchdog_boots_count max t0 boots st Hboots) as Hrun.
  subst r. rewrite Hrun; cycle 1.
  { done. }
  { lia. }
  { lia. }
  { lia. }
  { intros _ pf Hhead. apply Hfirst. by destruct boots. }
  { lia. }
  cbn [fst snd]. split; [done|].
  set (st1 := match boots with [] => st | _ => _ end).
  assert (Hst1 : Kf.ux_shown st1 = Kf.ux_shown st /\
                 Kf.watchdog_counter st1 = max /\
                 Kf.reboot_reason st1 = Kf.reboot_reason st /\
                 (0 < max -> Kf.watchdog_time_ref st1 = t0)).
  { subst st1. destruct boots; cbn in Hlen |- *.
    - repeat split; [lia|lia].
    - repeat split; lia. }
  destruct Hst1 as (Hux & Hcount & Hreason & Htime).
  split; [done|]. split; [done|].
  destruct (check_watchdog_counts max t0 last st1 Hlast) as [_ Hmenu].
  - lia.
  - lia.
  - intros Huser. rewrite Hreason. by apply Hshutlast.
  - intros Hz. apply Hfirst. destruct boots; [done|].
    cbn in Hlen. lia.
  - intros Hpos. apply Htime. lia.
  - destruct (Hmenu Hcount) as (Hr & Hshown & _ & Hreset).
    split; [done|]. split; [by rewrite Hshown, Hux|]. split; [done|].
    exact Hoff.
Qed.

Lemma watchdog_menu_after_max_resets_witness :
  let boots := [Kf.watchdog_platform 100; Kf.watchdog_platform 400] in
  let r := Kf.watchdog_boots boots Kf.sample_state in
  r.1 = [NORMAL_BOOT; NORMAL_BOOT] /\
  Kf.ux_shown r.2 = [] /\
  Kf.watchdog_counter r.2 = 2 /\
  (Kf.check_watchdog (Kf.watchdog_platform 700) r.2).1 = CRASHMODE /\
  Kf.ux_shown (Kf.check_watchdog (Kf.watchdog_platform 700) r.2).2
  = [Kf.UxCrashEventMenu] /\
  Kf.watchdog_counter (Kf.check_watchdog (Kf.watchdog_platform 700) r.2).2 = 0.
Proof.
  intros boots r.
  assert (Hboot : forall t, 100 <= t <= 700 ->
                            Kf.watchdog_reset_boot 2 100 (Kf.watchdog_platform t)).
  { intros t Ht. repeat split; try reflexivity.
    - apply list_elem_of_here.
    - exists t. split; [reflexivity|]. unfold Kf.WATCHDOG_DELAY. lia. }
  destruct (watchdog_menu_after_max_resets 2 100 boots
              (Kf.watchdog_platform 700) Kf.sample_state)
    as (H1 & H2 & H3 & H4 & H5 & H6 & _).
  - lia.
  - reflexivity.
  - reflexivity.
  - repeat constructor; intros _; discriminate.
  - repeat constructor; apply Hboot; lia.
  - intros pf [= <-]. reflexivity.
  - split; [exact H1|]. split; [exact H2|]. split; [exact H3|].
    split; [exact H4|]. split; [exact H5|]. exact (H6 eq_refl).
Defined.

Section WatchdogRun.
Import Kf.
Local Open Scope string_scope.

(** [check_watchdog], branch by branch. *)
Lemma check_watchdog_run pf st :
  check_watchdog pf st =
  if negb (crash_event_menu pf) || negb (watchdog_status_ok pf)
  then (NORMAL_BOOT, st)
  else if negb (reset_is_due_to_watchdog_or_panic pf st).1 then
    (NORMAL_BOOT,
     if negb (watchdog_counter st =? 0)%Z && watchdog_reset_ok pf
     then set_watchdog 0 0 st else st)
  else if USER pf && bool_decide (reboot_reason st = Some "shutdown")
  then (POWER_OFF, set_reboot_reason None st)
  else
    match now pf with
    | None => (NORMAL_BOOT, st)
    | Some t =>
        let c :=
          if (0 <? watchdog_counter st)%Z
             && ((t <? watchdog_time_ref st)%Z
                 || (WATCHDOG_DELAY <? t - watchdog_time_ref st)%Z)
          then 0%Z else watchdog_counter st in
        if (c =? 0)%Z && negb (watchdog_set_time_ok pf)
        then (NORMAL_BOOT, st)
        else
          let st1 :=
            if (c =? 0)%Z then set_watchdog (watchdog_counter st) t st
            else st in
          if ((c + 1) mod 256 <=? watchdog_counter_max pf)%Z then
            (NORMAL_BOOT,
             if watchdog_set_counter_ok pf
             then set_watchdog ((c + 1) mod 256) (watchdog_time_ref st1) st1
             else st1)
          else
            (crash_menu_choice pf,
             set_ux (ux_shown st ++ [UxCrashEventMenu])%list
               (if watchdog_reset_ok pf then set_watchdog 0 0 st1 else st1))
    end.
Proof.
  unfold check_watchdog.
  destruct (crash_event_menu pf); cbn [negb orb]; [|done].
  unfold get_watchdog_status. unfold bind at 1 2. unfold get at 1.
  destruct (watchdog_status_ok pf); unfold ret at 1; cbn [EFI_ERROR negb];
    [|done].
  unfold bind at 1.
  pose proof (reset_due_state pf st) as Hsame.
  destruct (reset_is_due_to_watchdog_or_panic pf st) as [due st0].
  cbn [fst snd] in Hsame |- *. subst st0.
  destruct due; cbn [negb].
  - unfold bind at 1.
    assert (Hshut :
      (if USER pf then is_reboot_reason "shutdown" else ret false) st
      = (USER pf && bool_decide (reboot_reason st = Some "shutdown"), st)).
    { destruct (USER pf); [|done]. by unfold is_reboot_reason, bind, get, ret. }
    rewrite Hshut. clear Hshut.
    destruct (USER pf && bool_decide _).
    + by unfold del_reboot_reason, bind, modify, ret.
    + destruct (now pf) as [t|]; [|done]. cbv zeta.
      set (c := if _ && _ then 0%Z else watchdog_counter st). clearbody c.
      destruct (c =? 0)%Z; cbn [andb].
      * unfold set_watchdog_time_reference.
        destruct (watchdog_set_time_ok pf); cbn [negb]; [|done].
        unfold bind at 1 2 3. unfold get at 1. unfold modify at 1.
        unfold ret at 1. cbn [EFI_ERROR].
        destruct (_ <=? _)%Z.
        -- unfold set_watchdog_counter.
           destruct (watchdog_set_counter_ok pf); [|done].
           by unfold bind, get, modify, ret.
        -- unfold reset_watchdog_status, ux_show, bind, modify, ret.
           by destruct (watchdog_reset_ok pf).
      * unfold bind at 1. unfold ret at 1. cbn [EFI_ERROR].
        destruct (_ <=? _)%Z.
        -- unfold set_watchdog_counter.
           destruct (watchdog_set_counter_ok pf); [|done].
           by unfold bind, get, modify, ret.
        -- unfold reset_watchdog_status, ux_show, bind, modify, ret.
           by destruct (watchdog_reset_ok pf).
  - destruct (watchdog_counter st =? 0)%Z; cbn [negb andb]; [done|].
    unfold reset_watchdog_status, bind, modify, ret.
    by destruct (watchdog_reset_ok pf).
Qed.
End WatchdogRun.

(** X14.  What one call of [check_watchdog] can and cannot do.
    - With the crash event menu disabled, or a watchdog status that cannot
      be read, it answers NORMAL_BOOT and changes nothing.
    - It changes nothing but the watchdog counter and time reference, the
      reboot reason and what is shown to the user.
    - It shows nothing but the crash event menu, and that only after a
      reset due to a watchdog or a kernel panic, with the answer the user
      gives there; with a maximum of 255 or more the menu is never shown,
      as the counter is a [UINT8].
    - An answer other than NORMAL_BOOT comes from the menu, or is POWER_OFF
      in a USER build whose reboot reason was "shutdown", which is then
      deleted.
    - A counter within [0, max] stays within [0, max]. *)
Theorem watchdog_check_frame (pf : Kf.platform) (st : Kf.state) :
  let r := Kf.check_watchdog pf st in
  (Kf.crash_event_menu pf = false \/ Kf.watchdog_status_ok pf = false ->
   r = (NORMAL_BOOT, st)) /\
  r.2 = Kf.set_ux (Kf.ux_shown r.2)
          (Kf.set_reboot_reason (Kf.reboot_reason r.2)
             (Kf.set_watchdog (Kf.watchdog_counter r.2)
                (Kf.watchdog_time_ref r.2) st)) /\
  (Kf.ux_shown r.2 = Kf.ux_shown st \/
   Kf.ux_shown r.2 = Kf.ux_shown st ++ [Kf.UxCrashEventMenu] /\
   r.1 = Kf.crash_menu_choice pf /\
   (Kf.reset_is_due_to_watchdog_or_panic pf st).1 = true /\
   Kf.watchdog_counter_max pf < 255) /\
  (r.1 <> NORMAL_BOOT ->
   Kf.ux_shown r.2 = Kf.ux_shown st ++ [Kf.UxCrashEventMenu] \/
   r.1 = POWER_OFF /\ Kf.USER pf = true /\
   Kf.reboot_reason st = Some "shutdown"%string /\
   Kf.reboot_reason r.2 = None) /\
  (0 <= Kf.watchdog_counter st <= Kf.watchdog_counter_max pf ->
   0 <= Kf.watchdog_counter r.2 <= Kf.watchdog_counter_max pf).
Proof.
  cbv zeta. rewrite (check_watchdog_run pf st).
  assert (Heta : forall st' : Kf.state,
    st' = Kf.set_ux (Kf.ux_shown st')
            (Kf.set_reboot_reason (Kf.reboot_reason st')
               (Kf.set_watchdog (Kf.watchdog_counter st')
                  (Kf.watchdog_time_ref st') st')))
    by (by intros []).
  destruct (Kf.crash_event_menu pf); cbn [negb orb]; cycle 1.
  { cbn [fst snd]. split; [done|]. split; [apply Heta|].
    split; [by left|]. split; [done|]. done. }
  destruct (Kf.watchdog_status_ok pf); cbn [negb]; cycle 1.
  { cbn [fst snd]. split; [done|]. split; [apply Heta|].
    split; [by left|]. split; [done|]. done. }
  split; [by intros [?|?]|].
  destruct (Kf.reset_is_due_to_watchdog_or_panic pf st).1 eqn:Hdue;
    cbn [negb fst snd]; cycle 1.
  { destruct (negb _ && Kf.watchdog_reset_ok pf).
    - split; [by destruct st|]. split; [by left|]. split; [done|].
      cbn. lia.
    - split; [apply Heta|]. split; [by left|]. split; [done|]. done. }
  destruct (Kf.USER pf && bool_decide _) eqn:Hshut; cbn [fst snd].
  { apply andb_true_iff in Hshut as [Huser Hreason].
    apply bool_decide_eq_true_1 in Hreason.
    split; [by destruct st|]. split; [by left|]. split; [by right|]. done. }
  clear Hshut.
  destruct (Kf.now pf) as [t|]; cycle 1.
  { cbn [fst snd]. split; [apply Heta|]. split; [by left|].
    split; [done|]. done. }
  cbv zeta.
  set (c := if _ && _ then 0 else Kf.watchdog_counter st).
  assert (Hc : c = 0 \/ c = Kf.watchdog_counter st)
    by (subst c; destruct (_ && _); auto).
  clearbody c.
  assert (Hmod : 0 <= (c + 1) mod 256 < 256) by (apply Z.mod_pos_bound; lia).
  destruct ((c =? 0) && negb (Kf.watchdog_set_time_ok pf)).
  { cbn [fst snd]. split; [apply Heta|]. split; [by left|].
    split; [done|]. done. }
  set (st1 := if c =? 0 then _ else st).
  assert (Hst1 : Kf.ux_shown st1 = Kf.ux_shown st /\
                 Kf.reboot_reason st1 = Kf.reboot_reason st /\
                 Kf.watchdog_counter st1 = Kf.watchdog_counter st /\
                 st1 = Kf.set_watchdog (Kf.watchdog_counter st)
                         (Kf.watchdog_time_ref st1) st).
  { subst st1. destruct (c =? 0); repeat split; by destruct st. }
  destruct Hst1 as (Hux & Hreason & Hcount & Hshape). clearbody st1.
  destruct (Z.leb_spec ((c + 1) mod 256) (Kf.watchdog_counter_max pf))
    as [Hle|Hgt]; cbn [fst snd].
  - destruct (Kf.watchdog_set_counter_ok pf).
    + split; [rewrite Hshape; by destruct st|].
      split; [by left|]. split; [done|]. intros Hb. cbn. lia.
    + split; [rewrite Hshape; by destruct st|].
      split; [by left|]. split; [done|]. intros Hb. by rewrite Hcount.
  - assert (Hlt : Kf.watchdog_counter_max pf < 255) by lia.
    destruct (Kf.watchdog_reset_ok pf).
    + split; [rewrite Hshape; by destruct st|].
      split; [by right|]. split; [by left|]. intros Hb. cbn. lia.
    + split; [rewrite Hshape; by destruct st|].
      split; [by right|]. split; [by left|].
      intros Hb. cbn. by rewrite Hcount.
Qed.

Section CommandLineMore.
Import Kf.
Local Open Scope string_scope.

(** The argument loop: what it answers, what it changes, and where a
    FASTBOOT answer comes from. *)
Lemma command_line_loop_props n :
  forall args user pos bt st,
    (length args <= n)%nat ->
    bt = NORMAL_BOOT \/ bt = FASTBOOT ->
    let r := command_line_loop user pos args bt st in
    (r.1 = bt /\ r.2 = st \/ r.1 = FASTBOOT /\ r.2 = st \/
     r.1 = EXIT_SHELL /\ user = false /\
     exists name, r.2 = set_unittests (unittests_run st ++ [name])%list st) /\
    (bt = FASTBOOT -> r.1 = FASTBOOT \/ r.1 = EXIT_SHELL) /\
    (r.1 = FASTBOOT ->
     bt = FASTBOOT \/
     exists arg, arg ∈ args /\
                 (StrCmp arg "-f" = 0 \/ StrCmp arg "-a" = 0)%Z).
Proof.
  induction n as [|n IH]; intros args user pos bt st Hlen Hbt; cbv zeta.
  - destruct args; [|simpl in Hlen; lia]. cbn.
    split; [by left|]. split; [by left|]. by left.
  - destruct args as [|arg rest].
    { cbn. split; [by left|]. split; [by left|]. by left. }
    cbn [command_line_loop]. simpl in Hlen.
    destruct (Z.eqb_spec (StrCmp arg "-f") 0) as [Hf|Hf].
    { destruct (IH rest user (S pos) FASTBOOT st ltac:(lia) ltac:(by right))
        as (H1 & H2 & H3).
      split; [|split].
      - destruct H1 as [[? ?]|[[? ?]|?]]; [right; by left|right; by left|].
        by right; right.
      - intros _. by apply H2.
      - intros _. right. exists arg. split; [apply list_elem_of_here|by left]. }
    destruct (negb user && (StrCmp arg "-U" =? 0)%Z) eqn:HU.
    { apply andb_true_iff in HU as [Huser _]. apply negb_true_iff in Huser.
      unfold unittest_main, bind, modify, ret. cbn [fst snd].
      split; [|split].
      - right; right. split; [done|]. split; [done|]. by eexists.
      - intros _. by right.
      - done. }
    destruct (Z.eqb_spec (StrCmp arg "-a") 0) as [Ha|Ha].
    { destruct rest as [|addr rest'].
      { cbn. split; [by left|]. split; [by left|]. by left. }
      destruct (IH rest' user (S (S pos)) FASTBOOT st
                  ltac:(simpl in Hlen; lia) ltac:(by right))
        as (H1 & H2 & H3).
      split; [|split].
      - destruct H1 as [[? ?]|[[? ?]|?]]; [right; by left|right; by left|].
        by right; right.
      - intros _. by apply H2.
      - intros _. right. exists arg. split; [apply list_elem_of_here|by right]. }
    destruct (pos =? 0)%nat.
    + destruct (IH rest user (S pos) bt st ltac:(lia) Hbt) as (H1 & H2 & H3).
      split; [done|]. split; [done|].
      intros Hr. destruct (H3 Hr) as [?|(a & Hin & Ha')]; [by left|].
      right. exists a. split; [by apply list_elem_of_further|done].
    + cbn. split; [by left|]. split; [by left|]. by left.
Qed.
End CommandLineMore.

(** X15.  [check_command_line] answers NORMAL_BOOT, FASTBOOT or
    EXIT_SHELL.  It changes the state only by running the unit tests,
    once, and then it answers EXIT_SHELL; a USER build never does.  An
    answer of FASTBOOT comes from an argument "-f" or "-a".  When the
    argument after the image name is "-f" the answer is FASTBOOT whatever
    follows, unless a later "-U" runs the unit tests. *)
Theorem command_line_target (pf : Kf.platform) (st : Kf.state) :
  let r := Kf.check_command_line pf st in
  (r.1 = NORMAL_BOOT \/ r.1 = FASTBOOT \/ r.1 = EXIT_SHELL) /\
  (r.1 <> EXIT_SHELL -> r.2 = st) /\
  (r.1 = EXIT_SHELL ->
   Kf.USER pf = false /\
   exists name, r.2 = Kf.set_unittests (Kf.unittests_run st ++ [name]) st) /\
  (r.1 = FASTBOOT ->
   exists args arg,
     Kf.argv pf = Some args /\ arg ∈ args /\
     (Kf.StrCmp arg "-f" = 0 \/ Kf.StrCmp arg "-a" = 0)) /\
  (forall prog rest,
     Kf.argv pf = Some (prog :: "-f"%string :: rest) ->
     r.1 = FASTBOOT \/ Kf.USER pf = false /\ r.1 = EXIT_SHELL).
Proof.
  cbv zeta. unfold Kf.check_command_line.
  destruct (Kf.argv pf) as [args|] eqn:Hargv; cycle 1.
  { cbn. split; [by left|]. split; [done|]. split; [done|]. by split. }
  destruct (command_line_loop_props (length args) args (Kf.USER pf) 0
              NORMAL_BOOT st (Nat.le_refl _) ltac:(by left))
    as (H1 & _ & H3).
  split; [|split; [|split; [|split]]].
  - destruct H1 as [[-> _]|[[-> _]|[-> _]]]; auto.
  - intros Hne. destruct H1 as [[_ ?]|[[_ ?]|[? _]]]; done.
  - intros He. destruct H1 as [[Hr _]|[[Hr _]|(_ & Hu & Hn)]];
      [congruence|congruence|done].
  - intros Hf. destruct (H3 Hf) as [?|(arg & Hin & Harg)]; [done|].
    by exists args, arg.
  - intros prog rest [= ->].
    assert (Hafter : forall pos bt,
      bt = NORMAL_BOOT \/ bt = FASTBOOT ->
      let r := Kf.command_line_loop (Kf.USER pf) pos ("-f"%string :: rest) bt st in
      r.1 = FASTBOOT \/ Kf.USER pf = false /\ r.1 = EXIT_SHELL).
    { intros pos bt Hbt. cbv zeta. cbn [Kf.command_line_loop].
      change (Kf.StrCmp "-f" "-f" =? 0) with true. cbv iota.
      destruct (command_line_loop_props (length rest) rest (Kf.USER pf)
                  (S pos) FASTBOOT st (Nat.le_refl _) ltac:(by right))
        as (Ha & _ & _).
      destruct Ha as [[? _]|[[? _]|(? & ? & _)]]; auto. }
    cbn [Kf.command_line_loop].
    destruct (Kf.StrCmp prog "-f" =? 0);
      [apply (Hafter 1%nat FASTBOOT); by right|].
    destruct (negb (Kf.USER pf) && (Kf.StrCmp prog "-U" =? 0)) eqn:HU.
    { apply andb_true_iff in HU as [Huser _]. apply negb_true_iff in Huser.
      right. by split. }
    destruct (Kf.StrCmp prog "-a" =? 0).
    + destruct (command_line_loop_props (length rest) rest (Kf.USER pf)
                  2 FASTBOOT st (Nat.le_refl _) ltac:(by right))
        as (Ha & _ & _).
      destruct Ha as [[? _]|[[? _]|(? & ? & _)]]; auto.
    + cbn [Nat.eqb]. apply (Hafter 1%nat NORMAL_BOOT). by left.
Qed.

Section SelectorMore.
Import Kf.
Local Open Scope string_scope.

Lemma check_watchdog_range pf st :
  (check_watchdog pf st).1 = NORMAL_BOOT \/
  (check_watchdog pf st).1 = POWER_OFF \/
  (check_watchdog pf st).1 = crash_menu_choice pf.
Proof.
  rewrite check_watchdog_run.
  destruct (_ || _); [by left|]. destruct (negb _); [by left|].
  destruct (_ && _); [right; by left|].
  destruct (now pf); [|by left]. cbv zeta.
  destruct (_ && _); [by left|].
  destruct (_ <=? _)%Z; [by left|right; by right].
Qed.

Lemma check_command_line_range pf st :
  (check_command_line pf st).1 = NORMAL_BOOT \/
  (check_command_line pf st).1 = FASTBOOT \/
  (check_command_line pf st).1 = EXIT_SHELL.
Proof.
  unfold check_command_line. destruct (argv pf) as [args|]; [|by left].
  destruct (command_line_loop_props (length args) args (USER pf) 0
              NORMAL_BOOT st (Nat.le_refl _) ltac:(by left))
    as (H1 & _ & _).
  destruct H1 as [[-> _]|[[-> _]|[-> _]]]; auto.
Qed.

Lemma check_loader_entry_one_shot_known pf st :
  (check_loader_entry_one_shot pf st).1 <> UNKNOWN_TARGET.
Proof.
  rewrite check_loader_entry_one_shot_run.
  destruct (loader_entry_one_shot st) as [target|]; [|done]. cbv zeta.
  destruct (decide _); [done|]. by destruct (_ && _).
Qed.

(** What [check_bcb] hands to its caller together with a target path. *)
Lemma check_bcb_path pf st p :
  (check_bcb pf st).1.1.2 = Some p ->
  let r := check_bcb pf st in
  r.1.1.1 <> NORMAL_BOOT /\
  (r.1.1.1 = ESP_EFI_BINARY \/ r.1.1.1 = ESP_BOOTIMAGE) /\
  file_exists pf p = true /\ String.prefix "\" p = true /\
  (4 < String.length p)%nat /\
  (r.1.1.1 = ESP_EFI_BINARY <->
   exists pre, p = pre +:+ ".efi" \/ p = pre +:+ ".EFI") /\
  (r.1.2 = true ->
   exists bcb', bcb_writes r.2 = (bcb_writes st ++ [bcb'])%list /\
                cstr (command bcb') = "" /\ cstr (status bcb') = "") /\
  (r.1.2 = false ->
   exists m, misc r.2 = Some m /\
             String.prefix "boot-" (cstr (command m)) = true).
Proof.
  cbv zeta. destruct (misc st) as [bcb|] eqn:Hmisc; cycle 1.
  { by rewrite (check_bcb_unreadable pf st Hmisc). }
  rewrite (check_bcb_run pf st bcb Hmisc). cbv zeta.
  set (bcb1 := set_status (<[0%nat := NUL]> (status bcb)) bcb).
  set (bcb2 := set_command (<[0%nat := NUL]> (command bcb)) bcb1).
  destruct (write_bcb_effect pf bcb1 st) as [Hw1 Hm1].
  destruct (write_bcb_effect pf bcb2 st) as [Hw2 Hm2].
  assert (Htarget : forall target,
    (bcb_target pf (cstr target)).2 = Some p ->
    (bcb_target pf (cstr target)).1 <> NORMAL_BOOT /\
    ((bcb_target pf (cstr target)).1 = ESP_EFI_BINARY \/
     (bcb_target pf (cstr target)).1 = ESP_BOOTIMAGE) /\
    file_exists pf p = true /\ String.prefix "\" p = true /\
    (4 < String.length p)%nat /\
    ((bcb_target pf (cstr target)).1 = ESP_EFI_BINARY <->
     exists pre, p = pre +:+ ".efi" \/ p = pre +:+ ".EFI")).
  { intros target Hsome.
    destruct (bcb_target_cases pf (cstr target) (cstr_nul_free _))
      as (_ & Hn & Hp).
    destruct (Hp p Hsome) as (_ & Hesp & Hrest).
    split; [|by split]. intros Hnormal. rewrite (Hn Hnormal) in Hsome. done. }
  destruct (strncmpa (command bcb) _ 5 =? 0)%Z eqn:E5;
    [|destruct (strncmpa (command bcb) _ 9 =? 0)%Z eqn:E9]; cbn [fst snd].
  - intros Hsome. destruct (Htarget _ Hsome) as (H1 & H2 & H3 & H4 & H5 & H6).
    do 6 (split; [done|]). split; [done|]. intros _.
    apply strncmpa_boot in E5.
    destruct (negb _).
    + rewrite Hm1. destruct (write_bcb_ok pf); [by exists bcb1|by exists bcb].
    + by exists bcb.
  - intros Hsome. destruct (Htarget _ Hsome) as (H1 & H2 & H3 & H4 & H5 & H6).
    do 6 (split; [done|]). split; [|done]. intros _.
    exists bcb2. split; [done|]. split; apply cstr_insert_nul.
  - done.
Qed.
End SelectorMore.

(** X16.  What [choose_boot_target] hands to [efi_main].
    - A target path comes only with ESP_EFI_BINARY or ESP_BOOTIMAGE; it
      names a file that exists on the ESP, starts with a backslash and is
      longer than four characters, and the target is ESP_EFI_BINARY exactly
      when the path ends in ".efi" or ".EFI".
    - When a path comes with [*oneshot] TRUE, so that the file is to be
      deleted, the last BCB write has an empty command and status: the
      one-shot command is erased first.
    - When a path comes with [*oneshot] FALSE, the BCB on the misc
      partition still holds the "boot-" command.
    - Without a path [*oneshot] is as the BCB check left it, or TRUE.
    - The answer is UNKNOWN_TARGET only if the user gives that answer in
      the crash event menu. *)
Theorem selector_path_and_oneshot (pf : Kf.platform) (st : Kf.state) :
  let r := Kf.choose_boot_target pf st in
  (forall p, r.1.1.2 = Some p ->
     (r.1.1.1 = ESP_EFI_BINARY \/ r.1.1.1 = ESP_BOOTIMAGE) /\
     Kf.file_exists pf p = true /\ String.prefix "\" p = true /\
     (4 < String.length p)%nat /\
     (r.1.1.1 = ESP_EFI_BINARY <->
      exists pre, p = (pre +:+ ".efi")%string \/ p = (pre +:+ ".EFI")%string) /\
     (r.1.2 = true ->
      exists writes bcb',
        Kf.bcb_writes r.2 = writes ++ [bcb'] /\
        Kf.cstr (Kf.command bcb') = ""%string /\
        Kf.cstr (Kf.status bcb') = ""%string) /\
     (r.1.2 = false ->
      exists m, Kf.misc r.2 = Some m /\
                String.prefix "boot-" (Kf.cstr (Kf.command m)) = true)) /\
  (r.1.1.1 = UNKNOWN_TARGET -> Kf.crash_menu_choice pf = UNKNOWN_TARGET).
Proof.
  cbv zeta. unfold Kf.choose_boot_target, Kf.bind, Kf.ret.
  pose proof (check_command_line_range pf st) as Hcmd.
  destruct (Kf.check_command_line pf st) as [r1 st1]. cbn [fst] in Hcmd.
  destruct (decide (r1 <> NORMAL_BOOT)).
  { cbn [fst snd]. split; [done|]. intros ->.
    destruct Hcmd as [?|[?|?]]; done. }
  destruct (decide (Kf.check_fastboot_sentinel pf <> NORMAL_BOOT)).
  { cbn [fst snd]. split; [done|]. unfold Kf.check_fastboot_sentinel.
    by destruct (Kf.file_exists pf _). }
  pose proof (check_magic_key_range pf st1) as Hkey.
  destruct (Kf.check_magic_key pf st1) as [r3 st3]. cbn [fst] in Hkey.
  destruct (decide (r3 <> NORMAL_BOOT)).
  { cbn [fst snd]. split; [done|]. intros ->.
    destruct Hkey as [?|?]; done. }
  pose proof (check_watchdog_range pf st3) as Hdog.
  destruct (Kf.check_watchdog pf st3) as [r4 st4]. cbn [fst] in Hdog.
  destruct (decide (r4 <> NORMAL_BOOT)).
  { cbn [fst snd]. split; [done|]. intros ->.
    destruct Hdog as [?|[?|?]]; done. }
  destruct (decide (Kf.check_battery_inserted pf <> NORMAL_BOOT)).
  { cbn [fst snd]. split; [done|]. unfold Kf.check_battery_inserted.
    destruct (negb _); [done|]. by destruct (decide _). }
  pose proof (check_bcb_path pf st4) as Hpath.
  assert (Hknown : (Kf.check_bcb pf st4).1.1.1 <> UNKNOWN_TARGET).
  { destruct (Kf.misc st4) as [bcb|] eqn:Hmisc;
      [|by rewrite (check_bcb_unreadable pf st4 Hmisc)].
    rewrite (check_bcb_run pf st4 bcb Hmisc). cbv zeta.
    destruct (Kf.strncmpa _ _ 5 =? 0); [|destruct (Kf.strncmpa _ _ 9 =? 0)];
      cbn [fst snd]; [| |done].
    - by destruct (bcb_target_cases pf (Kf.cstr (drop 5 (Kf.command bcb)))
                     (cstr_nul_free _)) as (? & _).
    - by destruct (bcb_target_cases pf (Kf.cstr (drop 9 (Kf.command bcb)))
                     (cstr_nul_free _)) as (? & _). }
  destruct (Kf.check_bcb pf st4) as [[[r6 path] oneshot] st6].
  cbn [fst snd] in Hpath, Hknown.
  destruct (decide (r6 <> NORMAL_BOOT)).
  { cbn [fst snd]. split; [|done]. intros p ->.
    destruct (Hpath p eq_refl) as (_ & H2 & H3 & H4 & H5 & H6 & H7 & H8).
    do 5 (split; [done|]). split; [|done].
    intros Hone. destruct (H7 Hone) as (bcb' & Hw & Hc).
    by exists (Kf.bcb_writes st4), bcb'. }
  assert (Hnone : path = None).
  { destruct path as [p|]; [|done]. by destruct (Hpath p eq_refl) as (? & _). }
  subst path.
  pose proof (check_loader_entry_one_shot_known pf st6) as Hshot.
  destruct (Kf.check_loader_entry_one_shot pf st6) as [r7 st7].
  cbn [fst] in Hshot.
  destruct (decide (r7 <> DNX /\ r7 <> NORMAL_BOOT)).
  { cbn [fst snd]. split; done. }
  assert (Hbattery : Kf.check_battery pf <> UNKNOWN_TARGET).
  { unfold Kf.check_battery. destruct (negb _); [done|].
    destruct (Kf.battery_below_boot_OS_threshold pf); [|done].
    by destruct (Kf.charger_plugged_in pf). }
  assert (Hcharge : Kf.check_charge_mode pf <> UNKNOWN_TARGET).
  { unfold Kf.check_charge_mode. destruct (negb _); [done|].
    by destruct (_ || _). }
  destruct (decide (Kf.check_battery pf = POWER_OFF));
    [destruct (Kf.ux_show _ st7) as [u st8]|];
    destruct (decide (Kf.check_battery pf <> NORMAL_BOOT));
    cbn [fst snd]; split; done.
Qed.

(* ===================================================================== *)
(** * Further properties of the trust state in efi_main                   *)
(* ===================================================================== *)

(** X17.  When the trust state [efi_main] passes on to [load_image] is
    GREEN or YELLOW, the boot image was loaded without error, the state is
    the one [verify_android_boot_image] gave for it, and the target name
    the image declares compares equal to "/boot" or "/recovery", whichever
    the boot target allows: "/recovery" only for NORMAL_BOOT, MEMORY, and
    RECOVERY outside the boot partition; "/boot" for NORMAL_BOOT, MEMORY,
    CHARGER, ESP_BOOTIMAGE, and RECOVERY inside the boot partition.  In a
    USERDEBUG build the device is then locked, and EFI secure boot is
    enabled or the device is provisioning. *)
Theorem trusted_state_only_if
    (sec : Kf.security) (target : boot_target)
    (loaded : EFI_STATUS * list Byte.byte) :
  Kf.efi_main_boot_state sec target loaded = BOOT_STATE_GREEN \/
  Kf.efi_main_boot_state sec target loaded = BOOT_STATE_YELLOW ->
  EFI_ERROR loaded.1 = false /\
  (Kf.verify_android_boot_image sec loaded.2).1
  = Kf.efi_main_boot_state sec target loaded /\
  (Kf.USERDEBUG sec = true ->
   Kf.device_is_unlocked sec = false /\
   (Kf.efi_secure_boot_enabled sec = true \/
    Kf.device_is_provisioning sec = true)) /\
  (Kf.StrCmp "/boot" (Kf.verify_android_boot_image sec loaded.2).2 = 0 /\
   (target ∈ [NORMAL_BOOT; MEMORY; CHARGER; ESP_BOOTIMAGE] \/
    target = RECOVERY /\ Kf.recovery_in_boot_partition sec = true)
   \/
   Kf.StrCmp "/recovery" (Kf.verify_android_boot_image sec loaded.2).2 = 0 /\
   (target ∈ [NORMAL_BOOT; MEMORY] \/
    target = RECOVERY /\ Kf.recovery_in_boot_partition sec = false)).
Proof.
  unfold Kf.efi_main_boot_state, Kf.load_validate_stage.
  destruct loaded as [ret bootimage]. cbn [fst snd].
  destruct (EFI_ERROR ret); [by intros [?|?]|].
  assert (Hdev : Kf.device_boot_state sec = BOOT_STATE_ORANGE \/
                 Kf.device_boot_state sec <> BOOT_STATE_ORANGE /\
                 (Kf.USERDEBUG sec = true ->
                  Kf.device_is_unlocked sec = false /\
                  (Kf.efi_secure_boot_enabled sec = true \/
                   Kf.device_is_provisioning sec = true))).
  { unfold Kf.device_boot_state. destruct (Kf.USERDEBUG sec); [|by right].
    destruct (Kf.efi_secure_boot_enabled sec), (Kf.device_is_provisioning sec),
      (Kf.device_is_unlocked sec); cbn [negb andb]; auto;
      right; (split; [done|]); intros _; auto. }
  destruct Hdev as [-> |[Hne Hlock]]; [by intros [?|?]|].
  destruct (Z.eqb_spec (Kf.device_boot_state sec) BOOT_STATE_ORANGE);
    [done|]. cbn [negb].
  unfold Kf.validate_bootimage.
  destruct (Kf.verify_android_boot_image sec bootimage) as [verdict name].
  cbn [fst snd].
  destruct (Z.eqb_spec verdict BOOT_STATE_RED) as [-> |Hred];
    [by intros [?|?]|].
  destruct (Kf.expected_targets sec target) as [e1 e2] eqn:Hexp.
  destruct (Kf.name_differs e1 name && Kf.name_differs e2 name) eqn:Hdiff;
    [by intros [?|?]|].
  intros _. split; [done|]. split; [done|]. split; [done|].
  assert (Hin : forall (t : boot_target) l, t ∈ t :: l)
    by (intros; apply list_elem_of_here).
  assert (Hnext : forall (t x : boot_target) l, t ∈ l -> t ∈ x :: l)
    by (intros; by apply list_elem_of_further).
  apply andb_false_iff in Hdiff.
  unfold Kf.name_differs in Hdiff.
  destruct target; cbn [Kf.expected_targets] in Hexp;
    try destruct (Kf.recovery_in_boot_partition sec) eqn:Hrec;
    injection Hexp as <- <-;
    destruct Hdiff as [Hd|Hd]; try discriminate Hd;
    apply negb_false_iff, Z.eqb_eq in Hd;
    first [ left; split; [exact Hd|]; first [left; by auto 6 | right; by split]
          | right; split; [exact Hd|]; first [left; by auto 6 | right; by split] ].
Qed.

Lemma trusted_state_only_if_witness :
  let sec := Kf.sample_security true (BOOT_STATE_YELLOW, "/recovery"%string) in
  Kf.efi_main_boot_state sec NORMAL_BOOT (EFI_SUCCESS, []) = BOOT_STATE_YELLOW /\
  Kf.device_is_unlocked sec = false /\
  Kf.StrCmp "/recovery" (Kf.verify_android_boot_image sec []).2 = 0.
Proof.
  intros sec.
  assert (Hstate : Kf.efi_main_boot_state sec NORMAL_BOOT (EFI_SUCCESS, [])
                   = BOOT_STATE_YELLOW) by reflexivity.
  split; [exact Hstate|].
  destruct (trusted_state_only_if sec NORMAL_BOOT (EFI_SUCCESS, [])
              (or_intror Hstate)) as (_ & _ & Hlock & _).
  split; [exact (proj1 (Hlock eq_refl))|reflexivity].
Defined.

(* ===================================================================== *)
(** * Properties of load_boot_image                                       *)
(* ===================================================================== *)

Section LoadBootImage.
Import Kf.
Context {St : Type} (ops : slot_ops St) (tries : St -> nat).
Context (Hspec : slot_ops_spec ops tries).

(** With more fuel than tries left, the loop ends.  When it ends with an
    error no slot is active; when it ends without, the image is the one
    read from the boot partition of the slot then active, and that slot
    has not been marked as failed.  Without slots the slot controller is
    left alone. *)
Lemma load_slot_loop_ends fuel :
  forall t s bootimage,
    (tries s < fuel)%nat ->
    exists ret bootimage' s',
      load_slot_loop ops fuel t s bootimage = Some (ret, bootimage', s') /\
      (EFI_ERROR ret = true -> slot_get_active ops s' = None) /\
      (EFI_ERROR ret = false ->
       exists bootimage0,
         android_image_load_partition ops (slot_label ops s' BOOT_LABEL)
           bootimage0 = (ret, bootimage')) /\
      (use_slot ops = false -> s' = s).
Proof.
  induction fuel as [|fuel IH]; intros t s bootimage Hfuel; [lia|].
  cbn [load_slot_loop].
  destruct (android_image_load_partition ops (slot_label ops s BOOT_LABEL)
              bootimage) as [ret bootimage1] eqn:Hload.
  destruct (EFI_ERROR ret) eqn:Herr; cbn [andb].
  - destruct (use_slot ops) eqn:Hslot.
    + destruct (bool_decide (is_Some (slot_get_active ops
                                        (slot_boot_failed ops t s)))) eqn:Hact.
      * apply bool_decide_eq_true_1 in Hact.
        pose proof (boot_failed_uses_try ops tries Hspec t s Hact) as Hless.
        destruct (IH t (slot_boot_failed ops t s) bootimage1 ltac:(lia))
          as (ret' & img' & s' & Hrun & Hko & Hok & Hnone).
        exists ret', img', s'. by repeat split.
      * apply bool_decide_eq_false_1 in Hact.
        exists ret, bootimage1, (slot_boot_failed ops t s).
        split; [done|]. split; [|split; [congruence|done]].
        intros _. destruct (slot_get_active ops _); [|done].
        exfalso. apply Hact. by eexists.
    + rewrite (no_slots_none_active ops tries Hspec Hslot s).
      rewrite bool_decide_eq_false_2 by (by intros [? ?]).
      exists ret, bootimage1, s. split; [done|].
      split; [intros _; by apply (no_slots_none_active ops tries Hspec)|].
      split; [congruence|done].
  - exists ret, bootimage1, s. split; [done|]. split; [congruence|].
    split; [|done]. intros _. by exists bootimage.
Qed.

Lemma load_boot_partition_ends fuel t s bootimage :
  (tries s < fuel)%nat ->
  exists ret bootimage' s',
    load_boot_partition ops fuel t s bootimage = Some (ret, bootimage', s') /\
    (EFI_ERROR ret = true -> slot_get_active ops s' = None) /\
    (EFI_ERROR ret = false ->
     exists bootimage0,
       android_image_load_partition ops (slot_label ops s' BOOT_LABEL)
         bootimage0 = (ret, bootimage')) /\
    (use_slot ops = false -> s' = s).
Proof.
  intros Hfuel. unfold load_boot_partition.
  destruct (use_slot ops && negb _) eqn:Hnone;
    [|by apply load_slot_loop_ends].
  apply andb_true_iff in Hnone as [_ Hnone].
  apply negb_true_iff, bool_decide_eq_false_1 in Hnone.
  exists EFI_NOT_FOUND, bootimage, s. split; [done|].
  split; [|split; [done|done]].
  intros _. destruct (slot_get_active ops s); [|done].
  exfalso. apply Hnone. by eexists.
Qed.
End LoadBootImage.

(** X18.  [load_boot_image] over a slot controller whose
    [slot_boot_failed] uses up one of finitely many tries.  With more
    iterations allowed than tries are left, the function returns.  For
    NORMAL_BOOT and CHARGER, and for RECOVERY inside the boot partition:
    an error is returned only when no slot is active any more; on success
    the image is the one read from the boot partition of the slot that is
    active on return; without slots the slot controller is left alone.
    For a boot target other than NORMAL_BOOT, CHARGER, RECOVERY and
    ESP_BOOTIMAGE, MEMORY included, the function returns
    EFI_INVALID_PARAMETER with a NULL image, reads nothing and leaves the
    slot controller alone. *)
Theorem load_boot_image_failover
    {St : Type} (ops : Kf.slot_ops St) (tries : St -> nat)
    (sec : Kf.security) (fuel : nat) (target : boot_target)
    (target_path : option string) (bootimage : option (list Byte.byte))
    (oneshot : bool) (s : St) :
  Kf.slot_ops_spec ops tries ->
  (tries s < fuel)%nat ->
  exists ret bootimage' s',
    Kf.load_boot_image ops sec fuel target target_path bootimage oneshot s
    = Some (ret, bootimage', s') /\
    (target = NORMAL_BOOT \/ target = CHARGER \/
     target = RECOVERY /\ Kf.recovery_in_boot_partition sec = true ->
     (EFI_ERROR ret = true -> Kf.slot_get_active ops s' = None) /\
     (EFI_ERROR ret = false ->
      exists bootimage0,
        Kf.android_image_load_partition ops
          (Kf.slot_label ops s' Kf.BOOT_LABEL) bootimage0
        = (ret, bootimage')) /\
     (Kf.use_slot ops = false -> s' = s)) /\
    (target ∉ [NORMAL_BOOT; CHARGER; RECOVERY; ESP_BOOTIMAGE] ->
     ret = EFI_INVALID_PARAMETER /\ bootimage' = None /\ s' = s).
Proof.
  intros Hspec Hfuel.
  assert (Hpart : forall t,
    exists ret bootimage' s',
      Kf.load_boot_partition ops fuel t s bootimage = Some (ret, bootimage', s') /\
      (EFI_ERROR ret = true -> Kf.slot_get_active ops s' = None) /\
      (EFI_ERROR ret = false ->
       exists bootimage0,
         Kf.android_image_load_partition ops
           (Kf.slot_label ops s' Kf.BOOT_LABEL) bootimage0
         = (ret, bootimage')) /\
      (Kf.use_slot ops = false -> s' = s))
    by (intros t; by apply (load_boot_partition_ends ops tries Hspec)).
  assert (Hin : forall l (t : boot_target), t ∈ t :: l)
    by (intros; apply list_elem_of_here).
  assert (Hnext : forall l (t x : boot_target), t ∈ l -> t ∈ x :: l)
    by (intros; by apply list_elem_of_further).
  destruct target; cbn [Kf.load_boot_image];
    try (eexists _, _, _; split; [reflexivity|];
         split; [by intros [?|[?|[? ?]]]|done]).
  - destruct (Hpart NORMAL_BOOT) as (ret & img & s' & Hrun & Hrest).
    exists ret, img, s'. split; [done|]. split; [done|].
    intros Hno. exfalso. apply Hno. auto.
  - destruct (Kf.recovery_in_boot_partition sec) eqn:Hrec.
    + destruct (Hpart NORMAL_BOOT) as (ret & img & s' & Hrun & Hrest).
      exists ret, img, s'. split; [done|]. split; [done|].
      intros Hno. exfalso. apply Hno. auto.
    + destruct (Kf.use_slot ops && _).
      * eexists _, _, _. split; [reflexivity|].
        split; [by intros [?|[?|[? ?]]]|].
        intros Hno. exfalso. apply Hno. auto.
      * destruct (Kf.android_image_load_partition ops _ _) as [ret img].
        exists ret, img, s. split; [done|].
        split; [by intros [?|[?|[? ?]]]|].
        intros Hno. exfalso. apply Hno. auto.
  - destruct (Kf.android_image_load_file ops _ _ _) as [ret img].
    exists ret, img, s. split; [done|].
    split; [by intros [?|[?|[? ?]]]|].
    intros Hno. exfalso. apply Hno. auto 6.
  - destruct (Hpart CHARGER) as (ret & img & s' & Hrun & Hrest).
    exists ret, img, s'. split; [done|]. split; [done|].
    intros Hno. exfalso. apply Hno. auto.
Qed.

Lemma sample_slot_ops_spec good :
  Kf.slot_ops_spec (Kf.sample_slot_ops good) (fun s => (s.1 + s.2)%nat).
Proof.
  split; [done|]. intros t [a b]. cbn. unfold Kf.sample_active.
  destruct a as [|a]; cbn; [|intros _; lia].
  destruct b as [|[|b]]; cbn; [by intros [? ?]|by intros [? ?]|intros _; lia].
Qed.

Lemma load_boot_image_failover_witness :
  let ops := Kf.sample_slot_ops "_b" in
  let sec := Kf.sample_security true (BOOT_STATE_GREEN, "/boot"%string) in
  (1 + 1 < 3)%nat /\
  Kf.load_boot_image ops sec 3 NORMAL_BOOT None None false (1, 1)%nat
  = Some (EFI_SUCCESS, Some [], (0, 1)%nat) /\
  exists ret bootimage' s',
    Kf.load_boot_image ops sec 3 NORMAL_BOOT None None false (1, 1)%nat
    = Some (ret, bootimage', s') /\
    (EFI_ERROR ret = true -> Kf.slot_get_active ops s' = None).
Proof.
  intros ops sec. split; [lia|]. split; [reflexivity|].
  destruct (load_boot_image_failover ops (fun s => (s.1 + s.2)%nat) sec 3
              NORMAL_BOOT None None false (1, 1)%nat
              (sample_slot_ops_spec "_b") ltac:(simpl; lia))
    as (ret & img & s' & Hrun & Hnormal & _).
  exists ret, img, s'. split; [exact Hrun|].
  exact (proj1 (Hnormal (or_introl eq_refl))).
Defined.

(* ===================================================================== *)
(** * The battery checks of the selector                                  *)
(* ===================================================================== *)

(** X19.  Without off-mode charging the battery and the charger play no
    part in the choice: the three battery checks answer NORMAL_BOOT,
    [check_loader_entry_one_shot] never answers CHARGER, and
    [choose_boot_target] answers, and leaves the state, as the priority
    rule over the remaining checks does; in particular the low-battery
    screen is not shown. *)
Theorem no_off_mode_charge_no_battery_rule (pf : Kf.platform) (st : Kf.state) :
  Kf.off_mode_charge pf = false ->
  Kf.check_battery_inserted pf = NORMAL_BOOT /\
  Kf.check_battery pf = NORMAL_BOOT /\
  Kf.check_charge_mode pf = NORMAL_BOOT /\
  (Kf.check_loader_entry_one_shot pf st).1 <> CHARGER /\
  ((Kf.choose_boot_target pf st).1.1.1, (Kf.choose_boot_target pf st).2)
  = Kf.first_rule_wins (Kf.rules_without_battery pf) st.
Proof.
  intros Hoff.
  assert (Hins : Kf.check_battery_inserted pf = NORMAL_BOOT)
    by (unfold Kf.check_battery_inserted; by rewrite Hoff).
  assert (Hbat : Kf.check_battery pf = NORMAL_BOOT)
    by (unfold Kf.check_battery; by rewrite Hoff).
  assert (Hchg : Kf.check_charge_mode pf = NORMAL_BOOT)
    by (unfold Kf.check_charge_mode; by rewrite Hoff).
  split; [done|]. split; [done|]. split; [done|]. split.
  { rewrite check_loader_entry_one_shot_run.
    destruct (Kf.loader_entry_one_shot st) as [target|]; [|done]. cbv zeta.
    destruct (decide _); [done|]. rewrite Hoff. cbn [negb].
    destruct (bool_decide _) eqn:Hc; cbn [andb fst]; [done|].
    by apply bool_decide_eq_false_1 in Hc. }
  rewrite (choose_boot_target_first_rule pf st).
  unfold Kf.code_rules, Kf.rules_before_one_shot, Kf.rules_after_one_shot,
    Kf.rules_without_battery, Kf.battery_rule.
  rewrite Hins, Hbat, Hchg.
  cbn [app Kf.first_rule_wins]. unfold Kf.bind, Kf.ret.
  destruct (Kf.check_command_line pf st) as [r1 st1].
  destruct (decide (r1 <> NORMAL_BOOT)); [done|].
  destruct (decide (Kf.check_fastboot_sentinel pf <> NORMAL_BOOT)); [done|].
  destruct (Kf.check_magic_key pf st1) as [r3 st3].
  destruct (decide (r3 <> NORMAL_BOOT)); [done|].
  destruct (Kf.check_watchdog pf st3) as [r4 st4].
  destruct (decide (r4 <> NORMAL_BOOT)); [done|].
  destruct (decide (NORMAL_BOOT <> NORMAL_BOOT)); [done|].
  destruct (Kf.bcb_rule pf st4) as [r6 st6].
  destruct (decide (r6 <> NORMAL_BOOT)); [done|].
  destruct (Kf.ignoring_dnx (Kf.check_loader_entry_one_shot pf) st6)
    as [r7 st7].
  destruct (decide (r7 <> NORMAL_BOOT)); [done|].
  by destruct (decide (NORMAL_BOOT = POWER_OFF)).
Qed.

Lemma no_off_mode_charge_no_battery_rule_witness :
  let pf := Kf.no_charge_platform in
  let st := Kf.set_one_shot (Some "charging"%string) Kf.sample_state in
  Kf.off_mode_charge pf = false /\
  (Kf.check_loader_entry_one_shot pf st).1 = POWER_OFF /\
  (Kf.choose_boot_target pf st).1.1.1 = POWER_OFF /\
  Kf.ux_shown (Kf.choose_boot_target pf st).2 = [] /\
  Kf.check_battery pf = NORMAL_BOOT.
Proof.
  intros pf st. split; [reflexivity|]. split; [reflexivity|].
  split; [reflexivity|]. split; [reflexivity|].
  exact (proj1 (proj2 (no_off_mode_charge_no_battery_rule pf st eq_refl))).
Defined.

(* ===================================================================== *)
(** * What choose_boot_target changes                                     *)
(* ===================================================================== *)

Section SelectorStages.
Import Kf.
Local Open Scope string_scope.

(** [choose_boot_target] over the results of its checks: [c1] the command
    line, [c3] the magic key, [c4] the watchdog, [c6] the BCB and [c7] the
    one-shot variable, each run on the state the one before it left. *)
Lemma choose_boot_target_run pf st :
  let c1 := check_command_line pf st in
  let c3 := check_magic_key pf c1.2 in
  let c4 := check_watchdog pf c3.2 in
  let c6 := check_bcb pf c4.2 in
  let c7 := check_loader_entry_one_shot pf c6.2 in
  choose_boot_target pf st =
  if decide (c1.1 <> NORMAL_BOOT) then ((c1.1, None, true), c1.2)
  else if decide (check_fastboot_sentinel pf <> NORMAL_BOOT)
  then ((check_fastboot_sentinel pf, None, true), c1.2)
  else if decide (c3.1 <> NORMAL_BOOT) then ((c3.1, None, true), c3.2)
  else if decide (c4.1 <> NORMAL_BOOT) then ((c4.1, None, true), c4.2)
  else if decide (check_battery_inserted pf <> NORMAL_BOOT)
  then ((check_battery_inserted pf, None, true), c4.2)
  else if decide (c6.1.1.1 <> NORMAL_BOOT) then c6
  else if decide (c7.1 <> DNX /\ c7.1 <> NORMAL_BOOT)
  then ((c7.1, c6.1.1.2, c6.1.2), c7.2)
  else if decide (check_battery pf = POWER_OFF)
  then ((POWER_OFF, c6.1.1.2, c6.1.2),
        set_ux (ux_shown c7.2 ++ [UxLowBattery 3])%list c7.2)
  else if decide (check_battery pf <> NORMAL_BOOT)
  then ((check_battery pf, c6.1.1.2, c6.1.2), c7.2)
  else ((check_charge_mode pf, c6.1.1.2, c6.1.2), c7.2).
Proof.
  cbv zeta. unfold choose_boot_target, bind, ret.
  destruct (check_command_line pf st) as [r1 st1]. cbn [fst snd].
  destruct (decide (r1 <> NORMAL_BOOT)); [done|].
  destruct (decide (check_fastboot_sentinel pf <> NORMAL_BOOT)); [done|].
  destruct (check_magic_key pf st1) as [r3 st3]. cbn [fst snd].
  destruct (decide (r3 <> NORMAL_BOOT)); [done|].
  destruct (check_watchdog pf st3) as [r4 st4]. cbn [fst snd].
  destruct (decide (r4 <> NORMAL_BOOT)); [done|].
  destruct (decide (check_battery_inserted pf <> NORMAL_BOOT)); [done|].
  destruct (check_bcb pf st4) as [[[r6 path] oneshot] st6]. cbn [fst snd].
  destruct (decide (r6 <> NORMAL_BOOT)); [done|].
  destruct (check_loader_entry_one_shot pf st6) as [r7 st7]. cbn [fst snd].
  destruct (decide (r7 <> DNX /\ r7 <> NORMAL_BOOT)); [done|].
  destruct (decide (check_battery pf = POWER_OFF)) as [Hoff|Hoff].
  - unfold ux_show, modify. rewrite Hoff.
    destruct (decide (POWER_OFF <> NORMAL_BOOT)) as [_|Hn]; [done|].
    exfalso. by apply Hn.
  - by destruct (decide (check_battery pf <> NORMAL_BOOT)).
Qed.

(** What each check can change. *)
Lemma check_command_line_shape pf st :
  (check_command_line pf st).2 = st \/
  (check_command_line pf st).1 = EXIT_SHELL /\
  exists name,
    (check_command_line pf st).2
    = set_unittests (unittests_run st ++ [name])%list st.
Proof.
  unfold check_command_line. destruct (argv pf) as [args|]; [|by left].
  destruct (command_line_loop_props (length args) args (USER pf) 0
              NORMAL_BOOT st (Nat.le_refl _) ltac:(by left))
    as (H1 & _ & _).
  destruct H1 as [[_ ?]|[[_ ?]|(? & _ & ?)]]; auto.
Qed.

Lemma check_magic_key_state pf st :
  (check_magic_key pf st).2 = (poll_key (magic_key_wait_ms pf) st).2.
Proof.
  unfold check_magic_key, bind, ret.
  destruct (poll_key (magic_key_wait_ms pf) st) as [[status key] st'].
  destruct (EFI_ERROR status); [done|]. destruct (negb _); [done|].
  by destruct (ui_enforce_key_held pf _ _).
Qed.

Lemma check_magic_key_shape pf st :
  exists reads stalls : nat,
    (stalls <= magic_key_wait_ms pf)%nat /\ (reads <= stalls + 1)%nat /\
    (check_magic_key pf st).2 =
    set_stalled (stalled_us st + 1000 * N.of_nat stalls)%N
      (set_keys (drop reads (key_queue st)) st).
Proof. rewrite check_magic_key_state. apply poll_key_frame. Qed.

Lemma check_watchdog_shape pf st :
  exists c t r l,
    (check_watchdog pf st).2
    = set_ux l (set_reboot_reason r (set_watchdog c t st)) /\
    (l = ux_shown st \/
     l = (ux_shown st ++ [UxCrashEventMenu])%list /\
     (check_watchdog pf st).1 = crash_menu_choice pf).
Proof.
  assert (Heta : forall st' : state,
    exists c t r l,
      st' = set_ux l (set_reboot_reason r (set_watchdog c t st')) /\
      l = ux_shown st').
  { intros st'. exists (watchdog_counter st'), (watchdog_time_ref st'),
      (reboot_reason st'), (ux_shown st'). by destruct st'. }
  assert (Hsame : forall bt, exists c t r l,
    (bt, st).2 = set_ux l (set_reboot_reason r (set_watchdog c t st)) /\
    (l = ux_shown st \/
     l = (ux_shown st ++ [UxCrashEventMenu])%list /\
     (bt, st).1 = crash_menu_choice pf)).
  { intros bt. destruct (Heta st) as (c & t & r & l & H1 & H2).
    exists c, t, r, l. split; [done|by left]. }
  rewrite check_watchdog_run.
  destruct (negb (crash_event_menu pf) || negb (watchdog_status_ok pf));
    [apply Hsame|].
  destruct (negb (reset_is_due_to_watchdog_or_panic pf st).1).
  { destruct (negb (watchdog_counter st =? 0)%Z && watchdog_reset_ok pf);
      [|apply Hsame].
    exists 0%Z, 0%Z, (reboot_reason st), (ux_shown st).
    split; [by destruct st|by left]. }
  destruct (USER pf && bool_decide (reboot_reason st = Some "shutdown")).
  { exists (watchdog_counter st), (watchdog_time_ref st), None, (ux_shown st).
    split; [by destruct st|by left]. }
  destruct (now pf) as [t|]; [|apply Hsame]. cbv zeta.
  set (c := if _ && _ then 0%Z else watchdog_counter st). clearbody c.
  destruct ((c =? 0)%Z && negb (watchdog_set_time_ok pf)); [apply Hsame|].
  set (st1 := if (c =? 0)%Z then _ else st).
  assert (Hst1 : exists t1, st1 = set_watchdog (watchdog_counter st) t1 st).
  { subst st1. destruct (c =? 0)%Z.
    - by eexists.
    - exists (watchdog_time_ref st). by destruct st. }
  destruct Hst1 as [t1 ->].
  destruct ((c + 1) mod 256 <=? watchdog_counter_max pf)%Z; cbn [fst snd].
  - destruct (watchdog_set_counter_ok pf).
    + exists ((c + 1) mod 256)%Z, t1, (reboot_reason st), (ux_shown st).
      split; [by destruct st|by left].
    + exists (watchdog_counter st), t1, (reboot_reason st), (ux_shown st).
      split; [by destruct st|by left].
  - destruct (watchdog_reset_ok pf).
    + exists 0%Z, 0%Z, (reboot_reason st),
        (ux_shown st ++ [UxCrashEventMenu])%list.
      split; [done|by right].
    + exists (watchdog_counter st), t1, (reboot_reason st),
        (ux_shown st ++ [UxCrashEventMenu])%list.
      split; [done|by right].
Qed.

Lemma write_bcb_shape pf bcb st :
  (write_bcb pf bcb st).2
  = set_bcb (if write_bcb_ok pf then Some bcb else misc st)
      (bcb_writes st ++ [bcb])%list st.
Proof.
  unfold write_bcb, bind, get, modify, ret. by destruct (write_bcb_ok pf).
Qed.

Lemma check_bcb_shape pf st :
  (check_bcb pf st).2 = st \/
  exists bcb bcb',
    misc st = Some bcb /\
    (check_bcb pf st).2
    = set_bcb (if write_bcb_ok pf then Some bcb' else misc st)
        (bcb_writes st ++ [bcb'])%list st /\
    cstr (status bcb') = "" /\
    recovery bcb' = recovery bcb /\ stage bcb' = stage bcb /\
    (command bcb' = command bcb \/
     String.prefix "bootonce-" (cstr (command bcb)) = true /\
     cstr (command bcb') = "").
Proof.
  destruct (misc st) as [bcb|] eqn:Hmisc;
    [|left; by rewrite (check_bcb_unreadable pf st Hmisc)].
  rewrite (check_bcb_run pf st bcb Hmisc). cbv zeta.
  set (bcb1 := set_status (<[0%nat := NUL]> (status bcb)) bcb).
  set (bcb2 := set_command (<[0%nat := NUL]> (command bcb)) bcb1).
  assert (H1 : exists bcb',
    (write_bcb pf bcb1 st).2
    = set_bcb (if write_bcb_ok pf then Some bcb' else Some bcb)
        (bcb_writes st ++ [bcb'])%list st /\
    cstr (status bcb') = "" /\
    recovery bcb' = recovery bcb /\ stage bcb' = stage bcb /\
    (command bcb' = command bcb \/
     String.prefix "bootonce-" (cstr (command bcb)) = true /\
     cstr (command bcb') = "")).
  { exists bcb1. split; [by rewrite write_bcb_shape, Hmisc|].
    split; [apply cstr_insert_nul|]. split; [done|]. split; [done|by left]. }
  destruct H1 as [bcb' H1].
  destruct (strncmpa (command bcb) _ 5 =? 0)%Z;
    [|destruct (strncmpa (command bcb) _ 9 =? 0)%Z eqn:E9]; cbn [snd].
  - destruct (negb _); [right; by exists bcb, bcb'|by left].
  - right. exists bcb, bcb2. split; [done|].
    split; [by rewrite write_bcb_shape, Hmisc|].
    split; [apply cstr_insert_nul|]. split; [done|]. split; [done|].
    right. split; [by apply strncmpa_bootonce|apply cstr_insert_nul].
  - destruct (negb _); [right; by exists bcb, bcb'|by left].
Qed.

Lemma check_loader_entry_one_shot_shape pf st :
  exists v,
    (check_loader_entry_one_shot pf st).2
    = set_verity v (set_one_shot None st) /\
    (v = verity_corrupted st \/ v = true).
Proof.
  rewrite check_loader_entry_one_shot_run.
  destruct (loader_entry_one_shot st) as [target|]; cbv zeta.
  - destruct (decide _).
    + destruct (_ && _); cbn [snd].
      * exists true. split; [done|by right].
      * exists (verity_corrupted st). split; [done|by left].
    + destruct (_ && _); cbn [snd];
        exists (verity_corrupted st); (split; [done|by left]).
  - exists (verity_corrupted st). split; [done|by left].
Qed.
End SelectorStages.

Section SelectorFrames.
Import Kf.
Local Open Scope string_scope.

(** The parts of the state each check leaves alone. *)
Lemma check_command_line_frame pf st :
  let s := (check_command_line pf st).2 in
  key_queue s = key_queue st /\ stalled_us s = stalled_us st /\
  misc s = misc st /\ bcb_writes s = bcb_writes st /\
  ux_shown s = ux_shown st.
Proof.
  cbv zeta.
  destruct (check_command_line_shape pf st) as [-> |(_ & name & ->)]; done.
Qed.

Lemma check_magic_key_frame pf st :
  let s := (check_magic_key pf st).2 in
  misc s = misc st /\ bcb_writes s = bcb_writes st /\
  ux_shown s = ux_shown st.
Proof.
  cbv zeta.
  by destruct (check_magic_key_shape pf st) as (reads & stalls & _ & _ & ->).
Qed.

Lemma check_watchdog_frame pf st :
  let s := (check_watchdog pf st).2 in
  key_queue s = key_queue st /\ stalled_us s = stalled_us st /\
  misc s = misc st /\ bcb_writes s = bcb_writes st /\
  (ux_shown s = ux_shown st \/
   ux_shown s = (ux_shown st ++ [UxCrashEventMenu])%list /\
   (check_watchdog pf st).1 = crash_menu_choice pf).
Proof.
  cbv zeta.
  destruct (check_watchdog_shape pf st) as (c & t & r & l & -> & Hl).
  by destruct Hl as [-> |[-> ?]]; repeat split; auto.
Qed.

Lemma check_bcb_frame pf st :
  let s := (check_bcb pf st).2 in
  key_queue s = key_queue st /\ stalled_us s = stalled_us st /\
  ux_shown s = ux_shown st.
Proof.
  cbv zeta.
  by destruct (check_bcb_shape pf st) as [-> |(bcb & bcb' & _ & -> & _)].
Qed.

Lemma check_loader_entry_one_shot_frame pf st :
  let s := (check_loader_entry_one_shot pf st).2 in
  key_queue s = key_queue st /\ stalled_us s = stalled_us st /\
  misc s = misc st /\ bcb_writes s = bcb_writes st /\
  ux_shown s = ux_shown st.
Proof.
  cbv zeta.
  by destruct (check_loader_entry_one_shot_shape pf st) as (v & -> & _).
Qed.
End SelectorFrames.


(** X22.  The screens [choose_boot_target] shows: the crash event menu at
    most once, then the low-battery screen at most once, nothing else.
    The low-battery screen is shown only when POWER_OFF is answered, with
    off-mode charging enabled, the battery below the boot threshold and no
    charger plugged in.  After the crash event menu the answer is the one
    the user gave there, unless that was NORMAL_BOOT. *)
Theorem selector_screens (pf : Kf.platform) (st : Kf.state) :
  let r := Kf.choose_boot_target pf st in
  exists menu low : bool,
    Kf.ux_shown r.2
    = Kf.ux_shown st ++ (if menu then [Kf.UxCrashEventMenu] else [])
      ++ (if low then [Kf.UxLowBattery 3] else []) /\
    (low = true ->
     r.1.1.1 = POWER_OFF /\ Kf.off_mode_charge pf = true /\
     Kf.battery_below_boot_OS_threshold pf = true /\
     Kf.charger_plugged_in pf = false) /\
    (menu = true ->
     r.1.1.1 = Kf.crash_menu_choice pf \/
     Kf.crash_menu_choice pf = NORMAL_BOOT).
Proof.
  cbv zeta. rewrite choose_boot_target_run. cbv zeta.
  destruct (check_command_line_frame pf st) as (_ & _ & _ & _ & Hu1).
  set (st1 := (Kf.check_command_line pf st).2) in *.
  destruct (check_magic_key_frame pf st1) as (_ & _ & Hu3).
  set (st3 := (Kf.check_magic_key pf st1).2) in *.
  destruct (check_watchdog_frame pf st3) as (_ & _ & _ & _ & Hu4).
  set (r4 := (Kf.check_watchdog pf st3).1) in *.
  set (st4 := (Kf.check_watchdog pf st3).2) in *.
  destruct (check_bcb_frame pf st4) as (_ & _ & Hu6).
  set (st6 := (Kf.check_bcb pf st4).2) in *.
  destruct (check_loader_entry_one_shot_frame pf st6) as (_ & _ & _ & _ & Hu7).
  set (st7 := (Kf.check_loader_entry_one_shot pf st6).2) in *.
  destruct (decide _);
    [exists false, false; cbn [snd]; by rewrite Hu1, app_nil_r|].
  destruct (decide _);
    [exists false, false; cbn [snd]; by rewrite Hu1, app_nil_r|].
  destruct (decide _);
    [exists false, false; cbn [snd]; by rewrite Hu3, Hu1, app_nil_r|].
  assert (Hmenu : exists menu : bool,
    Kf.ux_shown st4
    = Kf.ux_shown st ++ (if menu then [Kf.UxCrashEventMenu] else []) /\
    (menu = true -> r4 = Kf.crash_menu_choice pf)).
  { destruct Hu4 as [Hu4|[Hu4 Hr4]].
    - exists false. by rewrite Hu4, Hu3, Hu1, app_nil_r.
    - exists true. by rewrite Hu4, Hu3, Hu1. }
  destruct Hmenu as (menu & Hux4 & Hr4).
  destruct (decide (r4 <> NORMAL_BOOT)) as [Hne|Heq].
  { exists menu, false. cbn [fst snd]. rewrite app_nil_r.
    split; [done|]. split; [done|]. intros Hm. left. by apply Hr4. }
  assert (Hchoice : menu = true -> Kf.crash_menu_choice pf = NORMAL_BOOT).
  { intros Hm. rewrite <- (Hr4 Hm).
    by destruct (decide (r4 = NORMAL_BOOT)). }
  destruct (decide _).
  { exists menu, false. cbn [fst snd]. rewrite app_nil_r.
    split; [done|]. split; [done|]. intros Hm. right. by apply Hchoice. }
  destruct (decide _).
  { exists menu, false. fold st6. rewrite Hu6, app_nil_r.
    split; [done|]. split; [done|]. intros Hm. right. by apply Hchoice. }
  destruct (decide _).
  { exists menu, false. cbn [fst snd]. rewrite Hu7, Hu6, app_nil_r.
    split; [done|]. split; [done|]. intros Hm. right. by apply Hchoice. }
  destruct (decide (Kf.check_battery pf = POWER_OFF)) as [Hoff|Hoff].
  { exists menu, true. cbn [fst snd Kf.ux_shown Kf.set_ux].
    rewrite Hu7, Hu6, Hux4, <- app_assoc.
    split; [done|]. split; [|intros Hm; right; by apply Hchoice].
    intros _. split; [done|]. unfold Kf.check_battery in Hoff.
    destruct (Kf.off_mode_charge pf); cbn [negb] in Hoff; [|done].
    destruct (Kf.battery_below_boot_OS_threshold pf); [|done].
    by destruct (Kf.charger_plugged_in pf). }
  destruct (decide _);
    exists menu, false; cbn [fst snd]; rewrite Hu7, Hu6, app_nil_r;
    (split; [done|]); (split; [done|]); intros Hm; right; by apply Hchoice.
Qed.
